(** * Fine-tuning sentence pair classification with BERT (06_bert/bert.ipynb)

    A shallow embedding of the notebook.  The notebook is a script: it
    seeds the random generators, loads the pre-trained BERT model, attaches
    a classifier, transforms the MRPC sentence pairs and runs the training
    loop.  The cells are embedded in the order in which they stand in the
    notebook (top to bottom); a cell that raises stops the run.

    The deep-learning framework (MXNet, GluonNLP) is not part of the
    repository: its numeric kernels are the fields of the class
    [Framework] below, and the notebook is embedded over an arbitrary
    instance of it.  Every call into the framework is recorded, in order,
    in the trace of the run. *)

From Stdlib Require Import Ascii String ZArith QArith Bool Arith Lia List.
Import ListNotations.
Local Open Scope string_scope.
Local Open Scope list_scope.
Local Open Scope nat_scope.

(** ** Python values *)

(** The exceptions the embedded code can raise. *)
Inductive exn : Type :=
| IndexError
| KeyError
| ValueError
| AssertionError
| TypeError.

Inductive result (A : Type) : Type :=
| Ok (a : A)
| Raise (e : exn).
Arguments Ok {A} a.
Arguments Raise {A} e.

Definition rbind {A B : Type} (r : result A) (f : A -> result B) : result B :=
  match r with
  | Ok a => f a
  | Raise e => Raise e
  end.

Notation "x <~ c1 ;; c2" := (rbind c1 (fun x => c2))
  (at level 61, c1 at next level, right associativity).

(** Whether a computation returned, and what it returned ([d] if it raised). *)
Definition is_ok {A : Type} (r : result A) : bool :=
  match r with
  | Ok _ => true
  | Raise _ => false
  end.

Definition value_or {A : Type} (d : A) (r : result A) : A :=
  match r with
  | Ok a => a
  | Raise _ => d
  end.

(** [[f(x) for x in l]], stopping at the first exception. *)
Fixpoint mapR {A B : Type} (f : A -> result B) (l : list A) : result (list B) :=
  match l with
  | [] => Ok []
  | x :: xs => y <~ f x ;; ys <~ mapR f xs ;; Ok (y :: ys)
  end.

(** [l[i]] for a non-negative index. *)
Definition getitem {A : Type} (l : list A) (i : nat) : result A :=
  match nth_error l i with
  | Some x => Ok x
  | None => Raise IndexError
  end.

(** [l[-1]]. *)
Definition getlast {A : Type} (l : list A) : result A :=
  match rev l with
  | x :: _ => Ok x
  | [] => Raise IndexError
  end.

(** [l[0:e]]: a negative end counts from the end of the list. *)
Definition slice_to {A : Type} (l : list A) (e : Z) : list A :=
  if (0 <=? e)%Z then firstn (Z.to_nat e) l
  else firstn (Z.to_nat (Z.of_nat (length l) + e)) l.

(** [[x] * n]: empty for a negative [n]. *)
Definition replicate {A : Type} (x : A) (n : Z) : list A := repeat x (Z.to_nat n).

(** numpy / NDArray values of integer content: the element type, the shape
    and the elements in row-major order. *)
Inductive dtype : Type := int32 | float32.

Record ndarray : Type := {
  nd_dtype : dtype;
  nd_shape : list nat;
  nd_values : list Z
}.

(** [np.array(l, dtype=d)] for a flat list [l]. *)
Definition np_array (d : dtype) (l : list Z) : ndarray :=
  {| nd_dtype := d; nd_shape := [length l]; nd_values := l |}.

(** [np.array(v, dtype=d)] for a scalar [v]: a 0-dimensional array. *)
Definition np_scalar (d : dtype) (v : Z) : ndarray :=
  {| nd_dtype := d; nd_shape := []; nd_values := [v] |}.

(** [a.astype(d)]. *)
Definition astype (d : dtype) (a : ndarray) : ndarray :=
  {| nd_dtype := d; nd_shape := nd_shape a; nd_values := nd_values a |}.

(** [int(a)]: only an array of one element converts. *)
Definition int_ (a : ndarray) : result Z :=
  match nd_values a with
  | [v] => Ok v
  | _ => Raise TypeError
  end.

(** Stacking arrays of one shape along a new first axis. *)
Definition stack (l : list ndarray) : ndarray :=
  {| nd_dtype := match l with a :: _ => nd_dtype a | [] => float32 end;
     nd_shape := length l :: match l with a :: _ => nd_shape a | [] => [] end;
     nd_values := concat (map nd_values l) |}.

(** [zip( *data )]: the i-th components of all the tuples, for as many [i] as
    the shortest tuple has. *)
Fixpoint zip_star {A : Type} (data : list (list A)) : list (list A) :=
  match data with
  | [] => []
  | [t] => map (fun x => [x]) t
  | t :: rest => map (fun p => fst p :: snd p) (combine t (zip_star rest))
  end.

(** [default_batchify_fn] of the data loader on a list of samples that are
    tuples of arrays: [data[0]] raises on an empty list; the components are
    stacked one by one. *)
Definition default_batchify_fn (data : list (list ndarray)) : result (list ndarray) :=
  match data with
  | [] => Raise IndexError
  | _ => Ok (map stack (zip_star data))
  end.

(** ** The sentence-pair transform (package [bert], module [dataset]) *)

(** The vocabulary returned with the pre-trained model. *)
Record BERTVocab : Type := {
  cls_token : string;
  sep_token : string;
  padding_token : string;
  token_to_idx : string -> Z
}.

(** [nlp.data.BERTTokenizer(vocabulary, lower=True)]: the word-piece
    tokenizer is the framework's; here it is the function [tokenize]. *)
Record BERTTokenizer : Type := {
  vocab : BERTVocab;
  lower : bool;
  tokenize : string -> list string
}.

(** Modelled from the spec: [_truncate_seq_pair] of the sentence transform
    (package [bert], which the notebook imports and which is not among the
    source files).  While the two token lists together exceed
    [max_length], the longer one loses its last token (the second one on a
    tie); popping from an empty list raises.  [n] is the number of tokens
    of both lists. *)
Fixpoint truncate_seq_pair_loop (n : nat) (tokens_a tokens_b : list string)
  (max_length : Z) : result (list string * list string) :=
  if (Z.of_nat (length tokens_a + length tokens_b) <=? max_length)%Z
  then Ok (tokens_a, tokens_b)
  else
    match n with
    | O => Raise IndexError
    | S n' =>
        if length tokens_b <? length tokens_a
        then truncate_seq_pair_loop n' (removelast tokens_a) tokens_b max_length
        else
          match tokens_b with
          | [] => Raise IndexError
          | _ => truncate_seq_pair_loop n' tokens_a (removelast tokens_b) max_length
          end
    end.

Definition truncate_seq_pair (tokens_a tokens_b : list string) (max_length : Z)
  : result (list string * list string) :=
  truncate_seq_pair_loop (length tokens_a + length tokens_b) tokens_a tokens_b max_length.

(** What the sentence transform computes before it builds the arrays. *)
Record sentence_encoding : Type := {
  enc_tokens_a : list string;      (* the first sequence, as kept *)
  enc_tokens_b : list string;      (* the second sequence, as kept; [] when absent *)
  enc_input_ids : list Z;
  enc_valid_length : nat;
  enc_segment_ids : list Z
}.

(** Modelled from the spec: [BERTSentenceTransform.__call__] (package
    [bert], not among the source files).  The notebook describes it as:
    tokenize the input sequences, insert [CLS] and [SEP], generate segment
    ids that tell the first sequence from the second, generate the valid
    length; [max_seq_length] is the maximum sequence length, and the
    printed sample shows the padding after the valid length. *)
Definition encode_sentences (tokenizer : BERTTokenizer) (max_seq_length : Z)
  (pad pair : bool) (line : list string) : result sentence_encoding :=
  text_a <~ getitem line 0 ;;
  tokens_b0 <~ (if pair
                then if length line =? 2
                     then text_b <~ getitem line 1 ;; Ok (tokenize tokenizer text_b)
                     else Raise AssertionError
                else Ok []) ;;
  let tokens_a0 := tokenize tokenizer text_a in
  kept <~ (match tokens_b0 with
           | _ :: _ => truncate_seq_pair tokens_a0 tokens_b0 (max_seq_length - 3)
           | [] =>
               if (max_seq_length - 2 <? Z.of_nat (length tokens_a0))%Z
               then Ok (slice_to tokens_a0 (max_seq_length - 2), [])
               else Ok (tokens_a0, [])
           end) ;;
  let '(tokens_a, tokens_b) := kept in
  let v := vocab tokenizer in
  let tokens1 := cls_token v :: tokens_a ++ [sep_token v] in
  let segment1 := replicate 0%Z (Z.of_nat (length tokens1)) in
  let tokens :=
    match tokens_b with
    | _ :: _ => tokens1 ++ tokens_b ++ [sep_token v]
    | [] => tokens1
    end in
  let segment2 :=
    match tokens_b with
    | _ :: _ => segment1 ++ replicate 1%Z (Z.of_nat (length tokens) - Z.of_nat (length segment1))
    | [] => segment1
    end in
  let input_ids := map (token_to_idx v) tokens in
  let valid_length := length input_ids in
  let padding_length := (max_seq_length - Z.of_nat valid_length)%Z in
  Ok {| enc_tokens_a := tokens_a;
        enc_tokens_b := tokens_b;
        enc_input_ids :=
          if pad then input_ids ++ replicate (token_to_idx v (padding_token v)) padding_length
          else input_ids;
        enc_valid_length := valid_length;
        enc_segment_ids :=
          if pad then segment2 ++ replicate 0%Z padding_length else segment2 |}.

Definition BERTSentenceTransform (tokenizer : BERTTokenizer) (max_seq_length : Z)
  (pad pair : bool) (line : list string) : result (ndarray * ndarray * ndarray) :=
  e <~ encode_sentences tokenizer max_seq_length pad pair line ;;
  Ok (np_array int32 (enc_input_ids e),
      np_scalar int32 (Z.of_nat (enc_valid_length e)),
      np_array int32 (enc_segment_ids e)).

(** [_label_map]: [for (i, label) in enumerate(labels): map[label] = i]. *)
Fixpoint label_map_from (i : nat) (labels : list string) (m : string -> option nat)
  : string -> option nat :=
  match labels with
  | [] => m
  | l :: rest =>
      label_map_from (S i) rest (fun k => if String.eqb k l then Some i else m k)
  end.

Definition label_map (labels : list string) : string -> option nat :=
  label_map_from 0 labels (fun _ => None).

(** Modelled from the spec: [BERTDatasetTransform.__call__] (package
    [bert], module [dataset], not among the source files), for the
    classification use the notebook makes of it ([labels] given): the
    sentences, all fields of the line but the last, go through the
    sentence transform; the last field is the label, looked up in the
    label map; the result is the tuple the notebook prints as token ids,
    valid length, segment ids and label. *)
Definition BERTDatasetTransform (tokenizer : BERTTokenizer) (max_seq_length : Z)
  (labels : list string) (label_dtype : dtype) (line : list string)
  : result (list ndarray) :=
  s <~ BERTSentenceTransform tokenizer max_seq_length true true (removelast line) ;;
  let '(input_ids, valid_length, segment_ids) := s in
  label <~ getlast line ;;
  label_id <~ (match label_map labels label with
               | Some i => Ok i
               | None => Raise KeyError
               end) ;;
  Ok [input_ids; valid_length; segment_ids; np_array label_dtype [Z.of_nat label_id]].

(** The first sequence as the model reads it: [CLS], its tokens, [SEP]. *)
Definition first_sequence (v : BERTVocab) (tokens_a : list string) : list string :=
  cls_token v :: tokens_a ++ [sep_token v].

(** The second sequence: its tokens and [SEP]; nothing when it has no token. *)
Definition second_sequence (v : BERTVocab) (tokens_b : list string) : list string :=
  match tokens_b with
  | [] => []
  | _ :: _ => tokens_b ++ [sep_token v]
  end.

(** ** The framework *)

(** [grad_req] of a parameter: 'write', 'add' or 'null'. *)
Inductive grad_req_t : Type := req_write | req_add | req_null.

Definition is_null (r : grad_req_t) : bool :=
  match r with
  | req_null => true
  | _ => false
  end.

(** A [gluon.Parameter]: [p_data] is [None] until the parameter is
    initialised or loaded. *)
Record gluon_Parameter (tensor : Type) : Type := {
  p_name : string;
  p_grad_req : grad_req_t;
  p_data : option tensor;
  p_grad : option tensor
}.
Arguments p_name {tensor} _.
Arguments p_grad_req {tensor} _.
Arguments p_data {tensor} _.
Arguments p_grad {tensor} _.

(** The states of the three random generators the notebook seeds. *)
Record gens (rng : Type) : Type := {
  np_gen : rng;
  py_gen : rng;
  mx_gen : rng
}.
Arguments np_gen {rng} _.
Arguments py_gen {rng} _.
Arguments mx_gen {rng} _.

(** The arguments of [nlp.model.get_model]. *)
Record model_request : Type := {
  model_name : string;
  dataset_name : string;
  pretrained : bool;
  use_pooler : bool;
  use_decoder : bool;
  use_classifier : bool
}.

Inductive initializer : Type :=
| Normal (sigma : Q).

(** [nlp.data.FixedBucketSampler(lengths=..., batch_size=..., shuffle=...)]. *)
Record FixedBucketSampler : Type := {
  sampler_lengths : list Z;
  sampler_batch_size : Z;
  sampler_shuffle : bool
}.

(** What the notebook takes from MXNet and GluonNLP.  A parameter is
    referred to by its address in the store of the run (the list of all
    parameters created so far), as the Python objects are shared between
    the model, the trainer and the list [params].
    - seeding a generator leaves it in a state that is a function of the seed;
    - the operations that draw random numbers take the generators and
      return them;
    - resetting a metric leaves it in the state of a new one. *)
Class Framework : Type := {
  tensor : Type;
  float : Type;
  rng : Type;
  opt_state : Type;
  metric_state : Type;
  np_seed_state : Z -> rng;
  py_seed_state : Z -> rng;
  mx_seed_state : Z -> rng;
  zoo_parameters : model_request -> list (gluon_Parameter tensor);
  zoo_vocabulary : model_request -> BERTVocab;
  wordpiece : BERTVocab -> bool -> string -> list string;
  init_array : initializer -> gluon_Parameter tensor -> gens rng -> tensor * gens rng;
  bucket_sampler_iter : FixedBucketSampler -> gens rng -> list (list nat) * gens rng;
  bucket_sampler_len : FixedBucketSampler -> Z;
  net_forward : list (gluon_Parameter tensor) -> gens rng -> ndarray -> ndarray -> ndarray
                -> tensor * gens rng;
  softmax_ce_loss : tensor -> ndarray -> tensor;
  nd_mean : tensor -> tensor;
  nd_asscalar : tensor -> float;
  autograd_backward : tensor -> list (gluon_Parameter tensor) -> list (gluon_Parameter tensor);
  kv_allreduce : list nat -> list (gluon_Parameter tensor) -> list (gluon_Parameter tensor);
  clip_global_norm : list nat -> Z -> list (gluon_Parameter tensor) -> list (gluon_Parameter tensor);
  optimizer_create : string -> Q -> Q -> opt_state;
  optimizer_update : list nat -> Z -> opt_state -> list (gluon_Parameter tensor)
                     -> opt_state * list (gluon_Parameter tensor);
  accuracy_init : metric_state;
  accuracy_update : metric_state -> ndarray -> tensor -> metric_state;
  accuracy_get : metric_state -> float;
  float_of_int : Z -> float;
  float_add : float -> float -> float;
  float_div : float -> float -> float
}.

(** [nn.Dropout] and [nn.Dense] as they stand in a [HybridSequential]. *)
Inductive layer : Type :=
| Dropout (rate : Q)
| Dense (units : Z) (dense_params : list nat).

Definition layer_params (l : layer) : list nat :=
  match l with
  | Dropout _ => []
  | Dense _ ps => ps
  end.

(** Modelled from the spec: the class [BERTClassifier] (package [bert], not
    among the source files).  The notebook describes it: it uses a BERT
    base model to encode the sentence representation, followed by a
    [nn.Dense] layer for classification; the notebook reaches that layer
    as [model.classifier]. *)
Record BERTClassifier_t : Type := {
  bert : list nat;
  classifier : list layer
}.

(** [model.collect_params()], as addresses: the encoder's, then the classifier's. *)
Definition collect_params (model : BERTClassifier_t) : list nat :=
  bert model ++ flat_map layer_params (classifier model).

(** The number of classes the classifier scores: the units of its last
    dense layer. *)
Definition output_units (ls : list layer) : option Z :=
  fold_left (fun acc l => match l with Dense u _ => Some u | Dropout _ => acc end) ls None.

Record Trainer_t : Type := {
  tr_params : list nat;
  tr_optimizer : string;
  tr_learning_rate : Q;
  tr_epsilon : Q
}.

(** [data_train.transform(transform)]: the transform is applied whenever an
    item is read. *)
Record TransformedDataset : Type := {
  ds_base : list (list string);
  ds_fn : list string -> result (list ndarray)
}.

(** [data_train[i]]. *)
Definition dataset_getitem (ds : TransformedDataset) (i : nat) : result (list ndarray) :=
  line <~ getitem (ds_base ds) i ;; ds_fn ds line.

(** [for item in data_train]: the dataset has no iterator of its own, so the
    items are read at 0, 1, 2, ... until reading one raises [IndexError],
    which ends the iteration; any other exception goes through. *)
Fixpoint dataset_iter (fn : list string -> result (list ndarray))
  (lines : list (list string)) : result (list (list ndarray)) :=
  match lines with
  | [] => Ok []
  | line :: rest =>
      match fn line with
      | Ok item => items <~ dataset_iter fn rest ;; Ok (item :: items)
      | Raise IndexError => Ok []
      | Raise e => Raise e
      end
  end.

(** The batch the data loader builds for one batch of indices of its
    sampler: [batchify_fn([dataset[idx] for idx in batch])]. *)
Definition load_batch (ds : TransformedDataset) (idxs : list nat) : result (list ndarray) :=
  samples <~ mapR (dataset_getitem ds) idxs ;; default_batchify_fn samples.

(** [(token_ids, valid_length, segment_ids, label) = batch]. *)
Definition unpack4 {A : Type} (batch : list A) : result (A * A * A * A) :=
  match batch with
  | [a; b; c; d] => Ok (a, b, c, d)
  | _ => Raise ValueError
  end.

(** Replacing the element at an address. *)
Fixpoint set_nth {A : Type} (i : nat) (x : A) (l : list A) : list A :=
  match l, i with
  | [], _ => []
  | _ :: rest, O => x :: rest
  | y :: rest, S j => y :: set_nth j x rest
  end.

(** ** The run of the notebook: state, trace and exceptions *)

Section Notebook.

Context {fw : Framework}.

(** What [print] writes. *)
Inductive printed : Type :=
| p_str (s : string)
| p_block (block : list nat)
| p_array (caption : string) (a : ndarray)
| p_log (epoch_id batch num_batches : Z) (loss : float) (learning_rate : Q) (acc : float).

(** The calls the notebook makes, with their arguments (and, for the
    iteration of the sampler, the drawing of a batch and [asscalar], with
    what they return). *)
Inductive call : Type :=
| E_np_random_seed (seed : Z)
| E_random_seed (seed : Z)
| E_mx_random_seed (seed : Z)
| E_get_model (r : model_request)
| E_BERTClassifier (bert_base : list nat) (num_classes : Z) (dropout : Q)
| E_initialize (block : list nat) (init : initializer)
| E_hybridize
| E_SoftmaxCELoss
| E_Accuracy
| E_MRPCDataset (segment : string)
| E_BERTTokenizer (lower_case : bool)
| E_BERTDatasetTransform (max_seq_length : Z) (labels : list string) (label_dtype : dtype)
| E_transform
| E_FixedBucketSampler (s : FixedBucketSampler)
| E_DataLoader (batch_sampler : FixedBucketSampler)
| E_Trainer (t : Trainer_t)
| E_metric_reset
| E_iter (batch_sampler : FixedBucketSampler) (batches : list (list nat))
| E_next_batch (batch : list ndarray)
| E_record_enter
| E_model (token_ids segment_ids valid_length : ndarray)
| E_loss (label : ndarray)
| E_record_exit
| E_backward
| E_allreduce_grads
| E_clip_grad_global_norm (ps : list nat) (max_norm : Z)
| E_update (batch_size : Z)
| E_asscalar (v : float)
| E_metric_update (label : ndarray) (out : tensor)
| E_print (p : printed).

(** The state of a run: the random generators, the store of parameters,
    the state of the trainer's optimizer once there is a trainer, and the
    state of the accuracy metric. *)
Record world : Type := {
  w_gens : gens rng;
  w_store : list (gluon_Parameter tensor);
  w_optimizer : option opt_state;
  w_metric : metric_state
}.

Definition with_gens (w : world) (g : gens rng) : world :=
  {| w_gens := g; w_store := w_store w; w_optimizer := w_optimizer w; w_metric := w_metric w |}.

Definition with_store (w : world) (s : list (gluon_Parameter tensor)) : world :=
  {| w_gens := w_gens w; w_store := s; w_optimizer := w_optimizer w; w_metric := w_metric w |}.

Definition with_optimizer (w : world) (o : option opt_state) : world :=
  {| w_gens := w_gens w; w_store := w_store w; w_optimizer := o; w_metric := w_metric w |}.

Definition with_metric (w : world) (m : metric_state) : world :=
  {| w_gens := w_gens w; w_store := w_store w; w_optimizer := w_optimizer w; w_metric := m |}.

(** A piece of the notebook: from a state to a value or an exception, the
    state it leaves and the calls it made, in order. *)
Definition M (A : Type) : Type := world -> result A * world * list call.

Definition ret {A : Type} (a : A) : M A := fun w => (Ok a, w, []).

Definition bind {A B : Type} (m : M A) (f : A -> M B) : M B :=
  fun w =>
    match m w with
    | (Ok a, w1, t1) => let '(r, w2, t2) := f a w1 in (r, w2, t1 ++ t2)
    | (Raise e, w1, t1) => (Raise e, w1, t1)
    end.

Notation "x <- c1 ;; c2" := (bind c1 (fun x => c2))
  (at level 61, c1 at next level, right associativity).
Notation "c1 ;; c2" := (bind c1 (fun _ => c2))
  (at level 61, right associativity).

Definition emit (c : call) : M unit := fun w => (Ok tt, w, [c]).

Definition lift {A : Type} (r : result A) : M A := fun w => (r, w, []).

Definition print (p : printed) : M unit := emit (E_print p).

(** [for x in l: s = body(s, x)]. *)
Fixpoint for_each {A S : Type} (body : S -> A -> M S) (l : list A) (s : S) : M S :=
  match l with
  | [] => ret s
  | x :: rest => s' <- body s x ;; for_each body rest s'
  end.

Definition value_of {A : Type} (x : result A * world * list call) : result A := fst (fst x).
Definition world_of {A : Type} (x : result A * world * list call) : world := snd (fst x).
Definition trace_of {A : Type} (x : result A * world * list call) : list call := snd x.

(** *** The framework's operations as the notebook calls them *)

Definition np_random_seed (seed : Z) : M unit :=
  fun w =>
    (Ok tt,
     with_gens w {| np_gen := np_seed_state seed;
                    py_gen := py_gen (w_gens w);
                    mx_gen := mx_gen (w_gens w) |},
     [E_np_random_seed seed]).

Definition random_seed (seed : Z) : M unit :=
  fun w =>
    (Ok tt,
     with_gens w {| np_gen := np_gen (w_gens w);
                    py_gen := py_seed_state seed;
                    mx_gen := mx_gen (w_gens w) |},
     [E_random_seed seed]).

Definition mx_random_seed (seed : Z) : M unit :=
  fun w =>
    (Ok tt,
     with_gens w {| np_gen := np_gen (w_gens w);
                    py_gen := py_gen (w_gens w);
                    mx_gen := mx_seed_state seed |},
     [E_mx_random_seed seed]).

(** New parameters go to the end of the store; the result is their addresses. *)
Definition alloc (ps : list (gluon_Parameter tensor)) : M (list nat) :=
  fun w =>
    (Ok (seq (length (w_store w)) (length ps)), with_store w (w_store w ++ ps), []).

(** [nlp.model.get_model(...)]: the model's parameters, as the model zoo
    holds them, and its vocabulary. *)
Definition get_model (r : model_request) : M (list nat * BERTVocab) :=
  emit (E_get_model r) ;;
  block <- alloc (zoo_parameters r) ;;
  ret (block, zoo_vocabulary r).

(** The two parameters of a new [nn.Dense]: not yet initialised. *)
Definition dense_parameters : list (gluon_Parameter tensor) :=
  [ {| p_name := "weight"; p_grad_req := req_write; p_data := None; p_grad := None |};
    {| p_name := "bias"; p_grad_req := req_write; p_data := None; p_grad := None |} ].

(** Modelled from the spec: the constructor of [BERTClassifier] (package
    [bert], not among the source files): the given BERT model, and a
    classifier that is a dense layer of [num_classes] units, after a
    dropout layer when [dropout] is not zero. *)
Definition BERTClassifier (bert_base : list nat) (num_classes : Z) (dropout : Q)
  : M BERTClassifier_t :=
  emit (E_BERTClassifier bert_base num_classes dropout) ;;
  dense <- alloc dense_parameters ;;
  ret {| bert := bert_base;
         classifier :=
           (if Qeq_bool dropout 0 then [] else [Dropout dropout])
           ++ [Dense num_classes dense] |}.

(** [Block.initialize]: each parameter of the block that holds no data yet
    gets an array drawn by the initializer; one that is already
    initialised or loaded is left as it is. *)
Fixpoint initialize_params (init : initializer) (block : list nat) (g : gens rng)
  (store : list (gluon_Parameter tensor)) : list (gluon_Parameter tensor) * gens rng :=
  match block with
  | [] => (store, g)
  | a :: rest =>
      match nth_error store a with
      | Some p =>
          match p_data p with
          | Some _ => initialize_params init rest g store
          | None =>
              let '(t, g') := init_array init p g in
              initialize_params init rest g'
                (set_nth a {| p_name := p_name p; p_grad_req := p_grad_req p;
                              p_data := Some t; p_grad := p_grad p |} store)
          end
      | None => initialize_params init rest g store
      end
  end.

Definition initialize (block : list nat) (init : initializer) : M unit :=
  fun w =>
    let '(s, g) := initialize_params init block (w_gens w) (w_store w) in
    (Ok tt, with_gens (with_store w s) g, [E_initialize block init]).

Definition Accuracy : M unit :=
  fun w => (Ok tt, with_metric w accuracy_init, [E_Accuracy]).

Definition metric_reset : M unit :=
  fun w => (Ok tt, with_metric w accuracy_init, [E_metric_reset]).

Definition metric_update (label : ndarray) (out : tensor) : M unit :=
  fun w => (Ok tt, with_metric w (accuracy_update (w_metric w) label out),
            [E_metric_update label out]).

(** [metric.get()[1]]. *)
Definition metric_get : M float :=
  fun w => (Ok (accuracy_get (w_metric w)), w, []).

Definition Trainer (ps : list nat) (optimizer : string) (learning_rate epsilon : Q)
  : M Trainer_t :=
  fun w =>
    let t := {| tr_params := ps; tr_optimizer := optimizer;
                tr_learning_rate := learning_rate; tr_epsilon := epsilon |} in
    (Ok t, with_optimizer w (Some (optimizer_create optimizer learning_rate epsilon)),
     [E_Trainer t]).

(** [iter(bert_dataloader)] starts the iteration of the batch sampler, which
    shuffles at that moment. *)
Definition iter_sampler (s : FixedBucketSampler) : M (list (list nat)) :=
  fun w =>
    let '(bs, g) := bucket_sampler_iter s (w_gens w) in
    (Ok bs, with_gens w g, [E_iter s bs]).

(** The data loader yields the batch of the next indices of its sampler. *)
Definition next_batch (ds : TransformedDataset) (idxs : list nat) : M (list ndarray) :=
  batch <- lift (load_batch ds idxs) ;;
  emit (E_next_batch batch) ;;
  ret batch.

(** [model(token_ids, segment_ids, valid_length)]. *)
Definition model_call (token_ids segment_ids valid_length : ndarray) : M tensor :=
  fun w =>
    let '(out, g) := net_forward (w_store w) (w_gens w) token_ids segment_ids valid_length in
    (Ok out, with_gens w g, [E_model token_ids segment_ids valid_length]).

(** [loss_function(out, label).mean()]. *)
Definition loss_mean (out : tensor) (label : ndarray) : M tensor :=
  emit (E_loss label) ;; ret (nd_mean (softmax_ce_loss out label)).

Definition backward (ls : tensor) : M unit :=
  fun w => (Ok tt, with_store w (autograd_backward ls (w_store w)), [E_backward]).

Definition allreduce_grads (trainer : Trainer_t) : M unit :=
  fun w => (Ok tt, with_store w (kv_allreduce (tr_params trainer) (w_store w)),
            [E_allreduce_grads]).

Definition clip_grad_global_norm (ps : list nat) (max_norm : Z) : M unit :=
  fun w => (Ok tt, with_store w (clip_global_norm ps max_norm (w_store w)),
            [E_clip_grad_global_norm ps max_norm]).

Definition update (trainer : Trainer_t) (batch_size : Z) : M unit :=
  fun w =>
    (Ok tt,
     match w_optimizer w with
     | Some o =>
         let '(o', s) := optimizer_update (tr_params trainer) batch_size o (w_store w) in
         with_optimizer (with_store w s) (Some o')
     | None => w
     end,
     [E_update batch_size]).

Definition asscalar (t : tensor) : M float :=
  emit (E_asscalar (nd_asscalar t)) ;; ret (nd_asscalar t).

(** [p.grad_req != 'null'] for the parameter at an address. *)
Definition differentiable (store : list (gluon_Parameter tensor)) (a : nat) : bool :=
  match nth_error store a with
  | Some p => negb (is_null (p_grad_req p))
  | None => false
  end.

(** *** The cells of the notebook *)

(** The class of the transform: in the notebook, [dataset.BERTDatasetTransform]. *)
Definition transform_class : Type :=
  BERTTokenizer -> Z -> list string -> dtype -> list string -> result (list ndarray).

(** Set Environment.  ([ctx = mx.gpu(0)] names the device and has no effect
    of its own.) *)
Definition cell_set_environment : M unit :=
  np_random_seed 100 ;;
  random_seed 100 ;;
  mx_random_seed 10000.

Definition bert_12_768_12 : model_request :=
  {| model_name := "bert_12_768_12";
     dataset_name := "book_corpus_wiki_en_uncased";
     pretrained := true;
     use_pooler := true;
     use_decoder := false;
     use_classifier := false |}.

(** Get BERT. *)
Definition cell_get_bert : M (list nat * BERTVocab) :=
  r <- get_model bert_12_768_12 ;;
  print (p_block (fst r)) ;;
  ret r.

(** Model Definition for Sentence Pair Classification. *)
Definition cell_model_definition (bert_base : list nat) : M BERTClassifier_t :=
  model <- BERTClassifier bert_base 2 (1 # 10) ;;
  (* only need to initialize the classifier layer. *)
  initialize (flat_map layer_params (classifier model)) (Normal (2 # 100)) ;;
  emit E_hybridize ;;
  emit E_SoftmaxCELoss ;;
  emit E_hybridize ;;
  Accuracy ;;
  ret model.

Definition sample_id : nat := 0.

(** Dataset: [mrpc_dev] is the content of the dev set as the dataset class
    reads it, one line per sentence pair. *)
Definition cell_dataset (mrpc_dev : list (list string)) : M (list (list string)) :=
  emit (E_MRPCDataset "dev") ;;
  let data_train := mrpc_dev in
  a <- lift (line <~ getitem data_train sample_id ;; getitem line 0) ;;
  print (p_str a) ;;
  b <- lift (line <~ getitem data_train sample_id ;; getitem line 1) ;;
  print (p_str b) ;;
  l <- lift (line <~ getitem data_train sample_id ;; getitem line 2) ;;
  print (p_str l) ;;
  ret data_train.

Definition max_len : Z := 128.
Definition all_labels : list string := ["0"; "1"].

(** Data Preprocessing for BERT. *)
Definition cell_transform (BERTDatasetTransform_ : transform_class)
  (vocabulary : BERTVocab) (data_train : list (list string)) : M TransformedDataset :=
  emit (E_BERTTokenizer true) ;;
  let bert_tokenizer :=
    {| vocab := vocabulary; lower := true; tokenize := wordpiece vocabulary true |} in
  emit (E_BERTDatasetTransform max_len all_labels int32) ;;
  let transform := BERTDatasetTransform_ bert_tokenizer max_len all_labels int32 in
  emit E_transform ;;
  let data_train := {| ds_base := data_train; ds_fn := transform |} in
  x0 <- lift (item <~ dataset_getitem data_train sample_id ;; getitem item 0) ;;
  print (p_array "token ids = " x0) ;;
  x1 <- lift (item <~ dataset_getitem data_train sample_id ;; getitem item 1) ;;
  print (p_array "valid length = " x1) ;;
  x2 <- lift (item <~ dataset_getitem data_train sample_id ;; getitem item 2) ;;
  print (p_array "segment ids = " x2) ;;
  x3 <- lift (item <~ dataset_getitem data_train sample_id ;; getitem item 3) ;;
  print (p_array "label = " x3) ;;
  ret data_train.

Definition batch_size : Z := 32.
Definition lr : Q := 5 # 1000000.
Definition grad_clip : Z := 1.
Definition log_interval : Z := 4.
Definition num_epochs : nat := 3.

(** What the training loop works with. *)
Record train_env : Type := {
  env_model : BERTClassifier_t;
  env_data : TransformedDataset;
  env_sampler : FixedBucketSampler;
  env_trainer : Trainer_t;
  env_params : list nat
}.

(** Fine-tune BERT Model, up to the loop. *)
Definition cell_finetune_setup (model : BERTClassifier_t) (data_train : TransformedDataset)
  : M train_env :=
  lengths <- lift (items <~ dataset_iter (ds_fn data_train) (ds_base data_train) ;;
                   mapR (fun item => x <~ getitem item 1 ;; int_ x) items) ;;
  let train_sampler :=
    {| sampler_lengths := lengths; sampler_batch_size := batch_size;
       sampler_shuffle := true |} in
  emit (E_FixedBucketSampler train_sampler) ;;
  emit (E_DataLoader train_sampler) ;;
  trainer <- Trainer (collect_params model) "adam" lr (1 # 1000000000) ;;
  (* collect all differentiable parameters *)
  ps <- (fun w => (Ok (filter (differentiable (w_store w)) (collect_params model)), w, [])) ;;
  ret {| env_model := model; env_data := data_train; env_sampler := train_sampler;
         env_trainer := trainer; env_params := ps |}.

(** The body of the inner loop for one batch of indices of the sampler;
    the loop carries [batch_id] and [step_loss]. *)
Definition train_batch (env : train_env) (epoch_id : Z) (st : Z * float)
  (idxs : list nat) : M (Z * float) :=
  let '(batch_id, step_loss) := st in
  batch <- next_batch (env_data env) idxs ;;
  u <- lift (unpack4 batch) ;;
  let '(token_ids, valid_length, segment_ids, label) := u in
  emit E_record_enter ;;
  (* forward computation *)
  out <- model_call token_ids segment_ids (astype float32 valid_length) ;;
  ls <- loss_mean out label ;;
  emit E_record_exit ;;
  (* backward computation *)
  backward ls ;;
  (* gradient clipping *)
  allreduce_grads (env_trainer env) ;;
  clip_grad_global_norm (env_params env) 1 ;;
  update (env_trainer env) 1 ;;
  v <- asscalar ls ;;
  let step_loss := float_add step_loss v in
  metric_update label out ;;
  if ((batch_id + 1) mod log_interval =? 0)%Z
  then
    acc <- metric_get ;;
    print (p_log epoch_id (batch_id + 1) (bucket_sampler_len (env_sampler env))
                 (float_div step_loss (float_of_int log_interval))
                 (tr_learning_rate (env_trainer env)) acc) ;;
    ret ((batch_id + 1)%Z, float_of_int 0)
  else ret ((batch_id + 1)%Z, step_loss).

(** One pass over the data loader. *)
Definition train_epoch (env : train_env) (epoch_id : nat) : M unit :=
  metric_reset ;;
  let step_loss := float_of_int 0 in
  batches <- iter_sampler (env_sampler env) ;;
  for_each (train_batch env (Z.of_nat epoch_id)) batches (0%Z, step_loss) ;;
  ret tt.

(** [for epoch_id in range(num_epochs)]. *)
Definition cell_finetune_loop (env : train_env) : M unit :=
  for_each (fun _ epoch_id => train_epoch env epoch_id) (seq 0 num_epochs) tt.

(** The notebook up to the training loop. *)
Definition setup (BERTDatasetTransform_ : transform_class) (mrpc_dev : list (list string))
  : M train_env :=
  cell_set_environment ;;
  r <- cell_get_bert ;;
  let '(bert_base, vocabulary) := r in
  model <- cell_model_definition bert_base ;;
  data_train <- cell_dataset mrpc_dev ;;
  data_train <- cell_transform BERTDatasetTransform_ vocabulary data_train ;;
  cell_finetune_setup model data_train.

(** The notebook, for a given transform class. *)
Definition notebook_with (BERTDatasetTransform_ : transform_class)
  (mrpc_dev : list (list string)) : M unit :=
  env <- setup BERTDatasetTransform_ mrpc_dev ;;
  cell_finetune_loop env.

(** The notebook. *)
Definition notebook (mrpc_dev : list (list string)) : M unit :=
  notebook_with BERTDatasetTransform mrpc_dev.

(** A run starts with no parameter, no trainer, and the generators in
    whatever state they are. *)
Definition initial_world (g : gens rng) : world :=
  {| w_gens := g; w_store := []; w_optimizer := None; w_metric := accuracy_init |}.

(** The [i]-th components of the items of a batch, in order. *)
Definition column (i : nat) (items : list (list ndarray)) : list ndarray :=
  flat_map (fun item => match nth_error item i with Some x => [x] | None => [] end) items.

(** The [i]-th component of a batch. *)
Definition component (b : list ndarray) (i : nat) : ndarray :=
  nth i b (np_array int32 []).

(** *** Reading a trace *)

(** The calls of one trainer step on an unpacked batch, in their order. *)
Definition step_calls (env : train_env) (token_ids valid_length segment_ids label : ndarray)
  : list call :=
  [ E_record_enter;
    E_model token_ids segment_ids (astype float32 valid_length);
    E_loss label;
    E_record_exit;
    E_backward;
    E_allreduce_grads;
    E_clip_grad_global_norm (env_params env) 1;
    E_update 1 ].

Definition is_step_call (c : call) : bool :=
  match c with
  | E_record_enter | E_model _ _ _ | E_loss _ | E_record_exit | E_backward
  | E_allreduce_grads | E_clip_grad_global_norm _ _ | E_update _ => true
  | _ => false
  end.

Definition is_next_batch (c : call) : bool :=
  match c with
  | E_next_batch _ => true
  | _ => false
  end.

(** The batch drawn by the call at a place of a trace. *)
Definition batch_at (t : list call) (k : nat) : list ndarray :=
  match nth_error t k with
  | Some (E_next_batch b) => b
  | _ => []
  end.

Definition is_metric_reset (c : call) : bool :=
  match c with
  | E_metric_reset => true
  | _ => false
  end.

Definition is_iter (c : call) : bool :=
  match c with
  | E_iter _ _ => true
  | _ => false
  end.

Definition is_log (c : call) : bool :=
  match c with
  | E_print (p_log _ _ _ _ _ _) => true
  | _ => false
  end.

(** The calls the training loop makes. *)
Definition is_training_call (c : call) : bool :=
  match c with
  | E_metric_reset | E_iter _ _ | E_next_batch _ | E_asscalar _ | E_metric_update _ _ => true
  | _ => is_step_call c || is_log c
  end.

(** The calls that load the model, transform the data or build the sampler. *)
Definition is_preparation_call (c : call) : bool :=
  match c with
  | E_get_model _ | E_BERTClassifier _ _ _ | E_initialize _ _ | E_BERTTokenizer _
  | E_BERTDatasetTransform _ _ _ | E_transform | E_FixedBucketSampler _
  | E_DataLoader _ | E_iter _ _ => true
  | _ => false
  end.

(** The part of a trace after its last [metric.reset()]. *)
Definition current_epoch (t : list call) : list call :=
  fold_left (fun acc c => if is_metric_reset c then [] else acc ++ [c]) t [].

(** The part of a trace after its last start of an iteration of the sampler. *)
Definition current_pass (t : list call) : list call :=
  fold_left (fun acc c => if is_iter c then [] else acc ++ [c]) t [].

(** The losses read with [asscalar], in order. *)
Definition losses (t : list call) : list float :=
  flat_map (fun c => match c with E_asscalar v => [v] | _ => [] end) t.

(** The arguments of the updates of the metric, in order. *)
Definition metric_updates (t : list call) : list (ndarray * tensor) :=
  flat_map (fun c => match c with E_metric_update l o => [(l, o)] | _ => [] end) t.

(** The metric that has seen exactly the given updates since it was reset. *)
Definition replay_metric (us : list (ndarray * tensor)) : metric_state :=
  fold_left (fun m u => accuracy_update m (fst u) (snd u)) us accuracy_init.

(** [step_loss / log_interval] when [step_loss] has accumulated the given
    losses from 0. *)
Definition mean_loss (ls : list float) : float :=
  float_div (fold_left float_add ls (float_of_int 0)) (float_of_int log_interval).

(** A property of every call of a piece [t] of a trace that comes after
    the history [h]: [R] reads what came before the call, the call and
    what follows it in [t]. *)
Definition everywhere (R : list call -> call -> list call -> Prop) (h t : list call)
  : Prop :=
  forall pre c post, t = pre ++ c :: post -> R (h ++ pre) c post.

(** [R] still holds of a call when more calls follow. *)
Definition stable (R : list call -> call -> list call -> Prop) : Prop :=
  forall p c q x, R p c q -> R p c (q ++ x).

(** The calls of a trainer step stand at their place: the drawing of a
    batch of four arrays is followed by the calls of one step on it, and a
    call of a step is the [j]-th call of the step that follows the
    drawing of a batch. *)
Definition step_in_order (env : train_env) (p : list call) (c : call) (q : list call)
  : Prop :=
  (forall token_ids valid_length segment_ids label,
      c = E_next_batch [token_ids; valid_length; segment_ids; label] ->
      exists q', q = step_calls env token_ids valid_length segment_ids label ++ q')
  /\ (is_step_call c = true ->
      exists p' token_ids valid_length segment_ids label j q',
        p = p' ++ E_next_batch [token_ids; valid_length; segment_ids; label]
               :: firstn j (step_calls env token_ids valid_length segment_ids label)
        /\ c :: q = skipn j (step_calls env token_ids valid_length segment_ids label) ++ q'
        /\ j < 8).

(** What is printed is right: the loss of a log line is the mean of the
    last four losses of the current epoch, its accuracy is that of a
    metric that has seen the batches of the current epoch and nothing
    else, and its batch number is the number of batches of the epoch so
    far, a multiple of 4.  And a pass over the data loader starts right
    after the metric was reset. *)
Definition logged_right (p : list call) (c : call) (q : list call) : Prop :=
  (forall s bs, c = E_iter s bs -> exists p', p = p' ++ [E_metric_reset])
  /\ (forall e k n loss rate acc,
        c = E_print (p_log e k n loss rate acc) ->
        exists older l1 l2 l3 l4,
          losses (current_epoch p) = older ++ [l1; l2; l3; l4]
          /\ loss = mean_loss [l1; l2; l3; l4]
          /\ acc = accuracy_get (replay_metric (metric_updates (current_epoch p)))
          /\ k = Z.of_nat (length (losses (current_epoch p)))
          /\ (k mod log_interval = 0)%Z).

(** The invariant of the inner loop that carries [logged_right]:
    [batch_id] counts the losses of the current epoch, the metric has seen
    the updates of the current epoch, and [step_loss] is the sum, from 0,
    of the losses since the last log line. *)
Definition step_loss_invariant (h : list call) (st : Z * float) (w : world) : Prop :=
  fst st = Z.of_nat (length (losses (current_epoch h)))
  /\ w_metric w = replay_metric (metric_updates (current_epoch h))
  /\ exists older pending,
       losses (current_epoch h) = older ++ pending
       /\ Z.of_nat (length pending) = (fst st mod log_interval)%Z
       /\ snd st = fold_left float_add pending (float_of_int 0).

(** The batches come from the sampler: the sampler that is iterated is
    the one of the data loader, and a batch that is drawn is the batch of
    the next indices of the last iteration of the sampler. *)
Definition drawn_from_sampler (env : train_env) (p : list call) (c : call) (q : list call)
  : Prop :=
  (forall s bs, c = E_iter s bs -> s = env_sampler env)
  /\ (forall batch,
        c = E_next_batch batch ->
        exists p0 bs mid idxs,
          p = p0 ++ E_iter (env_sampler env) bs :: mid
          /\ forallb (fun c => negb (is_iter c)) mid = true
          /\ nth_error bs (length (filter is_next_batch mid)) = Some idxs
          /\ load_batch (env_data env) idxs = Ok batch).

(** The invariant of the inner loop that carries [drawn_from_sampler]: the
    batches of indices still to come are those of the last iteration of
    the sampler, less one for each batch drawn since. *)
Definition sampler_invariant (env : train_env) (rest : list (list nat)) (h : list call)
  : Prop :=
  exists p0 bs mid,
    h = p0 ++ E_iter (env_sampler env) bs :: mid
    /\ forallb (fun c => negb (is_iter c)) mid = true
    /\ skipn (length (filter is_next_batch mid)) bs = rest.

(** The generators once the notebook has seeded them. *)
Definition seeded_gens : gens rng :=
  {| np_gen := np_seed_state 100; py_gen := py_seed_state 100;
     mx_gen := mx_seed_state 10000 |}.

(** The tokenizer the notebook builds from the vocabulary of the model. *)
Definition bert_tokenizer : BERTTokenizer :=
  {| vocab := zoo_vocabulary bert_12_768_12;
     lower := true;
     tokenize := wordpiece (zoo_vocabulary bert_12_768_12) true |}.

(** What the cells before the training loop print. *)
Definition is_print (c : call) : bool :=
  match c with
  | E_print (p_str _) | E_print (p_block _) | E_print (p_array _ _) => true
  | _ => false
  end.

Definition is_initialize (c : call) : bool :=
  match c with
  | E_initialize _ _ => true
  | _ => false
  end.

(** The names under which the transform cell prints the components of the
    first item. *)
Definition printed_names : list string :=
  ["token ids = "; "valid length = "; "segment ids = "; "label = "].

(** The calls that seed, load or build something: neither a print nor a
    call of the training loop. *)
Definition is_construction (c : call) : bool :=
  negb (is_print c || is_training_call c).

(** A parameter once it holds data. *)
Definition with_data (p : gluon_Parameter tensor) (t : tensor) : gluon_Parameter tensor :=
  {| p_name := p_name p; p_grad_req := p_grad_req p; p_data := Some t; p_grad := p_grad p |}.

Definition dense_weight : gluon_Parameter tensor :=
  {| p_name := "weight"; p_grad_req := req_write; p_data := None; p_grad := None |}.

Definition dense_bias : gluon_Parameter tensor :=
  {| p_name := "bias"; p_grad_req := req_write; p_data := None; p_grad := None |}.

(** The classifier's two parameters as the notebook initialises them,
    with the generators as seeded. *)
Definition fresh_weight : gluon_Parameter tensor :=
  with_data dense_weight (fst (init_array (Normal (2 # 100)) dense_weight seeded_gens)).

Definition fresh_bias : gluon_Parameter tensor :=
  with_data dense_bias
    (fst (init_array (Normal (2 # 100)) dense_bias
            (snd (init_array (Normal (2 # 100)) dense_weight seeded_gens)))).

(** The model once it is defined: the parameters of the pre-trained BERT
    model come first in the store, the two of the classifier after them. *)
Definition prepared_model : BERTClassifier_t :=
  {| bert := seq 0 (length (zoo_parameters bert_12_768_12));
     classifier :=
       [Dropout (1 # 10);
        Dense 2 [length (zoo_parameters bert_12_768_12);
                 S (length (zoo_parameters bert_12_768_12))]] |}.

(** The state of the run once the model is defined. *)
Definition prepared_world : world :=
  {| w_gens := snd (init_array (Normal (2 # 100)) dense_bias
                      (snd (init_array (Normal (2 # 100)) dense_weight seeded_gens)));
     w_store := zoo_parameters bert_12_768_12 ++ [fresh_weight; fresh_bias];
     w_optimizer := None;
     w_metric := accuracy_init |}.

(** The calls of the notebook up to there. *)
Definition preparation_trace : list call :=
  [ E_np_random_seed 100; E_random_seed 100; E_mx_random_seed 10000;
    E_get_model bert_12_768_12;
    E_print (p_block (bert prepared_model));
    E_BERTClassifier (bert prepared_model) 2 (1 # 10);
    E_initialize (flat_map layer_params (classifier prepared_model)) (Normal (2 # 100));
    E_hybridize; E_SoftmaxCELoss; E_hybridize; E_Accuracy ].

(** The cells that follow: the dataset, its transform and the setup of the
    fine-tuning. *)
Definition data_cells (BERTDatasetTransform_ : transform_class)
  (mrpc_dev : list (list string)) : M train_env :=
  data_train <- cell_dataset mrpc_dev ;;
  data_train <- cell_transform BERTDatasetTransform_ (zoo_vocabulary bert_12_768_12)
                  data_train ;;
  cell_finetune_setup prepared_model data_train.

(** A run that comes after the calls [t]. *)
Definition after {A : Type} (t : list call) (x : result A * world * list call)
  : result A * world * list call :=
  (value_of x, world_of x, t ++ trace_of x).

(** The transformed dataset of the notebook, for a given transform class. *)
Definition transformed (BERTDatasetTransform_ : transform_class)
  (mrpc_dev : list (list string)) : TransformedDataset :=
  {| ds_base := mrpc_dev;
     ds_fn := BERTDatasetTransform_ bert_tokenizer max_len all_labels int32 |}.

(** The calls of the notebook up to the training loop, when no cell
    raises: [prints1] and [prints2] are what the dataset cell and the
    transform cell print. *)
Definition setup_trace (env : train_env) (prints1 prints2 : list call) : list call :=
  preparation_trace
  ++ E_MRPCDataset "dev" :: prints1
  ++ [E_BERTTokenizer true; E_BERTDatasetTransform max_len all_labels int32; E_transform]
  ++ prints2
  ++ [E_FixedBucketSampler (env_sampler env); E_DataLoader (env_sampler env);
      E_Trainer (env_trainer env)].

(** A full pass over the data loader: the metric is reset, the sampler is
    iterated, and one batch is drawn for each batch of indices of the
    sampler. *)
Definition full_pass (env : train_env) (t : list call) : Prop :=
  exists batches body,
    t = E_metric_reset :: E_iter (env_sampler env) batches :: body
    /\ length (filter is_next_batch body) = length batches
    /\ forallb (fun c => negb (is_metric_reset c || is_iter c)) body = true.

(** An item as the notebook reads it: four arrays of the given shapes, the
    second of one value. *)
Definition is_item (shapes : list (list nat)) (r : result (list ndarray)) : bool :=
  match r with
  | Ok [x0; x1; x2; x3] =>
      match nd_values x1 with
      | [_] =>
          if list_eq_dec (list_eq_dec Nat.eq_dec) (map nd_shape [x0; x1; x2; x3]) shapes
          then true else false
      | _ => false
      end
  | _ => false
  end.

(** The batches drawn, in order. *)
Definition drawn_batches (t : list call) : list (list ndarray) :=
  flat_map (fun c => match c with E_next_batch b => [b] | _ => [] end) t.

(** A pass that loads every batch of indices of the sampler once, in the
    order of the sampler. *)
Definition loads_in_order (env : train_env) (t : list call) : Prop :=
  exists batches body,
    t = E_metric_reset :: E_iter (env_sampler env) batches :: body
    /\ mapR (load_batch (env_data env)) batches = Ok (drawn_batches body)
    /\ Forall (fun b => length b = 4) (drawn_batches body).

(** The state of the parameters that the framework leaves alone: the
    requests for gradients stay as they are, and so does every parameter
    whose request is 'null'. *)
Definition null_frame (s s' : list (gluon_Parameter tensor)) : Prop :=
  map p_grad_req s' = map p_grad_req s
  /\ forall a p, nth_error s a = Some p -> p_grad_req p = req_null ->
                 nth_error s' a = Some p.

(** What the notebook relies on when it calls 'null' parameters constant:
    computing, reducing and clipping gradients and updating the
    parameters leave the parameters without gradient as they are. *)
Record training_contract : Prop := {
  backward_frame : forall ls s, null_frame s (autograd_backward ls s);
  allreduce_frame : forall ps s, null_frame s (kv_allreduce ps s);
  clip_frame : forall ps n s, null_frame s (clip_global_norm ps n s);
  update_frame : forall ps n o s, null_frame s (snd (optimizer_update ps n o s))
}.

(** The store after one trainer step. *)
Definition store_after_step (env : train_env) (ls : tensor) (w : world)
  : list (gluon_Parameter tensor) * option opt_state :=
  let s3 := clip_global_norm (env_params env) 1
              (kv_allreduce (tr_params (env_trainer env))
                 (autograd_backward ls (w_store w))) in
  match w_optimizer w with
  | Some o =>
      (snd (optimizer_update (tr_params (env_trainer env)) 1 o s3),
       Some (fst (optimizer_update (tr_params (env_trainer env)) 1 o s3)))
  | None => (s3, None)
  end.

End Notebook.

(** ** A small instance of the framework

    An instance on integers, to run the notebook on: tensors, floats and
    generator states are integers; the sampler yields the indices two by
    two, starting at an index that depends on the numpy generator. *)

Module Toy.

(** Splitting a text at its blanks. *)
Fixpoint split_blank (s : string) (cur : string) : list string :=
  match s with
  | EmptyString => if String.eqb cur "" then [] else [cur]
  | String c rest =>
      if Ascii.eqb c " "%char
      then (if String.eqb cur "" then [] else [cur]) ++ split_blank rest ""
      else split_blank rest (cur ++ String c EmptyString)%string
  end.

Definition idx (t : string) : Z :=
  if String.eqb t "[PAD]" then 1
  else if String.eqb t "[CLS]" then 2
  else if String.eqb t "[SEP]" then 3
  else (1000 + Z.of_nat (String.length t))%Z.

Definition vocabulary : BERTVocab :=
  {| cls_token := "[CLS]"; sep_token := "[SEP]"; padding_token := "[PAD]";
     token_to_idx := idx |}.

Definition parameters : list (gluon_Parameter Z) :=
  [ {| p_name := "encoder_weight"; p_grad_req := req_write;
       p_data := Some 7%Z; p_grad := None |};
    {| p_name := "position_table"; p_grad_req := req_null;
       p_data := Some 3%Z; p_grad := None |} ].

Fixpoint chunk2 (l : list nat) : list (list nat) :=
  match l with
  | a :: b :: rest => [a; b] :: chunk2 rest
  | [a] => [[a]]
  | [] => []
  end.

Definition rotate (k : nat) (l : list nat) : list nat := skipn k l ++ firstn k l.

Definition sampler_iter (s : FixedBucketSampler) (g : gens Z) : list (list nat) * gens Z :=
  let n := length (sampler_lengths s) in
  (chunk2 (rotate (Z.to_nat (np_gen g) mod (S n)) (seq 0 n)),
   {| np_gen := (np_gen g + 1)%Z; py_gen := py_gen g; mx_gen := mx_gen g |}).

Definition sum (l : list Z) : Z := fold_left Z.add l 0%Z.

Definition forward (store : list (gluon_Parameter Z)) (g : gens Z)
  (token_ids segment_ids valid_length : ndarray) : Z * gens Z :=
  ((sum (nd_values token_ids) + sum (nd_values valid_length) + mx_gen g
    + sum (map (fun p => match p_data p with Some d => d | None => 0 end) store))%Z,
   {| np_gen := np_gen g; py_gen := py_gen g; mx_gen := (mx_gen g + 1)%Z |}).

Definition set_grad (p : gluon_Parameter Z) (g : Z) : gluon_Parameter Z :=
  {| p_name := p_name p; p_grad_req := p_grad_req p; p_data := p_data p; p_grad := Some g |}.

Definition set_data (p : gluon_Parameter Z) (d : Z) : gluon_Parameter Z :=
  {| p_name := p_name p; p_grad_req := p_grad_req p; p_data := Some d; p_grad := p_grad p |}.

Definition backward (ls : Z) (store : list (gluon_Parameter Z)) : list (gluon_Parameter Z) :=
  map (fun p => if is_null (p_grad_req p) then p else set_grad p ls) store.

Definition clip (ps : list nat) (max_norm : Z) (store : list (gluon_Parameter Z))
  : list (gluon_Parameter Z) :=
  map (fun p => if is_null (p_grad_req p) then p
                else match p_grad p with
                     | Some g => set_grad p (Z.min g max_norm)
                     | None => p
                     end) store.

Definition step (ps : list nat) (rescale : Z) (o : nat) (store : list (gluon_Parameter Z))
  : nat * list (gluon_Parameter Z) :=
  (S o,
   map (fun p => if is_null (p_grad_req p) then p
                 else match p_data p, p_grad p with
                      | Some d, Some g => set_data p (d - g / rescale)%Z
                      | _, _ => p
                      end) store).

Definition framework : Framework := {|
  tensor := Z;
  float := Z;
  rng := Z;
  opt_state := nat;
  metric_state := Z * Z;
  np_seed_state := fun s => s;
  py_seed_state := fun s => s;
  mx_seed_state := fun s => s;
  zoo_parameters := fun _ => parameters;
  zoo_vocabulary := fun _ => vocabulary;
  wordpiece := fun _ _ s => split_blank s "";
  init_array := fun _ _ g =>
    (mx_gen g, {| np_gen := np_gen g; py_gen := py_gen g; mx_gen := (mx_gen g + 1)%Z |});
  bucket_sampler_iter := sampler_iter;
  bucket_sampler_len := fun s => Z.of_nat ((length (sampler_lengths s) + 1) / 2);
  net_forward := forward;
  softmax_ce_loss := fun out label => (out + sum (nd_values label))%Z;
  nd_mean := fun t => t;
  nd_asscalar := fun t => t;
  autograd_backward := backward;
  kv_allreduce := fun _ s => s;
  clip_global_norm := clip;
  optimizer_create := fun _ _ _ => O;
  optimizer_update := step;
  accuracy_init := (0%Z, 0%Z);
  accuracy_update := fun m label out =>
    ((fst m + (if Z.even out then 1 else 0))%Z, (snd m + 1)%Z);
  accuracy_get := fun m => (100 * fst m / snd m)%Z;
  float_of_int := fun z => z;
  float_add := Z.add;
  float_div := Z.div
|}.

(** Nine sentence pairs. *)
Definition mrpc_dev : list (list string) :=
  [ ["he said it"; "he said that"; "1"];
    ["a b"; "c"; "0"];
    ["the pie business"; "our pie"; "1"];
    ["x"; "y z"; "0"];
    ["long term growth"; "growth"; "1"];
    ["one"; "two"; "0"];
    ["it does not fit"; "it doesn t fit"; "1"];
    ["p q r"; "s"; "0"];
    ["strategy"; "the strategy"; "1"] ].

Definition g0 : gens Z := {| np_gen := 5%Z; py_gen := 6%Z; mx_gen := 7%Z |}.

Definition g1 : gens Z := {| np_gen := 1%Z; py_gen := 2%Z; mx_gen := 3%Z |}.

(** The tokenizer, the transformed dataset and the training environment of
    the notebook on these pairs. *)
Definition tokenizer : BERTTokenizer := @bert_tokenizer framework.

Definition data_train : TransformedDataset :=
  @transformed framework BERTDatasetTransform mrpc_dev.

Definition env : train_env :=
  {| env_model := @prepared_model framework;
     env_data := data_train;
     env_sampler := {| sampler_lengths := [9; 6; 8; 6; 7; 5; 11; 7; 6]%Z;
                       sampler_batch_size := 32;
                       sampler_shuffle := true |};
     env_trainer := {| tr_params := [0; 1; 2; 3];
                       tr_optimizer := "adam";
                       tr_learning_rate := lr;
                       tr_epsilon := 1 # 1000000000 |};
     env_params := [0; 2; 3] |}.

(** The run of the notebook, and the run of its training loop after the setup. *)
Abbreviation run := (@notebook framework mrpc_dev (@initial_world framework g0)).

Abbreviation loop_run :=
  (@cell_finetune_loop framework env
     (world_of (@cell_finetune_setup framework (@prepared_model framework) data_train
                  (@prepared_world framework)))).

(** The first pair, and what the transform makes of it. *)
Definition line0 : list string := ["he said it"; "he said that"; "1"].

Definition item0 : list ndarray :=
  value_or [] (BERTDatasetTransform tokenizer max_len all_labels int32 line0).

(** The first batch that the training loop draws: it is the third call of
    the loop, after the reset of the metric and the start of the sampler. *)
Definition batch0 : list ndarray := @batch_at framework (trace_of loop_run) 2.

(** The first log line: it is printed after four batches. *)
Definition log0 : @call framework :=
  @E_print framework (@p_log framework 0 4 5 39057%Z lr 75%Z).

(** The training environment over a dataset that has lost its lines, and
    the run of the training loop on it. *)
Definition env_without_data : train_env :=
  {| env_model := env_model env;
     env_data := {| ds_base := []; ds_fn := ds_fn data_train |};
     env_sampler := env_sampler env;
     env_trainer := env_trainer env;
     env_params := env_params env |}.

Abbreviation failing_run :=
  (@cell_finetune_loop framework env_without_data (@prepared_world framework)).

(** Two pairs, the second with a label that is not among the labels. *)
Definition well_labelled : list (list string) := [["he said it"; "he said that"; "1"]].

Definition mislabelled : list string := ["a b"; "c"; "7"].

(** A transform that reads the third field of a line, and lines of which
    the second has two fields only. *)
Definition third_field (line : list string) : result (list ndarray) :=
  label <~ getitem line 2 ;;
  Ok [np_array int32 []; np_scalar int32 (Z.of_nat (String.length label))].

Definition short_data : TransformedDataset :=
  {| ds_base := [["a"; "b"; "1"]] ++ ["c"; "d"] :: [["e"; "f"; "0"]];
     ds_fn := third_field |}.

Definition env_short : train_env :=
  {| env_model := @prepared_model framework;
     env_data := short_data;
     env_sampler := {| sampler_lengths := [1]%Z;
                       sampler_batch_size := 32;
                       sampler_shuffle := true |};
     env_trainer := env_trainer env;
     env_params := [0; 2; 3] |}.

End Toy.

(** ** The sample the notebook prints

    The first pair of the dev set, as the notebook prints it, with the
    ids it prints for its tokens.  The tokenizer is the framework's; here
    the word pieces are named after the words of the two sentences and
    mapped to the printed ids. *)

Module Sample.

Definition quote : string := String (Ascii.ascii_of_nat 34) EmptyString.

Definition sentence_a : string :=
  "He said the foodservice pie business doesn 't fit the company 's long-term growth strategy .".

Definition sentence_b : string :=
  (quote ++ " The foodservice pie business does not fit our long-term growth strategy .")%string.

Definition tokens_a : list string :=
  ["he"; "said"; "the"; "foods"; "##er"; "##vic"; "##e"; "pie"; "business"; "doesn"; "'";
   "t"; "fit"; "the"; "company"; "'"; "s"; "long"; "-"; "term"; "growth"; "strategy"; "."].

Definition tokens_b : list string :=
  [quote; "the"; "foods"; "##er"; "##vic"; "##e"; "pie"; "business"; "does"; "not"; "fit";
   "our"; "long"; "-"; "term"; "growth"; "strategy"; "."].

Definition ids : list (string * Z) :=
  [ ("[PAD]", 1); ("[CLS]", 2); ("[SEP]", 3);
    ("he", 2002); ("said", 2056); ("the", 1996); ("foods", 9440); ("##er", 2121);
    ("##vic", 7903); ("##e", 2063); ("pie", 11345); ("business", 2449); ("doesn", 2987);
    ("'", 1005); ("t", 1056); ("fit", 4906); ("company", 2194); ("s", 1055);
    ("long", 2146); ("-", 1011); ("term", 2744); ("growth", 3930); ("strategy", 5656);
    (".", 1012); (quote, 1000); ("does", 2515); ("not", 2025); ("our", 2256) ]%Z.

Fixpoint lookup (table : list (string * Z)) (t : string) : Z :=
  match table with
  | [] => 0
  | (k, v) :: rest => if String.eqb k t then v else lookup rest t
  end.

Definition vocabulary : BERTVocab :=
  {| cls_token := "[CLS]"; sep_token := "[SEP]"; padding_token := "[PAD]";
     token_to_idx := lookup ids |}.

Definition tokenizer : BERTTokenizer :=
  {| vocab := vocabulary;
     lower := true;
     tokenize := fun text =>
       if String.eqb text sentence_a then tokens_a
       else if String.eqb text sentence_b then tokens_b
       else [] |}.

(** What the notebook prints for the sample. *)
Definition printed_token_ids : list Z :=
  ([2; 2002; 2056; 1996; 9440; 2121; 7903; 2063; 11345; 2449; 2987; 1005;
    1056; 4906; 1996; 2194; 1005; 1055; 2146; 1011; 2744; 3930; 5656; 1012;
    3; 1000; 1996; 9440; 2121; 7903; 2063; 11345; 2449; 2515; 2025; 4906;
    2256; 2146; 1011; 2744; 3930; 5656; 1012; 3] ++ repeat 1 84)%Z.

Definition printed_valid_length : Z := 44.

Definition printed_segment_ids : list Z :=
  (repeat 0 25 ++ repeat 1 19 ++ repeat 0 84)%Z.

Definition printed_label : list Z := [1%Z].

End Sample.

(** * Properties *)

(** ** The sentence-pair transform *)

(** From [H : Ok x = Ok e], replace [e] by [x] without reducing [x]. *)
Ltac ok_subst H :=
  match type of H with
  | Ok ?x = Ok ?e =>
      let He := fresh "He" in
      assert (He : e = x) by congruence; subst e; clear H
  end.

Lemma rbind_ok_inv {A B : Type} (r : result A) (f : A -> result B) (b : B) :
  rbind r f = Ok b -> exists a, r = Ok a /\ f a = Ok b.
Proof.
  destruct r as [a | e]; simpl; intros H.
  - exists a. split; [reflexivity | exact H].
  - discriminate H.
Qed.

Lemma length_removelast {A : Type} (l : list A) :
  length (removelast l) = length l - 1.
Proof.
  rewrite removelast_firstn_len, length_firstn. lia.
Qed.

Lemma firstn_removelast {A : Type} (k : nat) (l : list A) :
  k <= length l - 1 -> firstn k (removelast l) = firstn k l.
Proof.
  intros Hk. rewrite removelast_firstn_len, firstn_firstn.
  f_equal. lia.
Qed.

(** With a budget that is not negative the truncation loop returns, and
    what it keeps are prefixes of the two lists that fit the budget. *)
Lemma truncate_seq_pair_loop_ok (n : nat) :
  forall (a b : list string) (m : Z),
    length a + length b = n ->
    (0 <= m)%Z ->
    exists ka kb,
      truncate_seq_pair_loop n a b m = Ok (firstn ka a, firstn kb b)
      /\ ka <= length a /\ kb <= length b
      /\ (Z.of_nat (ka + kb) <= m)%Z
      /\ (b <> [] -> (2 <= m)%Z -> kb <> 0).
Proof.
  induction n as [| n IH]; intros a b m Hn Hm.
  - destruct a; [| discriminate Hn]. destruct b; [| discriminate Hn].
    exists 0, 0. cbn [truncate_seq_pair_loop length Nat.add Z.of_nat firstn].
    destruct (Z.leb_spec 0 m) as [_ | Hlt]; [| lia].
    repeat split; auto; try lia; try (intros Hb; congruence).
  - cbn [truncate_seq_pair_loop].
    destruct (Z.leb_spec (Z.of_nat (length a + length b)) m) as [Hfit | Hover].
    + exists (length a), (length b). rewrite !firstn_all.
      repeat split; auto. intros Hb _. destruct b; [congruence | discriminate].
    + destruct (Nat.ltb_spec (length b) (length a)) as [Hlong | Hshort].
      * destruct (IH (removelast a) b m) as (ka & kb & Heq & Hka & Hkb & Hsum & Hne).
        { rewrite length_removelast. lia. }
        { exact Hm. }
        rewrite length_removelast in Hka.
        exists ka, kb. rewrite Heq, firstn_removelast by exact Hka.
        repeat split; auto; lia.
      * destruct b as [| tb b'] eqn:Eb.
        { simpl in Hshort. destruct a; [simpl in Hn; discriminate Hn | simpl in Hshort; lia]. }
        rewrite <- Eb in *.
        assert (Hlen : 1 <= length b) by (rewrite Eb; simpl; lia).
        destruct (IH a (removelast b) m) as (ka & kb & Heq & Hka & Hkb & Hsum & Hne).
        { rewrite length_removelast. lia. }
        { exact Hm. }
        rewrite length_removelast in Hkb.
        exists ka, kb. rewrite Heq, firstn_removelast by exact Hkb.
        repeat split; auto; try lia.
        intros _ Hm2. apply Hne; [| exact Hm2].
        intros Hrl. apply (f_equal (@length string)) in Hrl.
        rewrite length_removelast in Hrl. simpl in Hrl. lia.
Qed.

Lemma truncate_seq_pair_ok (a b : list string) (m : Z) :
  (0 <= m)%Z ->
  exists ka kb,
    truncate_seq_pair a b m = Ok (firstn ka a, firstn kb b)
    /\ ka <= length a /\ kb <= length b
    /\ (Z.of_nat (ka + kb) <= m)%Z
    /\ (b <> [] -> (2 <= m)%Z -> kb <> 0).
Proof.
  intros Hm. apply truncate_seq_pair_loop_ok; [reflexivity | exact Hm].
Qed.

Lemma length_replicate {A : Type} (x : A) (n : Z) :
  length (replicate x n) = Z.to_nat n.
Proof.
  unfold replicate. apply repeat_length.
Qed.

Lemma length_first_sequence (v : BERTVocab) (ta : list string) :
  length (first_sequence v ta) = length ta + 2.
Proof.
  unfold first_sequence. simpl. rewrite length_app. simpl. lia.
Qed.

Lemma length_second_sequence (v : BERTVocab) (tb : list string) :
  length (second_sequence v tb) = match tb with [] => 0 | _ :: _ => length tb + 1 end.
Proof.
  destruct tb as [| t tb]; [reflexivity |].
  unfold second_sequence. rewrite length_app. reflexivity.
Qed.

(** What the sentence transform computes for a pair, with padding, when
    the maximum sequence length leaves room for [CLS] and the two [SEP]. *)
Lemma encode_sentences_pair (tk : BERTTokenizer) (m : Z) (line : list string)
  (e : sentence_encoding) :
  (3 <= m)%Z ->
  encode_sentences tk m true true line = Ok e ->
  exists text_a text_b ka kb,
    line = [text_a; text_b]
    /\ enc_tokens_a e = firstn ka (tokenize tk text_a)
    /\ enc_tokens_b e = firstn kb (tokenize tk text_b)
    /\ (tokenize tk text_b <> [] -> (5 <= m)%Z -> enc_tokens_b e <> [])
    /\ enc_valid_length e
       = length (first_sequence (vocab tk) (enc_tokens_a e)
                 ++ second_sequence (vocab tk) (enc_tokens_b e))
    /\ (Z.of_nat (enc_valid_length e) <= m)%Z
    /\ enc_input_ids e
       = map (token_to_idx (vocab tk))
             (first_sequence (vocab tk) (enc_tokens_a e)
              ++ second_sequence (vocab tk) (enc_tokens_b e))
         ++ repeat (token_to_idx (vocab tk) (padding_token (vocab tk)))
                   (Z.to_nat (m - Z.of_nat (enc_valid_length e)))
    /\ enc_segment_ids e
       = repeat 0%Z (length (first_sequence (vocab tk) (enc_tokens_a e)))
         ++ repeat 1%Z (length (second_sequence (vocab tk) (enc_tokens_b e)))
         ++ repeat 0%Z (Z.to_nat (m - Z.of_nat (enc_valid_length e))).
Proof.
  intros Hm H. unfold encode_sentences in H.
  destruct line as [| text_a [| text_b [| x rest]]]; try discriminate H.
  unfold getitem in H. cbn [nth_error rbind] in H.
  change (length [text_a; text_b] =? 2) with true in H. cbn iota in H.
  remember (tokenize tk text_a) as a0 eqn:Ea0.
  remember (tokenize tk text_b) as b0 eqn:Eb0.
  cbn [rbind] in H.
  assert (Hkept : exists ka kb,
             (match b0 with
              | _ :: _ => truncate_seq_pair a0 b0 (m - 3)
              | [] => if (m - 2 <? Z.of_nat (length a0))%Z
                      then Ok (slice_to a0 (m - 2), [])
                      else Ok (a0, [])
              end) = Ok (firstn ka a0, firstn kb b0)
             /\ (Z.of_nat (length (firstn ka a0)
                           + match firstn kb b0 with
                             | [] => 0
                             | _ :: _ => length (firstn kb b0) + 1
                             end) + 2 <= m)%Z
             /\ (b0 <> [] -> (5 <= m)%Z -> firstn kb b0 <> [])).
  { destruct b0 as [| tb b0'] eqn:Eb.
    - destruct (Z.ltb_spec (m - 2) (Z.of_nat (length a0))) as [Hlong | Hfit].
      + exists (Z.to_nat (m - 2)), 0. unfold slice_to.
        destruct (Z.leb_spec 0 (m - 2)) as [_ | Hneg]; [| lia].
        split; [reflexivity |]. split; [| congruence].
        rewrite length_firstn. simpl. lia.
      + exists (length a0), 0. rewrite firstn_all. split; [reflexivity |].
        split; [simpl; lia | congruence].
    - rewrite <- Eb.
      destruct (truncate_seq_pair_ok a0 b0 (m - 3)) as (ka & kb & Heq & Hka & Hkb & Hsum & Hne);
        [lia |].
      exists ka, kb. split; [exact Heq |]. split.
      + rewrite !length_firstn. destruct (firstn kb b0); lia.
      + intros Hb H5. specialize (Hne Hb ltac:(lia)).
        rewrite Eb in *. destruct kb; [congruence | discriminate]. }
  destruct Hkept as (ka & kb & Hk & Hfit & Hsurv). rewrite Hk in H. cbn [rbind] in H.
  remember (firstn ka a0) as ta eqn:Eta. remember (firstn kb b0) as tb eqn:Etb.
  exists text_a, text_b, ka, kb.
  split; [reflexivity |].
  assert (Hta : ta = firstn ka (tokenize tk text_a)) by congruence.
  assert (Htb : tb = firstn kb (tokenize tk text_b)) by congruence.
  assert (Hsv : tokenize tk text_b <> [] -> (5 <= m)%Z -> tb <> []).
  { intros Hb H5. apply Hsurv; [rewrite Eb0; exact Hb | exact H5]. }
  clear Eta Etb Ea0 Eb0 Hk Hsurv.
  destruct tb as [| t tb'].
  - ok_subst H.
    unfold enc_tokens_a, enc_tokens_b, enc_valid_length, enc_input_ids, enc_segment_ids.
    cbv beta iota.
    change (second_sequence (vocab tk) []) with (@nil string).
    rewrite app_nil_r. fold (first_sequence (vocab tk) ta).
    rewrite !length_map.
    split; [exact Hta |]. split; [exact Htb |]. split; [exact Hsv |].
    split; [reflexivity |].
    split; [rewrite length_first_sequence; lia |].
    split; [reflexivity |].
    unfold replicate. rewrite Nat2Z.id. reflexivity.
  - ok_subst H.
    unfold enc_tokens_a, enc_tokens_b, enc_valid_length, enc_input_ids, enc_segment_ids.
    cbv beta iota.
    change (second_sequence (vocab tk) (t :: tb'))
      with ((t :: tb') ++ [sep_token (vocab tk)]).
    fold (first_sequence (vocab tk) ta). rewrite !length_map.
    split; [exact Hta |]. split; [exact Htb |]. split; [exact Hsv |].
    split; [reflexivity |].
    split.
    { rewrite length_app, length_first_sequence, length_app.
      cbn [length] in Hfit |- *. lia. }
    split; [reflexivity |].
    unfold replicate. rewrite <- app_assoc. f_equal; [| f_equal].
    + rewrite Nat2Z.id. reflexivity.
    + rewrite repeat_length, Nat2Z.id. f_equal. rewrite length_app. lia.
Qed.

Lemma label_map_all_labels (label : string) (i : nat) :
  label_map all_labels label = Some i ->
  (label = "0" /\ i = 0) \/ (label = "1" /\ i = 1).
Proof.
  unfold label_map, all_labels. cbn [label_map_from].
  destruct (String.eqb_spec label "1") as [E1 | N1].
  - intros H. right. split; [exact E1 | congruence].
  - destruct (String.eqb_spec label "0") as [E0 | N0].
    + intros H. left. split; [exact E0 | congruence].
    + discriminate.
Qed.

(** A line the transform accepts has three fields: two sentences and a
    label; the result is built from the encoding of the two sentences and
    the index of the label. *)
Lemma BERTDatasetTransform_inv (tk : BERTTokenizer) (m : Z) (labels : list string)
  (d : dtype) (line : list string) (item : list ndarray) :
  BERTDatasetTransform tk m labels d line = Ok item ->
  exists text_a text_b label e i,
    line = [text_a; text_b; label]
    /\ encode_sentences tk m true true [text_a; text_b] = Ok e
    /\ label_map labels label = Some i
    /\ item = [np_array int32 (enc_input_ids e);
               np_scalar int32 (Z.of_nat (enc_valid_length e));
               np_array int32 (enc_segment_ids e);
               np_array d [Z.of_nat i]].
Proof.
  unfold BERTDatasetTransform, BERTSentenceTransform. intros H.
  apply rbind_ok_inv in H. destruct H as ([[ids vl] segs] & Hs & H).
  apply rbind_ok_inv in Hs. destruct Hs as (e & He & Hs).
  apply rbind_ok_inv in H. destruct H as (label & Hlast & H).
  apply rbind_ok_inv in H. destruct H as (i & Hi & H).
  assert (Hline : exists text_a text_b, line = [text_a; text_b; label]).
  { unfold encode_sentences, getitem in He.
    destruct line as [| x1 [| x2 [| x3 [| x4 rest]]]].
    - discriminate He.
    - discriminate He.
    - discriminate He.
    - unfold getlast in Hlast. cbn [rev app] in Hlast. exists x1, x2. congruence.
    - exfalso. clear - He.
      change (removelast (x1 :: x2 :: x3 :: x4 :: rest))
        with (x1 :: x2 :: x3 :: removelast (x4 :: rest)) in He.
      cbn [nth_error rbind length Nat.eqb] in He. discriminate He. }
  destruct Hline as (text_a & text_b & ->).
  exists text_a, text_b, label, e, i.
  change (removelast [text_a; text_b; label]) with [text_a; text_b] in He.
  split; [reflexivity |]. split; [exact He |].
  split; [destruct (label_map labels label); congruence |].
  congruence.
Qed.

(** C4: for every sentence pair the transform processes, the token ids and
    the segment ids are int32 arrays, and within the valid length the
    tokens of the first sequence ([CLS], the tokens kept of the first
    sentence, [SEP]) have segment id 0 and the tokens of the second
    sequence (the tokens kept of the second sentence, [SEP]) have segment
    id 1. *)
Theorem segment_ids_tell_first_from_second (tk : BERTTokenizer) (line : list string)
  (item : list ndarray) :
  BERTDatasetTransform tk max_len all_labels int32 line = Ok item ->
  exists text_a text_b label tokens_a tokens_b token_ids valid_length segment_ids label_array,
    line = [text_a; text_b; label]
    /\ item = [token_ids; valid_length; segment_ids; label_array]
    /\ nd_dtype token_ids = int32
    /\ nd_dtype segment_ids = int32
    /\ (exists ka, tokens_a = firstn ka (tokenize tk text_a))
    /\ (exists kb, tokens_b = firstn kb (tokenize tk text_b))
    /\ (tokenize tk text_b <> [] -> tokens_b <> [])
    /\ nd_values valid_length
       = [Z.of_nat (length (first_sequence (vocab tk) tokens_a)
                    + length (second_sequence (vocab tk) tokens_b))]
    /\ firstn (length (first_sequence (vocab tk) tokens_a)
               + length (second_sequence (vocab tk) tokens_b))
              (nd_values token_ids)
       = map (token_to_idx (vocab tk))
             (first_sequence (vocab tk) tokens_a ++ second_sequence (vocab tk) tokens_b)
    /\ firstn (length (first_sequence (vocab tk) tokens_a)
               + length (second_sequence (vocab tk) tokens_b))
              (nd_values segment_ids)
       = repeat 0%Z (length (first_sequence (vocab tk) tokens_a))
         ++ repeat 1%Z (length (second_sequence (vocab tk) tokens_b)).
Proof.
  intros H. apply BERTDatasetTransform_inv in H.
  destruct H as (text_a & text_b & label & e & i & Hline & He & _ & Hitem).
  apply encode_sentences_pair in He; [| unfold max_len; lia].
  destruct He as (a' & b' & ka & kb & Hl & Hta & Htb & Hsv & Hvl & _ & Hids & Hsegs).
  injection Hl as <- <-.
  exists text_a, text_b, label, (enc_tokens_a e), (enc_tokens_b e).
  exists (np_array int32 (enc_input_ids e)),
         (np_scalar int32 (Z.of_nat (enc_valid_length e))),
         (np_array int32 (enc_segment_ids e)),
         (np_array int32 [Z.of_nat i]).
  split; [exact Hline |]. split; [exact Hitem |].
  split; [reflexivity |]. split; [reflexivity |].
  split; [exists ka; exact Hta |]. split; [exists kb; exact Htb |].
  split; [intros Hb; apply Hsv; [exact Hb | unfold max_len; lia] |].
  cbn [nd_values np_array np_scalar].
  rewrite <- length_app, <- Hvl.
  split; [reflexivity |]. split.
  - rewrite Hids, Hvl, <- (length_map (token_to_idx (vocab tk))).
    rewrite firstn_app, firstn_all, Nat.sub_diag. cbn [firstn]. apply app_nil_r.
  - rewrite Hsegs, app_assoc, Hvl, length_app.
    rewrite <- (repeat_length 0%Z (length (first_sequence (vocab tk) (enc_tokens_a e)))) at 1.
    rewrite <- (repeat_length 1%Z (length (second_sequence (vocab tk) (enc_tokens_b e)))) at 1.
    rewrite <- length_app.
    rewrite firstn_app, firstn_all, Nat.sub_diag. cbn [firstn]. apply app_nil_r.
Qed.

(** C8: every transformed example has token ids and segment ids of length
    exactly 128, a valid length between 1 and 128, and from the valid
    length on the token ids hold the id of the padding token and the
    segment ids hold 0. *)
Theorem transformed_example_is_padded (tk : BERTTokenizer) (line : list string)
  (item : list ndarray) :
  BERTDatasetTransform tk max_len all_labels int32 line = Ok item ->
  exists token_ids valid_length segment_ids label_array v,
    item = [token_ids; valid_length; segment_ids; label_array]
    /\ length (nd_values token_ids) = 128
    /\ nd_shape token_ids = [128]
    /\ length (nd_values segment_ids) = 128
    /\ nd_shape segment_ids = [128]
    /\ nd_values valid_length = [v]
    /\ (0 < v <= 128)%Z
    /\ forall i, (v <= Z.of_nat i)%Z -> i < 128 ->
         nth_error (nd_values token_ids) i
         = Some (token_to_idx (vocab tk) (padding_token (vocab tk)))
         /\ nth_error (nd_values segment_ids) i = Some 0%Z.
Proof.
  intros H. apply BERTDatasetTransform_inv in H.
  destruct H as (text_a & text_b & label & e & i & Hline & He & _ & Hitem).
  apply encode_sentences_pair in He; [| unfold max_len; lia].
  destruct He as (a' & b' & ka & kb & _ & _ & _ & _ & Hvl & Hle & Hids & Hsegs).
  unfold max_len in *.
  set (n := enc_valid_length e) in *.
  set (l1 := length (first_sequence (vocab tk) (enc_tokens_a e))) in *.
  set (l2 := length (second_sequence (vocab tk) (enc_tokens_b e))) in *.
  assert (Hn : n = l1 + l2) by (rewrite Hvl; apply length_app).
  assert (Hpos : 2 <= n).
  { rewrite Hn. unfold l1. rewrite length_first_sequence. lia. }
  assert (Hpad : Z.to_nat (128 - Z.of_nat n) = 128 - n) by lia.
  rewrite Hpad in Hids, Hsegs.
  assert (Hlen_ids : length (enc_input_ids e) = 128).
  { rewrite Hids, length_app, length_map, repeat_length, <- Hvl. lia. }
  assert (Hlen_segs : length (enc_segment_ids e) = 128).
  { rewrite Hsegs, !length_app, !repeat_length. lia. }
  exists (np_array int32 (enc_input_ids e)),
         (np_scalar int32 (Z.of_nat n)),
         (np_array int32 (enc_segment_ids e)),
         (np_array int32 [Z.of_nat i]), (Z.of_nat n).
  cbn [nd_values nd_shape np_array np_scalar].
  rewrite Hlen_ids, Hlen_segs.
  repeat (split; [first [exact Hitem | reflexivity | lia] |]).
  intros j Hj Hj128. split.
  - rewrite Hids, nth_error_app2 by (rewrite length_map, <- Hvl; lia).
    rewrite length_map, <- Hvl. apply nth_error_repeat. lia.
  - rewrite Hsegs, app_assoc.
    assert (Hl2 : length (repeat 0%Z l1 ++ repeat 1%Z l2) = n).
    { rewrite length_app, !repeat_length. lia. }
    rewrite nth_error_app2 by (rewrite Hl2; lia).
    rewrite Hl2. apply nth_error_repeat. lia.
Qed.

(** ** Runs and their traces *)

Section NotebookFacts.

Context {fw : Framework}.

Lemma bind_ok {A B : Type} (m : M A) (f : A -> M B) (w w1 : world) (a : A)
  (t1 : list call) :
  m w = (Ok a, w1, t1) ->
  bind m f w = (value_of (f a w1), world_of (f a w1), t1 ++ trace_of (f a w1)).
Proof.
  intros H. unfold bind. rewrite H.
  destruct (f a w1) as [[r w2] t2]. reflexivity.
Qed.

Lemma bind_raise {A B : Type} (m : M A) (f : A -> M B) (w w1 : world) (e : exn)
  (t1 : list call) :
  m w = (Raise e, w1, t1) -> bind m f w = (Raise e, w1, t1).
Proof.
  intros H. unfold bind. rewrite H. reflexivity.
Qed.

Lemma run_eta {A : Type} (x : result A * world * list call) :
  x = (value_of x, world_of x, trace_of x).
Proof.
  destruct x as [[r w] t]. reflexivity.
Qed.

(** A sequence that returns ran both its parts. *)
Lemma bind_ok_inv {A B : Type} (m : M A) (f : A -> M B) (w : world) (b : B) :
  value_of (bind m f w) = Ok b ->
  exists a, value_of (m w) = Ok a
            /\ value_of (f a (world_of (m w))) = Ok b
            /\ world_of (bind m f w) = world_of (f a (world_of (m w)))
            /\ trace_of (bind m f w)
               = trace_of (m w) ++ trace_of (f a (world_of (m w))).
Proof.
  unfold bind. destruct (m w) as [[[a | e] w1] t1]; cbn.
  - destruct (f a w1) as [[r w2] t2] eqn:E. cbn. intros H. exists a.
    rewrite E. cbn. repeat split; auto.
  - discriminate.
Qed.

(** The trace of a sequence starts with the trace of its first part. *)
Lemma bind_trace {A B : Type} (m : M A) (f : A -> M B) (w : world) :
  exists t2, trace_of (bind m f w) = trace_of (m w) ++ t2
             /\ (t2 = [] \/ exists a, value_of (m w) = Ok a
                                      /\ t2 = trace_of (f a (world_of (m w)))).
Proof.
  unfold bind. destruct (m w) as [[[a | e] w1] t1]; cbn.
  - destruct (f a w1) as [[r w2] t2] eqn:E. cbn. exists t2. split; [reflexivity |].
    right. exists a. rewrite E. auto.
  - exists []. rewrite app_nil_r. auto.
Qed.

Lemma everywhere_nil (R : list call -> call -> list call -> Prop) (h : list call) :
  everywhere R h [].
Proof.
  intros pre c post H. destruct pre; discriminate H.
Qed.

Lemma everywhere_cons (R : list call -> call -> list call -> Prop) (h t : list call)
  (c : call) :
  R h c t -> everywhere R (h ++ [c]) t -> everywhere R h (c :: t).
Proof.
  intros Hc Ht pre c' post H. destruct pre as [| x pre].
  - cbn in H. injection H as <- <-. rewrite app_nil_r. exact Hc.
  - cbn in H. injection H as <- ->.
    specialize (Ht pre c' post eq_refl).
    rewrite <- app_assoc in Ht. exact Ht.
Qed.

Lemma everywhere_app (R : list call -> call -> list call -> Prop) (h t1 t2 : list call) :
  stable R ->
  everywhere R h t1 -> everywhere R (h ++ t1) t2 -> everywhere R h (t1 ++ t2).
Proof.
  intros Hst. revert h. induction t1 as [| c t1 IH]; intros h H1 H2.
  - rewrite app_nil_r in H2. exact H2.
  - cbn. apply everywhere_cons.
    + apply Hst.
      specialize (H1 [] c t1 eq_refl). rewrite app_nil_r in H1. exact H1.
    + apply IH.
      * intros pre c' post E. specialize (H1 (c :: pre) c' post).
        rewrite <- app_assoc. apply H1. cbn. rewrite E. reflexivity.
      * rewrite <- app_assoc. exact H2.
Qed.

Lemma everywhere_bind {A B : Type} (R : list call -> call -> list call -> Prop)
  (h : list call) (m : M A) (f : A -> M B) (w : world) :
  stable R ->
  everywhere R h (trace_of (m w)) ->
  (forall a, value_of (m w) = Ok a ->
             everywhere R (h ++ trace_of (m w)) (trace_of (f a (world_of (m w))))) ->
  everywhere R h (trace_of (bind m f w)).
Proof.
  intros Hst H1 H2.
  destruct (bind_trace m f w) as (t2 & -> & [-> | (a & Ha & ->)]).
  - rewrite app_nil_r. exact H1.
  - apply everywhere_app; auto.
Qed.

(** A loop keeps an invariant [I] of the items still to come, the trace so
    far, the loop state and the state of the run, while every call it
    makes satisfies [R]. *)
Lemma for_each_everywhere {A S : Type} (R : list call -> call -> list call -> Prop)
  (I : list A -> list call -> S -> world -> Prop) (body : S -> A -> M S) :
  stable R ->
  (forall x rest h s w,
      I (x :: rest) h s w ->
      everywhere R h (trace_of (body s x w))
      /\ forall s', value_of (body s x w) = Ok s' ->
                    I rest (h ++ trace_of (body s x w)) s' (world_of (body s x w))) ->
  forall l h s w,
    I l h s w ->
    everywhere R h (trace_of (for_each body l s w))
    /\ forall s', value_of (for_each body l s w) = Ok s' ->
                  I [] (h ++ trace_of (for_each body l s w)) s'
                    (world_of (for_each body l s w)).
Proof.
  intros Hst Hbody. induction l as [| x rest IH]; intros h s w HI.
  - cbn. split; [apply everywhere_nil |].
    intros s' E. injection E as <-. rewrite app_nil_r. exact HI.
  - cbn [for_each].
    destruct (Hbody x rest h s w HI) as [Hev Hnext].
    split.
    + apply everywhere_bind; auto.
      intros s1 E1. apply IH. apply Hnext. exact E1.
    + intros s' E. apply bind_ok_inv in E.
      destruct E as (s1 & E1 & E2 & -> & ->).
      specialize (Hnext s1 E1).
      destruct (IH _ _ _ Hnext) as [_ Hfin].
      rewrite app_assoc. apply Hfin. exact E2.
Qed.

(** *** One iteration of the inner loop *)

Lemma train_batch_load_raises (env : train_env) (epoch_id : Z) (st : Z * float)
  (idxs : list nat) (w : world) (e : exn) :
  load_batch (env_data env) idxs = Raise e ->
  train_batch env epoch_id st idxs w = (Raise e, w, []).
Proof.
  intros H. destruct st as [k s]. unfold train_batch, next_batch, lift, bind.
  rewrite H. reflexivity.
Qed.

Lemma train_batch_unpack_raises (env : train_env) (epoch_id : Z) (st : Z * float)
  (idxs : list nat) (w : world) (batch : list ndarray) (e : exn) :
  load_batch (env_data env) idxs = Ok batch ->
  unpack4 batch = Raise e ->
  train_batch env epoch_id st idxs w = (Raise e, w, [E_next_batch batch]).
Proof.
  intros H Hu. destruct st as [k s]. unfold train_batch, next_batch, lift, bind, emit, ret.
  rewrite H, Hu. reflexivity.
Qed.

(** An iteration on a batch that unpacks: the calls it makes, what it
    leaves in the loop state and in the state of the run. *)
Lemma train_batch_run (env : train_env) (epoch_id k : Z) (s : float) (idxs : list nat)
  (w : world) (token_ids valid_length segment_ids label : ndarray) :
  load_batch (env_data env) idxs = Ok [token_ids; valid_length; segment_ids; label] ->
  let fwd := net_forward (w_store w) (w_gens w) token_ids segment_ids
               (astype float32 valid_length) in
  let out := fst fwd in
  let ls := nd_mean (softmax_ce_loss out label) in
  let v := nd_asscalar ls in
  let logged := ((k + 1) mod log_interval =? 0)%Z in
  let m' := accuracy_update (w_metric w) label out in
  train_batch env epoch_id (k, s) idxs w
  = (Ok ((k + 1)%Z, if logged then float_of_int 0 else float_add s v),
     {| w_gens := snd fwd;
        w_store := fst (store_after_step env ls w);
        w_optimizer := snd (store_after_step env ls w);
        w_metric := m' |},
     E_next_batch [token_ids; valid_length; segment_ids; label]
     :: step_calls env token_ids valid_length segment_ids label
     ++ [E_asscalar v; E_metric_update label out]
     ++ (if logged
         then [E_print (p_log epoch_id (k + 1) (bucket_sampler_len (env_sampler env))
                              (float_div (float_add s v) (float_of_int log_interval))
                              (tr_learning_rate (env_trainer env)) (accuracy_get m'))]
         else [])).
Proof.
  intros H. cbv zeta.
  unfold train_batch, next_batch, lift, bind, emit, ret, model_call, loss_mean, backward,
    allreduce_grads, clip_grad_global_norm, update, asscalar, metric_update, metric_get,
    print, bind, emit, ret, store_after_step.
  rewrite H. cbn [unpack4].
  destruct w as [g0 s0 o0 m0].
  cbn [fst snd w_store w_gens w_optimizer w_metric with_store with_gens with_optimizer with_metric].
  destruct (net_forward s0 g0 token_ids segment_ids (astype float32 valid_length))
    as [out g].
  cbn [fst snd w_store w_gens w_optimizer w_metric with_store with_gens with_optimizer with_metric].
  destruct o0 as [o |].
  - destruct (optimizer_update _ _ _ _) as [o' s'].
    cbn [fst snd w_store w_gens w_optimizer w_metric with_store with_gens with_optimizer with_metric].
    destruct ((k + 1) mod log_interval =? 0)%Z; reflexivity.
  - destruct ((k + 1) mod log_interval =? 0)%Z; reflexivity.
Qed.

(** The three ways an iteration of the inner loop can go. *)
Lemma train_batch_cases (env : train_env) (epoch_id k : Z) (s : float) (idxs : list nat)
  (w : world) :
  (exists e, load_batch (env_data env) idxs = Raise e
             /\ train_batch env epoch_id (k, s) idxs w = (Raise e, w, []))
  \/ (exists batch e, load_batch (env_data env) idxs = Ok batch
                      /\ unpack4 batch = Raise e
                      /\ train_batch env epoch_id (k, s) idxs w
                         = (Raise e, w, [E_next_batch batch]))
  \/ (exists token_ids valid_length segment_ids label,
         load_batch (env_data env) idxs = Ok [token_ids; valid_length; segment_ids; label]).
Proof.
  destruct (load_batch (env_data env) idxs) as [batch | e] eqn:Hload.
  - destruct (unpack4 batch) as [u | e] eqn:Hu.
    + right. right.
      destruct batch as [| a [| b [| c [| d [| x rest]]]]]; try discriminate Hu.
      exists a, b, c, d. reflexivity.
    + right. left. exists batch, e. split; [reflexivity |]. split; [exact Hu |].
      apply train_batch_unpack_raises; assumption.
  - left. exists e. split; [reflexivity |]. apply train_batch_load_raises. exact Hload.
Qed.

(** A property of every call of an explicit trace, position by position. *)
Lemma everywhere_positions (R : list call -> call -> list call -> Prop)
  (h t : list call) :
  (forall j c, nth_error t j = Some c -> R (h ++ firstn j t) c (skipn (S j) t)) ->
  everywhere R h t.
Proof.
  intros H pre c post E. subst t.
  specialize (H (length pre) c).
  rewrite nth_error_app2, Nat.sub_diag in H by lia.
  specialize (H eq_refl).
  rewrite firstn_app, firstn_all, Nat.sub_diag, app_nil_r in H.
  replace (skipn (S (length pre)) (pre ++ c :: post)) with post in H; [exact H |].
  rewrite skipn_app, skipn_all2 by lia.
  replace (S (length pre) - length pre) with 1 by lia. reflexivity.
Qed.

(** The training loop: every call satisfies [R], given that [R] holds at
    the start of each pass and that an invariant [I] of the inner loop
    carries it through every iteration; [J] holds between the passes. *)
Lemma finetune_everywhere (env : train_env)
  (R : list call -> call -> list call -> Prop)
  (J : list call -> world -> Prop)
  (I : list (list nat) -> list call -> Z * float -> world -> Prop) :
  stable R ->
  (forall h q, R h E_metric_reset q) ->
  (forall h bs q, R (h ++ [E_metric_reset]) (E_iter (env_sampler env) bs) q) ->
  (forall h w, J h w ->
     I (fst (bucket_sampler_iter (env_sampler env) (w_gens w)))
       (h ++ [E_metric_reset;
              E_iter (env_sampler env)
                     (fst (bucket_sampler_iter (env_sampler env) (w_gens w)))])
       (0%Z, float_of_int 0)
       (with_gens (with_metric w accuracy_init)
          (snd (bucket_sampler_iter (env_sampler env) (w_gens w))))) ->
  (forall epoch_id idxs rest h st w,
     I (idxs :: rest) h st w ->
     everywhere R h (trace_of (train_batch env epoch_id st idxs w))
     /\ forall st', value_of (train_batch env epoch_id st idxs w) = Ok st' ->
                    I rest (h ++ trace_of (train_batch env epoch_id st idxs w)) st'
                      (world_of (train_batch env epoch_id st idxs w))) ->
  (forall h st w, I [] h st w -> J h w) ->
  forall h w,
    J h w ->
    everywhere R h (trace_of (cell_finetune_loop env w))
    /\ (value_of (cell_finetune_loop env w) = Ok tt ->
        J (h ++ trace_of (cell_finetune_loop env w)) (world_of (cell_finetune_loop env w))).
Proof.
  intros Hst Hreset Hiter Hstart Hbody Hend h w HJ.
  unfold cell_finetune_loop.
  pose (I2 := fun (_ : list nat) (h : list call) (_ : unit) (w : world) => J h w).
  destruct (for_each_everywhere R I2 (fun _ epoch_id => train_epoch env epoch_id) Hst)
    with (l := seq 0 num_epochs) (h := h) (s := tt) (w := w) as [Hev Hfin].
  - clear h w HJ. intros e rest h [] w HJ. unfold I2 in *.
    unfold train_epoch.
    assert (Hm : metric_reset w = (Ok tt, with_metric w accuracy_init, [E_metric_reset]))
      by reflexivity.
    rewrite (bind_ok _ _ _ _ _ _ Hm). cbn [value_of world_of trace_of fst snd].
    set (w1 := with_metric w accuracy_init).
    set (bs := fst (bucket_sampler_iter (env_sampler env) (w_gens w))).
    set (g := snd (bucket_sampler_iter (env_sampler env) (w_gens w))).
    assert (Hi : iter_sampler (env_sampler env) w1
                 = (Ok bs, with_gens w1 g, [E_iter (env_sampler env) bs])).
    { unfold iter_sampler, bs, g, w1. cbn [w_gens with_metric].
      destruct (bucket_sampler_iter (env_sampler env) (w_gens w)). reflexivity. }
    rewrite (bind_ok _ _ _ _ _ _ Hi). cbn [value_of world_of trace_of fst snd].
    specialize (Hstart h w HJ). fold bs g w1 in Hstart.
    destruct (for_each_everywhere R I (train_batch env (Z.of_nat e)) Hst (Hbody (Z.of_nat e))
                bs _ _ _ Hstart) as [Hev Hfin].
    set (inner := for_each (train_batch env (Z.of_nat e)) bs (0%Z, float_of_int 0)
                    (with_gens w1 g)) in *.
    assert (Etr : trace_of (bind (for_each (train_batch env (Z.of_nat e)) bs
                                    (0%Z, float_of_int 0)) (fun _ => ret tt) (with_gens w1 g))
                  = trace_of inner).
    { unfold bind. fold inner. destruct inner as [[[st | ex] w2] t]; cbn; [| reflexivity].
      apply app_nil_r. }
    rewrite Etr. split.
    + apply everywhere_cons; [apply Hreset |].
      apply everywhere_cons; [apply Hiter |].
      rewrite <- app_assoc. exact Hev.
    + intros [] E.
      assert (Ev : exists st', value_of inner = Ok st'
                               /\ world_of (bind (for_each (train_batch env (Z.of_nat e)) bs
                                      (0%Z, float_of_int 0)) (fun _ => ret tt) (with_gens w1 g))
                                  = world_of inner).
      { revert E. unfold bind. fold inner. destruct inner as [[[st | ex] w2] t]; cbn.
        - intros _. exists st. auto.
        - discriminate. }
      destruct Ev as (st' & Ev & ->).
      apply (Hend _ st'). specialize (Hfin st' Ev).
      rewrite <- app_assoc in Hfin. exact Hfin.
  - exact HJ.
  - split; [exact Hev |]. intros E. apply (Hfin tt). exact E.
Qed.

(** *** The setup of the fine-tuning cell *)

Lemma lift_run {A : Type} (r : result A) (w : world) :
  lift r w = (r, w, []).
Proof.
  reflexivity.
Qed.

(** What the cell builds before the loop: the sampler over the valid
    lengths of the items, the trainer over all the parameters of the
    model, and the list of its differentiable parameters. *)
Lemma cell_finetune_setup_ok (model : BERTClassifier_t) (data_train : TransformedDataset)
  (w : world) (env : train_env) :
  value_of (cell_finetune_setup model data_train w) = Ok env ->
  exists lengths,
    (items <~ dataset_iter (ds_fn data_train) (ds_base data_train) ;;
     mapR (fun item => x <~ getitem item 1 ;; int_ x) items) = Ok lengths
    /\ env = {| env_model := model;
                env_data := data_train;
                env_sampler := {| sampler_lengths := lengths;
                                  sampler_batch_size := batch_size;
                                  sampler_shuffle := true |};
                env_trainer := {| tr_params := collect_params model;
                                  tr_optimizer := "adam";
                                  tr_learning_rate := lr;
                                  tr_epsilon := 1 # 1000000000 |};
                env_params := filter (differentiable (w_store w)) (collect_params model) |}
    /\ w_store (world_of (cell_finetune_setup model data_train w)) = w_store w
    /\ w_gens (world_of (cell_finetune_setup model data_train w)) = w_gens w
    /\ trace_of (cell_finetune_setup model data_train w)
       = [E_FixedBucketSampler (env_sampler env); E_DataLoader (env_sampler env);
          E_Trainer (env_trainer env)].
Proof.
  unfold cell_finetune_setup.
  destruct (items <~ dataset_iter (ds_fn data_train) (ds_base data_train) ;;
            mapR (fun item => x <~ getitem item 1 ;; int_ x) items) as [lengths | e] eqn:El.
  - unfold bind, lift, emit, ret, Trainer. cbn. intros H. injection H as <-.
    exists lengths. cbn. repeat split; reflexivity.
  - unfold bind, lift. cbn. discriminate.
Qed.

(** The same for a property that needs no invariant. *)
Lemma finetune_everywhere_simple (env : train_env)
  (R : list call -> call -> list call -> Prop) :
  stable R ->
  (forall h q, R h E_metric_reset q) ->
  (forall h bs q, R (h ++ [E_metric_reset]) (E_iter (env_sampler env) bs) q) ->
  (forall epoch_id idxs h st w,
      everywhere R h (trace_of (train_batch env epoch_id st idxs w))) ->
  forall h w, everywhere R h (trace_of (cell_finetune_loop env w)).
Proof.
  intros Hst Hreset Hiter Hbody h w.
  apply (finetune_everywhere env R (fun _ _ => True) (fun _ _ _ _ => True)); auto.
Qed.

(** ** The trainer step *)

Lemma step_in_order_stable (env : train_env) : stable (step_in_order env).
Proof.
  intros p c q x [H1 H2]. split.
  - intros t1 t2 t3 t4 E. destruct (H1 _ _ _ _ E) as (q' & ->).
    exists (q' ++ x). rewrite app_assoc. reflexivity.
  - intros E. destruct (H2 E) as (p' & t1 & t2 & t3 & t4 & j & q' & Hp & Hq & Hj).
    exists p', t1, t2, t3, t4, j, (q' ++ x). repeat split; auto.
    rewrite app_assoc, <- Hq. reflexivity.
Qed.

Lemma step_in_order_other (env : train_env) (p q : list call) (c : call) :
  is_step_call c = false -> is_next_batch c = false -> step_in_order env p c q.
Proof.
  intros Hs Hn. split.
  - intros t1 t2 t3 t4 ->. discriminate Hn.
  - rewrite Hs. discriminate.
Qed.

(** Every iteration of the inner loop makes the calls of one trainer step
    right after it drew its batch, and no such call anywhere else. *)
Lemma train_batch_step_in_order (env : train_env) (epoch_id : Z) (st : Z * float)
  (idxs : list nat) (w : world) (h : list call) :
  everywhere (step_in_order env) h (trace_of (train_batch env epoch_id st idxs w)).
Proof.
  destruct st as [k s].
  destruct (train_batch_cases env epoch_id k s idxs w)
    as [(e & _ & ->) | [(batch & e & _ & Hu & ->) | (tok & vl & seg & lab & Hload)]].
  - apply everywhere_nil.
  - apply everywhere_cons; [| apply everywhere_nil]. split.
    + intros tok vl seg lab E. injection E as ->. discriminate Hu.
    + discriminate.
  - rewrite (train_batch_run env epoch_id k s idxs w tok vl seg lab Hload).
    cbv zeta. cbn [trace_of snd].
    set (out := fst (net_forward (w_store w) (w_gens w) tok seg (astype float32 vl))).
    set (tail := [E_asscalar (nd_asscalar (nd_mean (softmax_ce_loss out lab)));
                  E_metric_update lab out] ++ _).
    assert (Htail : forall h', everywhere (step_in_order env) h' tail).
    { intros h'. unfold tail. destruct ((k + 1) mod log_interval =? 0)%Z;
        repeat (apply everywhere_cons; [apply step_in_order_other; reflexivity |]);
        apply everywhere_nil. }
    apply everywhere_cons.
    { split; [| discriminate].
      intros tok' vl' seg' lab' E. injection E as <- <- <- <-. exists tail. reflexivity. }
    apply everywhere_app; [apply step_in_order_stable | | apply Htail].
    apply everywhere_positions. intros j c Hj. split.
    { intros t1 t2 t3 t4 ->. do 8 (destruct j as [| j]; [discriminate Hj |]).
      destruct j; discriminate Hj. }
    intros _. exists h, tok, vl, seg, lab, j, [].
    assert (Hlt : j < 8).
    { change 8 with (length (step_calls env tok vl seg lab)).
      apply nth_error_Some. rewrite Hj. discriminate. }
    rewrite app_nil_r, <- app_assoc. cbn [app].
    split; [reflexivity |]. split; [| exact Hlt].
    do 8 (destruct j as [| j]; [injection Hj as <-; reflexivity |]). lia.
Qed.

Lemma loop_step_in_order (env : train_env) (w : world) :
  everywhere (step_in_order env) [] (trace_of (cell_finetune_loop env w)).
Proof.
  apply finetune_everywhere_simple.
  - apply step_in_order_stable.
  - intros h q. apply step_in_order_other; reflexivity.
  - intros h bs q. apply step_in_order_other; reflexivity.
  - intros. apply train_batch_step_in_order.
Qed.

(** C2: for every batch drawn from the data loader the loop makes the
    calls of one trainer step, in this order: the forward computation of
    the output and of the mean softmax cross-entropy loss between the
    entry and the exit of the autograd recording, the backward
    computation, the all-reduce of the gradients, the clipping of the
    gradients of the differentiable parameters to global norm 1, and the
    update of the trainer with 1.  No call of a step is made anywhere
    else: a clipping is the seventh call of such a step, after the
    backward computation and before the update. *)
Theorem trainer_step_per_batch (model : BERTClassifier_t) (data_train : TransformedDataset)
  (w0 : world) (env : train_env) (w : world) (pre post : list call) (c : call) :
  value_of (cell_finetune_setup model data_train w0) = Ok env ->
  trace_of (cell_finetune_loop env w) = pre ++ c :: post ->
  env_params env = filter (differentiable (w_store w0)) (collect_params model)
  /\ (forall token_ids valid_length segment_ids label,
         c = E_next_batch [token_ids; valid_length; segment_ids; label] ->
         exists post',
           post = [ E_record_enter;
                    E_model token_ids segment_ids (astype float32 valid_length);
                    E_loss label;
                    E_record_exit;
                    E_backward;
                    E_allreduce_grads;
                    E_clip_grad_global_norm (env_params env) 1;
                    E_update 1 ] ++ post')
  /\ (is_step_call c = true ->
      exists pre' token_ids valid_length segment_ids label j post',
        pre = pre' ++ E_next_batch [token_ids; valid_length; segment_ids; label]
                   :: firstn j (step_calls env token_ids valid_length segment_ids label)
        /\ c :: post = skipn j (step_calls env token_ids valid_length segment_ids label)
                       ++ post'
        /\ j < 8).
Proof.
  intros Hsetup Htrace.
  destruct (cell_finetune_setup_ok _ _ _ _ Hsetup) as (lengths & _ & Henv & _).
  split; [rewrite Henv; reflexivity |].
  exact (loop_step_in_order env w pre c post Htrace).
Qed.

(** ** Epochs, the metric and the running loss *)

Lemma current_epoch_snoc (h : list call) (c : call) :
  current_epoch (h ++ [c]) = if is_metric_reset c then [] else current_epoch h ++ [c].
Proof.
  unfold current_epoch. rewrite fold_left_app. reflexivity.
Qed.

Lemma current_epoch_app (h t : list call) :
  forallb (fun c => negb (is_metric_reset c)) t = true ->
  current_epoch (h ++ t) = current_epoch h ++ t.
Proof.
  revert h. induction t as [| c t IH]; intros h H.
  - rewrite !app_nil_r. reflexivity.
  - cbn in H. apply andb_true_iff in H. destruct H as [Hc Ht].
    change (h ++ c :: t) with (h ++ [c] ++ t). rewrite app_assoc, IH by exact Ht.
    rewrite current_epoch_snoc. destruct (is_metric_reset c); [discriminate Hc |].
    rewrite <- app_assoc. reflexivity.
Qed.

Lemma losses_app (t1 t2 : list call) : losses (t1 ++ t2) = losses t1 ++ losses t2.
Proof.
  apply flat_map_app.
Qed.

Lemma metric_updates_app (t1 t2 : list call) :
  metric_updates (t1 ++ t2) = metric_updates t1 ++ metric_updates t2.
Proof.
  apply flat_map_app.
Qed.

Lemma replay_metric_snoc (us : list (ndarray * tensor)) (l : ndarray) (o : tensor) :
  replay_metric (us ++ [(l, o)]) = accuracy_update (replay_metric us) l o.
Proof.
  unfold replay_metric. rewrite fold_left_app. reflexivity.
Qed.

Lemma logged_right_stable : stable logged_right.
Proof.
  intros p c q x H. exact H.
Qed.

Lemma logged_right_other (p q : list call) (c : call) :
  is_iter c = false -> is_log c = false -> logged_right p c q.
Proof.
  intros Hi Hl. split.
  - intros s bs ->. discriminate Hi.
  - intros e k n loss rate acc ->. discriminate Hl.
Qed.

(** One iteration keeps the invariant, and what it prints is right. *)
Lemma train_batch_logged_right (env : train_env) (epoch_id : Z) (st : Z * float)
  (idxs : list nat) (w : world) (h : list call) :
  step_loss_invariant h st w ->
  everywhere logged_right h (trace_of (train_batch env epoch_id st idxs w))
  /\ forall st', value_of (train_batch env epoch_id st idxs w) = Ok st' ->
                 step_loss_invariant (h ++ trace_of (train_batch env epoch_id st idxs w)) st'
                   (world_of (train_batch env epoch_id st idxs w)).
Proof.
  destruct st as [k s]. intros (Hk & Hm & older & pending & Hsplit & Hpend & Hs).
  cbn [fst snd] in Hk, Hpend, Hs.
  destruct (train_batch_cases env epoch_id k s idxs w)
    as [(e & _ & ->) | [(batch & e & _ & Hu & ->) | (tok & vl & seg & lab & Hload)]].
  - split; [apply everywhere_nil | discriminate].
  - split; [| discriminate].
    apply everywhere_cons; [| apply everywhere_nil].
    apply logged_right_other; reflexivity.
  - rewrite (train_batch_run env epoch_id k s idxs w tok vl seg lab Hload).
    cbv zeta. cbn [trace_of value_of world_of fst snd].
    set (out := fst (net_forward (w_store w) (w_gens w) tok seg (astype float32 vl))).
    set (v := nd_asscalar (nd_mean (softmax_ce_loss out lab))).
    set (body := E_next_batch [tok; vl; seg; lab] :: step_calls env tok vl seg lab
                 ++ [E_asscalar v; E_metric_update lab out]).
    assert (Hce : current_epoch (h ++ body) = current_epoch h ++ body).
    { apply current_epoch_app. reflexivity. }
    assert (Hlosses : losses (current_epoch (h ++ body)) = losses (current_epoch h) ++ [v]).
    { rewrite Hce, losses_app. reflexivity. }
    assert (Hmus : metric_updates (current_epoch (h ++ body))
                   = metric_updates (current_epoch h) ++ [(lab, out)]).
    { rewrite Hce, metric_updates_app. reflexivity. }
    assert (Hbody : everywhere logged_right h body).
    { unfold body, step_calls.
      repeat (apply everywhere_cons; [apply logged_right_other; reflexivity |]).
      apply everywhere_nil. }
    change (E_next_batch [tok; vl; seg; lab]
            :: step_calls env tok vl seg lab
            ++ [E_asscalar v; E_metric_update lab out]
            ++ (if ((k + 1) mod log_interval =? 0)%Z
                then [E_print (p_log epoch_id (k + 1) (bucket_sampler_len (env_sampler env))
                                 (float_div (float_add s v) (float_of_int log_interval))
                                 (tr_learning_rate (env_trainer env))
                                 (accuracy_get (accuracy_update (w_metric w) lab out)))]
                else []))
      with (body ++ (if ((k + 1) mod log_interval =? 0)%Z
                     then [E_print (p_log epoch_id (k + 1)
                                      (bucket_sampler_len (env_sampler env))
                                      (float_div (float_add s v) (float_of_int log_interval))
                                      (tr_learning_rate (env_trainer env))
                                      (accuracy_get (accuracy_update (w_metric w) lab out)))]
                     else [])).
    destruct (Z.eqb_spec ((k + 1) mod log_interval) 0) as [Hlog | Hnolog].
    + (* a log line is printed and [step_loss] starts again from 0 *)
      assert (Hlen : length pending = 3).
      { unfold log_interval in *. Z.to_euclidean_division_equations. lia. }
      destruct pending as [| l1 [| l2 [| l3 [| l4 rest]]]]; try discriminate Hlen.
      split.
      * apply everywhere_app; [apply logged_right_stable | exact Hbody |].
        apply everywhere_cons; [| apply everywhere_nil]. split.
        { intros s' bs E. discriminate E. }
        intros e k' n loss rate acc E. injection E as <- <- <- <- <- <-.
        exists older, l1, l2, l3, v.
        rewrite Hlosses, Hmus, Hsplit, <- app_assoc, replay_metric_snoc, <- Hm.
        split; [reflexivity |].
        split; [unfold mean_loss; rewrite Hs; reflexivity |].
        split; [reflexivity |].
        split; [| exact Hlog].
        rewrite Hsplit, length_app in Hk. rewrite length_app.
        cbn [length app] in Hk |- *. lia.
      * intros st' E. injection E as <-. unfold step_loss_invariant.
        cbn [fst snd w_metric].
        rewrite app_assoc.
        rewrite current_epoch_app with (h := h ++ body) by reflexivity.
        rewrite losses_app, metric_updates_app, Hlosses, Hmus.
        cbn [losses metric_updates flat_map app]. rewrite !app_nil_r.
        split; [rewrite length_app; cbn [length]; lia |].
        split; [rewrite replay_metric_snoc, Hm; reflexivity |].
        exists (losses (current_epoch h) ++ [v]), [].
        rewrite app_nil_r. split; [reflexivity |]. split; [| reflexivity].
        cbn [length]. rewrite Hlog. reflexivity.
    + (* no log line: [step_loss] keeps accumulating *)
      rewrite app_nil_r. split; [exact Hbody |].
      intros st' E. injection E as <-. unfold step_loss_invariant.
      cbn [fst snd w_metric]. rewrite Hlosses, Hmus.
      split; [rewrite length_app; cbn [length]; lia |].
      split; [rewrite replay_metric_snoc, Hm; reflexivity |].
      exists older, (pending ++ [v]).
      rewrite Hsplit, <- app_assoc. split; [reflexivity |].
      split.
      * rewrite length_app. cbn [length]. unfold log_interval in *.
        Z.to_euclidean_division_equations. lia.
      * rewrite fold_left_app, <- Hs. reflexivity.
Qed.

(** An inner loop that ends without exception drew one batch for each
    batch of indices, and neither reset the metric nor restarted the
    sampler. *)
Lemma inner_loop_draws (env : train_env) (epoch_id : Z) (l : list (list nat)) :
  forall (st st' : Z * float) (w : world),
    value_of (for_each (train_batch env epoch_id) l st w) = Ok st' ->
    length (filter is_next_batch (trace_of (for_each (train_batch env epoch_id) l st w)))
    = length l
    /\ forallb (fun c => negb (is_metric_reset c || is_iter c))
               (trace_of (for_each (train_batch env epoch_id) l st w)) = true.
Proof.
  induction l as [| idxs rest IH]; intros st st' w H.
  - cbn. auto.
  - cbn [for_each] in *. apply bind_ok_inv in H.
    destruct H as (s1 & H1 & H2 & _ & ->).
    destruct (IH _ _ _ H2) as [IHn IHf].
    rewrite filter_app, length_app, forallb_app, IHn, IHf.
    destruct st as [k s].
    destruct (train_batch_cases env epoch_id k s idxs w)
      as [(e & _ & E) | [(batch & e & _ & _ & E) | (tok & vl & seg & lab & Hload)]].
    + rewrite E in H1. discriminate H1.
    + rewrite E in H1. discriminate H1.
    + rewrite (train_batch_run env epoch_id k s idxs w tok vl seg lab Hload).
      cbv zeta. cbn [trace_of snd].
      destruct ((k + 1) mod log_interval =? 0)%Z; cbn; auto.
Qed.

Lemma train_epoch_run (env : train_env) (epoch_id : nat) (w : world) :
  let bs := fst (bucket_sampler_iter (env_sampler env) (w_gens w)) in
  let w1 := with_gens (with_metric w accuracy_init)
              (snd (bucket_sampler_iter (env_sampler env) (w_gens w))) in
  let inner := for_each (train_batch env (Z.of_nat epoch_id)) bs (0%Z, float_of_int 0) w1 in
  trace_of (train_epoch env epoch_id w)
  = E_metric_reset :: E_iter (env_sampler env) bs :: trace_of inner
  /\ world_of (train_epoch env epoch_id w) = world_of inner
  /\ (value_of (train_epoch env epoch_id w) = Ok tt <-> exists st, value_of inner = Ok st).
Proof.
  cbv zeta. unfold train_epoch, bind, metric_reset, iter_sampler, ret.
  cbn [w_gens with_metric].
  destruct (bucket_sampler_iter (env_sampler env) (w_gens w)) as [bs g]. cbn [fst snd].
  destruct (for_each (train_batch env (Z.of_nat epoch_id)) bs (0%Z, float_of_int 0)
              (with_gens (with_metric w accuracy_init) g)) as [[[st | e] w2] t]; cbn.
  - rewrite app_nil_r. repeat split; auto. intros _. exists st. reflexivity.
  - repeat split; auto; [discriminate |]. intros (st & H). discriminate H.
Qed.

Lemma train_epoch_full_pass (env : train_env) (epoch_id : nat) (w : world) :
  value_of (train_epoch env epoch_id w) = Ok tt ->
  full_pass env (trace_of (train_epoch env epoch_id w)).
Proof.
  intros H. destruct (train_epoch_run env epoch_id w) as (Ht & _ & Hv).
  apply Hv in H. destruct H as (st & H).
  destruct (inner_loop_draws _ _ _ _ _ _ H) as [Hn Hf].
  rewrite Ht. eexists _, _. split; [reflexivity |]. split; assumption.
Qed.

(** C10: the training loop makes exactly three full passes over the data
    loader ([num_epochs] is 3), each of which starts with the reset of the
    metric; every loss it prints is the mean, [step_loss / log_interval]
    with [step_loss] accumulated from 0, of the losses of the last four
    batches of the current epoch, every accuracy it prints is that of a
    metric that has seen the batches of the current epoch only, and a log
    line is printed after a number of batches of the epoch that is a
    multiple of [log_interval], which is 4. *)
Theorem three_passes_and_logged_means (env : train_env) (w : world) :
  num_epochs = 3
  /\ log_interval = 4%Z
  /\ (value_of (cell_finetune_loop env w) = Ok tt ->
      exists e0 e1 e2,
        trace_of (cell_finetune_loop env w) = e0 ++ e1 ++ e2
        /\ full_pass env e0 /\ full_pass env e1 /\ full_pass env e2)
  /\ forall pre c post,
       trace_of (cell_finetune_loop env w) = pre ++ c :: post ->
       (forall s bs, c = E_iter s bs -> exists pre', pre = pre' ++ [E_metric_reset])
       /\ (forall e k n loss rate acc,
             c = E_print (p_log e k n loss rate acc) ->
             exists older l1 l2 l3 l4,
               losses (current_epoch pre) = older ++ [l1; l2; l3; l4]
               /\ loss = float_div
                           (float_add (float_add (float_add (float_add (float_of_int 0) l1) l2)
                                         l3) l4)
                           (float_of_int 4)
               /\ acc = accuracy_get (replay_metric (metric_updates (current_epoch pre)))
               /\ k = Z.of_nat (length (losses (current_epoch pre)))
               /\ (k mod 4 = 0)%Z).
Proof.
  split; [reflexivity |]. split; [reflexivity |]. split.
  - unfold cell_finetune_loop. cbn [num_epochs seq for_each]. intros H.
    apply bind_ok_inv in H. destruct H as ([] & H0 & H & _ & ->).
    apply bind_ok_inv in H. destruct H as ([] & H1 & H & _ & ->).
    apply bind_ok_inv in H. destruct H as ([] & H2 & H & _ & ->).
    cbn [ret trace_of snd]. rewrite app_nil_r.
    eexists _, _, _. split; [reflexivity |].
    repeat split; apply train_epoch_full_pass; assumption.
  - assert (H : everywhere logged_right [] (trace_of (cell_finetune_loop env w))).
    { apply (finetune_everywhere env logged_right
               (fun _ _ => True) (fun _ h st w => step_loss_invariant h st w)).
      - apply logged_right_stable.
      - intros h q. apply logged_right_other; reflexivity.
      - intros h bs q. split; [| discriminate]. intros _ _ _. exists h. reflexivity.
      - intros h w' _. unfold step_loss_invariant. cbn [fst snd w_metric with_gens with_metric].
        change (h ++ [E_metric_reset; E_iter (env_sampler env)
                        (fst (bucket_sampler_iter (env_sampler env) (w_gens w')))])
          with (h ++ [E_metric_reset]
                  ++ [E_iter (env_sampler env)
                        (fst (bucket_sampler_iter (env_sampler env) (w_gens w')))]).
        rewrite app_assoc, current_epoch_app by reflexivity.
        rewrite current_epoch_snoc. cbn.
        repeat split. exists [], []. repeat split.
      - intros epoch_id idxs rest h st w' HI. apply train_batch_logged_right. exact HI.
      - auto.
      - exact I. }
    intros pre c post E. exact (H pre c post E).
Qed.

(** ** The sampler and the data loader *)

Lemma drawn_from_sampler_stable (env : train_env) : stable (drawn_from_sampler env).
Proof.
  intros p c q x H. exact H.
Qed.

Lemma drawn_from_sampler_other (env : train_env) (p q : list call) (c : call) :
  is_iter c = false -> is_next_batch c = false -> drawn_from_sampler env p c q.
Proof.
  intros Hi Hn. split.
  - intros s bs ->. discriminate Hi.
  - intros batch ->. discriminate Hn.
Qed.

Lemma skipn_cons_nth_error {A : Type} (n : nat) (l rest : list A) (x : A) :
  skipn n l = x :: rest -> nth_error l n = Some x /\ skipn (S n) l = rest.
Proof.
  revert l. induction n as [| n IH]; intros l H.
  - destruct l; [discriminate H |]. cbn in H. injection H as -> ->. auto.
  - destruct l; [discriminate H |]. cbn in H. apply IH in H. exact H.
Qed.

Lemma train_batch_drawn_from_sampler (env : train_env) (epoch_id : Z) (st : Z * float)
  (idxs : list nat) (rest : list (list nat)) (w : world) (h : list call) :
  sampler_invariant env (idxs :: rest) h ->
  everywhere (drawn_from_sampler env) h (trace_of (train_batch env epoch_id st idxs w))
  /\ forall st', value_of (train_batch env epoch_id st idxs w) = Ok st' ->
                 sampler_invariant env rest
                   (h ++ trace_of (train_batch env epoch_id st idxs w)).
Proof.
  destruct st as [k s]. intros (p0 & bs & mid & Hh & Hmid & Hskip).
  apply skipn_cons_nth_error in Hskip. destruct Hskip as [Hnth Hskip].
  assert (Hdraw : forall batch q,
             load_batch (env_data env) idxs = Ok batch ->
             drawn_from_sampler env h (E_next_batch batch) q).
  { intros batch q Hload. split; [discriminate |].
    intros b E. injection E as <-. exists p0, bs, mid, idxs. auto. }
  destruct (train_batch_cases env epoch_id k s idxs w)
    as [(e & _ & ->) | [(batch & e & Hload & Hu & ->) | (tok & vl & seg & lab & Hload)]].
  - split; [apply everywhere_nil | discriminate].
  - split; [| discriminate].
    apply everywhere_cons; [| apply everywhere_nil]. apply Hdraw. exact Hload.
  - rewrite (train_batch_run env epoch_id k s idxs w tok vl seg lab Hload).
    cbv zeta. cbn [trace_of value_of world_of fst snd]. split.
    + apply everywhere_cons; [apply Hdraw; exact Hload |].
      unfold step_calls.
      destruct ((k + 1) mod log_interval =? 0)%Z;
        repeat (apply everywhere_cons; [apply drawn_from_sampler_other; reflexivity |]);
        apply everywhere_nil.
    + intros st' _. exists p0, bs.
      eexists (mid ++ _). rewrite Hh, <- app_assoc. cbn [app].
      split; [reflexivity |].
      rewrite forallb_app, filter_app, length_app, Hmid.
      destruct ((k + 1) mod log_interval =? 0)%Z; cbn;
        (split; [reflexivity |]); rewrite Nat.add_1_r; exact Hskip.
Qed.

Lemma loop_drawn_from_sampler (env : train_env) (w : world) :
  everywhere (drawn_from_sampler env) [] (trace_of (cell_finetune_loop env w)).
Proof.
  apply (finetune_everywhere env (drawn_from_sampler env)
           (fun _ _ => True) (fun rest h _ _ => sampler_invariant env rest h)).
  - apply drawn_from_sampler_stable.
  - intros h q. apply drawn_from_sampler_other; reflexivity.
  - intros h bs q. split; [| discriminate]. intros s bs' E'. injection E' as <- _.
    reflexivity.
  - intros h w' _.
    exists (h ++ [E_metric_reset]),
           (fst (bucket_sampler_iter (env_sampler env) (w_gens w'))), [].
    rewrite <- app_assoc. repeat split.
  - intros epoch_id idxs rest h st w' HI.
    apply train_batch_drawn_from_sampler. exact HI.
  - auto.
  - exact I.
Qed.


(** ** The parameters during training *)

Lemma null_frame_refl (s : list (gluon_Parameter tensor)) : null_frame s s.
Proof.
  split; auto.
Qed.

Lemma null_frame_trans (s1 s2 s3 : list (gluon_Parameter tensor)) :
  null_frame s1 s2 -> null_frame s2 s3 -> null_frame s1 s3.
Proof.
  intros [Hr12 Hn12] [Hr23 Hn23]. split.
  - congruence.
  - intros a p Ha Hp. apply Hn23; [| exact Hp]. apply Hn12; assumption.
Qed.

(** An invariant of the state of the run goes through a loop, whether the
    loop ends with an exception or not. *)
Lemma bind_world_inv {A B : Type} (P : world -> Prop) (m : M A) (f : A -> M B) (w : world) :
  P (world_of (m w)) ->
  (forall a, P (world_of (f a (world_of (m w))))) ->
  P (world_of (bind m f w)).
Proof.
  intros Hm Hf. unfold bind. destruct (m w) as [[[a | e] w1] t1]; cbn in *.
  - specialize (Hf a). destruct (f a w1) as [[r w2] t2]. exact Hf.
  - exact Hm.
Qed.

Lemma for_each_world_inv {A S : Type} (P : world -> Prop) (body : S -> A -> M S) :
  (forall s x w, P w -> P (world_of (body s x w))) ->
  forall l s w, P w -> P (world_of (for_each body l s w)).
Proof.
  intros Hbody. induction l as [| x rest IH]; intros s w Hw.
  - exact Hw.
  - cbn [for_each]. apply bind_world_inv.
    + apply Hbody. exact Hw.
    + intros s'. apply IH. apply Hbody. exact Hw.
Qed.

(** Under the contract, a trainer step leaves the parameters without
    gradient as they are. *)
Lemma store_after_step_frame (env : train_env) (ls : tensor) (w : world) :
  training_contract -> null_frame (w_store w) (fst (store_after_step env ls w)).
Proof.
  intros C. unfold store_after_step.
  assert (H3 : null_frame (w_store w)
                 (clip_global_norm (env_params env) 1
                    (kv_allreduce (tr_params (env_trainer env))
                       (autograd_backward ls (w_store w))))).
  { eapply null_frame_trans; [apply (backward_frame C) |].
    eapply null_frame_trans; [apply (allreduce_frame C) |].
    apply (clip_frame C). }
  destruct (w_optimizer w) as [o |]; cbn [fst].
  - eapply null_frame_trans; [exact H3 | apply (update_frame C)].
  - exact H3.
Qed.

Lemma train_batch_frame (env : train_env) (epoch_id : Z) (st : Z * float)
  (idxs : list nat) (w : world) (s0 : list (gluon_Parameter tensor)) :
  training_contract ->
  null_frame s0 (w_store w) ->
  null_frame s0 (w_store (world_of (train_batch env epoch_id st idxs w))).
Proof.
  intros C H. destruct st as [k s].
  destruct (train_batch_cases env epoch_id k s idxs w)
    as [(e & _ & ->) | [(batch & e & _ & _ & ->) | (tok & vl & seg & lab & Hload)]].
  - exact H.
  - exact H.
  - rewrite (train_batch_run env epoch_id k s idxs w tok vl seg lab Hload).
    cbv zeta. cbn [world_of fst snd w_store].
    eapply null_frame_trans; [exact H |]. apply store_after_step_frame. exact C.
Qed.

Lemma finetune_loop_frame (env : train_env) (w : world) :
  training_contract ->
  null_frame (w_store w) (w_store (world_of (cell_finetune_loop env w))).
Proof.
  intros C. unfold cell_finetune_loop.
  apply (for_each_world_inv (fun w' => null_frame (w_store w) (w_store w'))).
  - intros [] e w' Hw'. destruct (train_epoch_run env e w') as (_ & -> & _).
    apply (for_each_world_inv (fun w'' => null_frame (w_store w) (w_store w''))).
    + intros st idxs w'' Hw''. apply train_batch_frame; assumption.
    + exact Hw'.
  - apply null_frame_refl.
Qed.

Lemma differentiable_spec (s : list (gluon_Parameter tensor)) (a : nat) :
  differentiable s a = true
  <-> exists p, nth_error s a = Some p /\ p_grad_req p <> req_null.
Proof.
  unfold differentiable. destruct (nth_error s a) as [p |].
  - destruct (p_grad_req p) eqn:E; cbn; split.
    + intros _. exists p. split; [reflexivity | congruence].
    + reflexivity.
    + intros _. exists p. split; [reflexivity | congruence].
    + reflexivity.
    + discriminate.
    + intros (p' & Hp & Hn). injection Hp as <-. congruence.
  - split; [discriminate |]. intros (p & Hp & _). discriminate Hp.
Qed.


(** ** The cells before the training loop *)

Lemma value_of_bind_ok {A B : Type} (m : M A) (f : A -> M B) (w w1 : world) (a : A)
  (t1 : list call) :
  m w = (Ok a, w1, t1) -> value_of (bind m f w) = value_of (f a w1).
Proof.
  intros H. rewrite (bind_ok m f w w1 a t1 H). reflexivity.
Qed.

Lemma world_of_bind_ok {A B : Type} (m : M A) (f : A -> M B) (w w1 : world) (a : A)
  (t1 : list call) :
  m w = (Ok a, w1, t1) -> world_of (bind m f w) = world_of (f a w1).
Proof.
  intros H. rewrite (bind_ok m f w w1 a t1 H). reflexivity.
Qed.

Lemma trace_of_bind_ok {A B : Type} (m : M A) (f : A -> M B) (w w1 : world) (a : A)
  (t1 : list call) :
  m w = (Ok a, w1, t1) -> trace_of (bind m f w) = t1 ++ trace_of (f a w1).
Proof.
  intros H. rewrite (bind_ok m f w w1 a t1 H). reflexivity.
Qed.

Lemma cell_set_environment_run (w : world) :
  cell_set_environment w
  = (Ok tt, with_gens w seeded_gens,
     [E_np_random_seed 100; E_random_seed 100; E_mx_random_seed 10000]).
Proof.
  reflexivity.
Qed.

Lemma cell_get_bert_run (w : world) :
  cell_get_bert w
  = (Ok (seq (length (w_store w)) (length (zoo_parameters bert_12_768_12)),
         zoo_vocabulary bert_12_768_12),
     with_store w (w_store w ++ zoo_parameters bert_12_768_12),
     [E_get_model bert_12_768_12;
      E_print (p_block (seq (length (w_store w)) (length (zoo_parameters bert_12_768_12))))]).
Proof.
  destruct w. reflexivity.
Qed.

Lemma set_nth_app {A : Type} (l1 l2 : list A) (i : nat) (x : A) :
  set_nth (length l1 + i) x (l1 ++ l2) = l1 ++ set_nth i x l2.
Proof.
  induction l1 as [| y l1 IH]; cbn.
  - reflexivity.
  - destruct l2; rewrite IH; reflexivity.
Qed.

Lemma initialize_params_cons_none (init : initializer) (a : nat) (rest : list nat)
  (g : gens rng) (store : list (gluon_Parameter tensor)) (p : gluon_Parameter tensor) :
  nth_error store a = Some p ->
  p_data p = None ->
  initialize_params init (a :: rest) g store
  = initialize_params init rest (snd (init_array init p g))
      (set_nth a (with_data p (fst (init_array init p g))) store).
Proof.
  intros Hp Hd. cbn [initialize_params]. rewrite Hp, Hd.
  destruct (init_array init p g) as [t g']. reflexivity.
Qed.

Lemma nth_error_after {A : Type} (l1 l2 : list A) (i : nat) :
  nth_error (l1 ++ l2) (length l1 + i) = nth_error l2 i.
Proof.
  rewrite nth_error_app2 by lia. f_equal. lia.
Qed.

(** Initialising the two parameters of a new dense layer draws an array
    for each and leaves the rest of the store as it is. *)
Lemma initialize_params_dense (init : initializer) (g : gens rng)
  (s : list (gluon_Parameter tensor)) :
  initialize_params init [length s; S (length s)] g (s ++ dense_parameters)
  = (s ++ [with_data dense_weight (fst (init_array init dense_weight g));
           with_data dense_bias
             (fst (init_array init dense_bias (snd (init_array init dense_weight g))))],
     snd (init_array init dense_bias (snd (init_array init dense_weight g)))).
Proof.
  unfold dense_parameters. fold dense_weight dense_bias.
  replace (S (length s)) with (length s + 1) by lia.
  rewrite <- (Nat.add_0_r (length s)) at 1.
  rewrite (initialize_params_cons_none init _ _ g _ dense_weight);
    [| rewrite nth_error_after; reflexivity | reflexivity].
  rewrite set_nth_app. cbn [set_nth].
  rewrite (initialize_params_cons_none init _ _ _ _ dense_bias);
    [| rewrite nth_error_after; reflexivity | reflexivity].
  rewrite set_nth_app. reflexivity.
Qed.

Lemma cell_model_definition_run (bert_base : list nat) (w : world) :
  let n := length (w_store w) in
  let i1 := init_array (Normal (2 # 100)) dense_weight (w_gens w) in
  let i2 := init_array (Normal (2 # 100)) dense_bias (snd i1) in
  cell_model_definition bert_base w
  = (Ok {| bert := bert_base; classifier := [Dropout (1 # 10); Dense 2 [n; S n]] |},
     {| w_gens := snd i2;
        w_store := w_store w ++ [with_data dense_weight (fst i1);
                                 with_data dense_bias (fst i2)];
        w_optimizer := w_optimizer w;
        w_metric := accuracy_init |},
     [E_BERTClassifier bert_base 2 (1 # 10);
      E_initialize [n; S n] (Normal (2 # 100));
      E_hybridize; E_SoftmaxCELoss; E_hybridize; E_Accuracy]).
Proof.
  cbv zeta. destruct w as [g s o m].
  unfold cell_model_definition, BERTClassifier, bind, emit, alloc, ret, initialize, Accuracy.
  cbn [w_store w_gens w_optimizer w_metric with_store with_gens with_metric
       length dense_parameters seq classifier flat_map layer_params app
       Qeq_bool Qnum Qden Z.mul Z.eqb Pos.mul].
  rewrite initialize_params_dense. reflexivity.
Qed.

Lemma after_after {A : Type} (t1 t2 : list call) (x : result A * world * list call) :
  after t1 (after t2 x) = after (t1 ++ t2) x.
Proof.
  unfold after. cbn. rewrite app_assoc. reflexivity.
Qed.

Lemma bind_ok_after {A B : Type} (m : M A) (f : A -> M B) (w w1 : world) (a : A)
  (t1 : list call) :
  m w = (Ok a, w1, t1) -> bind m f w = after t1 (f a w1).
Proof.
  apply bind_ok.
Qed.

(** The notebook up to the dataset cell does not depend on the state in
    which the generators were: it runs the same calls and leaves the same
    state. *)
Lemma setup_unfold (T : transform_class) (rows : list (list string)) (g : gens rng) :
  setup T rows (initial_world g)
  = after preparation_trace (data_cells T rows prepared_world).
Proof.
  unfold setup.
  rewrite (bind_ok_after _ _ _ _ _ _ (cell_set_environment_run (initial_world g))).
  rewrite (bind_ok_after _ _ _ _ _ _
             (cell_get_bert_run (with_gens (initial_world g) seeded_gens))).
  cbn [w_store with_gens initial_world app length].
  rewrite (bind_ok_after _ _ _ _ _ _ (cell_model_definition_run _ _)).
  rewrite !after_after. reflexivity.
Qed.

Lemma bind_assoc {A B C : Type} (m : M A) (f : A -> M B) (g : B -> M C) (w : world) :
  bind (bind m f) g w = bind m (fun a => bind (f a) g) w.
Proof.
  unfold bind. destruct (m w) as [[[a | e] w1] t1]; [| reflexivity].
  destruct (f a w1) as [[[b | e] w2] t2]; [| reflexivity].
  destruct (g b w2) as [[r w3] t3]. rewrite app_assoc. reflexivity.
Qed.

Lemma bind_emit {B : Type} (c : call) (f : unit -> M B) (w : world) :
  bind (emit c) f w = after [c] (f tt w).
Proof.
  unfold bind, emit, after. destruct (f tt w) as [[r w'] t]. reflexivity.
Qed.

Lemma bind_lift {A B : Type} (r : result A) (f : A -> M B) (w : world) :
  bind (lift r) f w
  = match r with
    | Ok a => f a w
    | Raise e => (Raise e, w, [])
    end.
Proof.
  unfold bind, lift. destruct r as [a | e]; [| reflexivity].
  destruct (f a w) as [[r' w'] t]. reflexivity.
Qed.

Lemma bind_ret {A B : Type} (a : A) (f : A -> M B) (w : world) :
  bind (ret a) f w = f a w.
Proof.
  unfold bind, ret. destruct (f a w) as [[r' w'] t]. reflexivity.
Qed.

(** One step through a cell: a call, or a computation that may raise. *)
Ltac cell_emit :=
  rewrite ?bind_assoc, bind_emit; cbv beta zeta.

Ltac cell_lift :=
  rewrite ?bind_assoc, bind_lift.

(** The dataset cell: an exception, or the three printed fields of the
    first line. *)
Lemma bind_cell_dataset {B : Type} (rows : list (list string))
  (f : list (list string) -> M B) (w : world) :
  (exists e t, bind (cell_dataset rows) f w = (Raise e, w, E_MRPCDataset "dev" :: t)
               /\ forallb is_print t = true)
  \/ (exists a b l,
         bind (cell_dataset rows) f w
         = after [E_MRPCDataset "dev"; E_print (p_str a); E_print (p_str b);
                  E_print (p_str l)]
                 (f rows w)).
Proof.
  unfold cell_dataset, print.
  cell_emit. cell_lift.
  destruct (line <~ getitem rows sample_id ;; getitem line 0) as [a | e].
  2:{ left. exists e, []. split; reflexivity. }
  cell_emit. cell_lift.
  destruct (line <~ getitem rows sample_id ;; getitem line 1) as [b | e].
  2:{ left. exists e, [E_print (p_str a)]. split; reflexivity. }
  cell_emit. cell_lift.
  destruct (line <~ getitem rows sample_id ;; getitem line 2) as [l | e].
  2:{ left. exists e, [E_print (p_str a); E_print (p_str b)]. split; reflexivity. }
  cell_emit. rewrite bind_ret, !after_after.
  right. exists a, b, l. reflexivity.
Qed.

(** The transform cell: the tokenizer, the transform and the transformed
    dataset are set up, then an exception or the four printed components
    of the first item. *)
Lemma bind_cell_transform {B : Type} (T : transform_class) (rows : list (list string))
  (f : TransformedDataset -> M B) (w : world) :
  let data := {| ds_base := rows; ds_fn := T bert_tokenizer max_len all_labels int32 |} in
  (exists e t,
      bind (cell_transform T (zoo_vocabulary bert_12_768_12) rows) f w
      = (Raise e, w,
         [E_BERTTokenizer true; E_BERTDatasetTransform max_len all_labels int32; E_transform]
         ++ t)
      /\ forallb is_print t = true)
  \/ (exists x0 x1 x2 x3,
         bind (cell_transform T (zoo_vocabulary bert_12_768_12) rows) f w
         = after
             [E_BERTTokenizer true; E_BERTDatasetTransform max_len all_labels int32;
              E_transform;
              E_print (p_array "token ids = " x0); E_print (p_array "valid length = " x1);
              E_print (p_array "segment ids = " x2); E_print (p_array "label = " x3)]
             (f data w)).
Proof.
  cbv zeta. unfold cell_transform, print. fold bert_tokenizer.
  set (data := {| ds_base := rows; ds_fn := T bert_tokenizer max_len all_labels int32 |}).
  cell_emit. cell_emit. cell_emit. fold data. cell_lift.
  destruct (item <~ dataset_getitem data sample_id ;; getitem item 0) as [x0 | e].
  2:{ left. exists e, []. split; reflexivity. }
  cell_emit. cell_lift.
  destruct (item <~ dataset_getitem data sample_id ;; getitem item 1) as [x1 | e].
  2:{ left. exists e, [E_print (p_array "token ids = " x0)]. split; reflexivity. }
  cell_emit. cell_lift.
  destruct (item <~ dataset_getitem data sample_id ;; getitem item 2) as [x2 | e].
  2:{ left. exists e, [E_print (p_array "token ids = " x0);
                        E_print (p_array "valid length = " x1)].
      split; reflexivity. }
  cell_emit. cell_lift.
  destruct (item <~ dataset_getitem data sample_id ;; getitem item 3) as [x3 | e].
  2:{ left. exists e, [E_print (p_array "token ids = " x0);
                        E_print (p_array "valid length = " x1);
                        E_print (p_array "segment ids = " x2)].
      split; reflexivity. }
  cell_emit. rewrite bind_ret, !after_after.
  right. exists x0, x1, x2, x3. reflexivity.
Qed.

Lemma after_raise {A : Type} (t t' : list call) (e : exn) (w : world) :
  after t (@Raise A e, w, t') = (Raise e, w, t ++ t').
Proof.
  reflexivity.
Qed.

(** The notebook up to the training loop: a cell raises before the sampler
    is built, or the setup is complete. *)
Lemma setup_cases (T : transform_class) (rows : list (list string)) (g : gens rng) :
  (exists e w t,
      setup T rows (initial_world g) = (Raise e, w, preparation_trace ++ t)
      /\ forallb (fun c => negb (is_training_call c)) t = true)
  \/ (exists env prints1 prints2,
         setup T rows (initial_world g)
         = (Ok env,
            world_of (cell_finetune_setup prepared_model (transformed T rows) prepared_world),
            setup_trace env prints1 prints2)
         /\ value_of (cell_finetune_setup prepared_model (transformed T rows) prepared_world)
            = Ok env
         /\ forallb is_print prints1 = true
         /\ forallb is_print prints2 = true).
Proof.
  rewrite setup_unfold. unfold data_cells.
  destruct (bind_cell_dataset rows
              (fun data_train =>
                 bind (cell_transform T (zoo_vocabulary bert_12_768_12) data_train)
                      (fun data_train => cell_finetune_setup prepared_model data_train))
              prepared_world)
    as [(e & t & -> & Ht) | (a & b & l & ->)].
  { left. exists e, prepared_world, (E_MRPCDataset "dev" :: t). split; [reflexivity |].
    cbn [forallb is_training_call is_step_call is_log negb orb andb].
    clear - Ht. induction t as [| c t IH]; [reflexivity |].
    cbn in Ht |- *. apply andb_true_iff in Ht. destruct Ht as [Hc Ht].
    rewrite (IH Ht). destruct c as [| | | | | | | | | | | | | | | | | | | | | | | | | | | | | p];
      try discriminate Hc. destruct p; [reflexivity | reflexivity | reflexivity | discriminate Hc]. }
  destruct (bind_cell_transform T rows
              (fun data_train => cell_finetune_setup prepared_model data_train)
              prepared_world)
    as [(e & t & -> & Ht) | (x0 & x1 & x2 & x3 & ->)].
  { left. exists e, prepared_world.
    exists ([E_MRPCDataset "dev"; E_print (p_str a); E_print (p_str b); E_print (p_str l)]
            ++ [E_BERTTokenizer true; E_BERTDatasetTransform max_len all_labels int32;
                E_transform] ++ t).
    split; [reflexivity |].
    cbn [forallb is_training_call is_step_call is_log negb orb andb app].
    clear - Ht. induction t as [| c t IH]; [reflexivity |].
    cbn in Ht |- *. apply andb_true_iff in Ht. destruct Ht as [Hc Ht].
    rewrite (IH Ht). destruct c as [| | | | | | | | | | | | | | | | | | | | | | | | | | | | | p];
      try discriminate Hc. destruct p; [reflexivity | reflexivity | reflexivity | discriminate Hc]. }
  fold (transformed T rows). rewrite !after_after.
  destruct (value_of (cell_finetune_setup prepared_model (transformed T rows) prepared_world))
    as [env | e] eqn:Hv.
  - right.
    destruct (cell_finetune_setup_ok _ _ _ _ Hv) as (lengths & _ & _ & _ & _ & Htr).
    exists env, [E_print (p_str a); E_print (p_str b); E_print (p_str l)],
           [E_print (p_array "token ids = " x0); E_print (p_array "valid length = " x1);
            E_print (p_array "segment ids = " x2); E_print (p_array "label = " x3)].
    unfold after, setup_trace. rewrite Hv, Htr.
    split; [reflexivity | auto].
  - left. exists e, prepared_world.
    eexists. unfold after. rewrite Hv.
    assert (Hfail : cell_finetune_setup prepared_model (transformed T rows) prepared_world
                    = (Raise e, prepared_world, [])).
    { revert Hv. unfold cell_finetune_setup. rewrite bind_lift.
      destruct (items <~ dataset_iter _ _ ;; mapR _ items) as [lengths | e'].
      - unfold bind, emit, Trainer, ret. cbn. discriminate.
      - cbn. intros E. injection E as ->. reflexivity. }
    rewrite Hfail. cbn [world_of trace_of fst snd]. rewrite app_nil_r, <- app_assoc.
    split; [reflexivity |]. reflexivity.
Qed.

(** ** The notebook as a whole *)

Lemma split_in_suffix {A : Type} (P : A -> bool) (S L pre post : list A) (c : A) :
  forallb (fun x => negb (P x)) S = true ->
  P c = true ->
  pre ++ c :: post = S ++ L ->
  exists pre', pre = S ++ pre' /\ L = pre' ++ c :: post.
Proof.
  revert pre. induction S as [| s S IH]; intros pre HS Hc E.
  - exists pre. auto.
  - cbn in HS. apply andb_true_iff in HS. destruct HS as [Hs HS].
    destruct pre as [| x pre]; cbn in E; injection E as -> E.
    + rewrite Hc in Hs. discriminate Hs.
    + destruct (IH pre HS Hc E) as (pre' & -> & ->). exists pre'. auto.
Qed.

Lemma prints_not_training (t : list call) :
  forallb is_print t = true ->
  forallb (fun c => negb (is_training_call c)) t = true.
Proof.
  induction t as [| c t IH]; [reflexivity |].
  cbn. intros H. apply andb_true_iff in H. destruct H as [Hc Ht].
  rewrite (IH Ht).
  destruct c as [| | | | | | | | | | | | | | | | | | | | | | | | | | | | | p];
    try discriminate Hc.
  destruct p; [reflexivity | reflexivity | reflexivity | discriminate Hc].
Qed.

Lemma setup_trace_not_training (env : train_env) (prints1 prints2 : list call) :
  forallb is_print prints1 = true ->
  forallb is_print prints2 = true ->
  forallb (fun c => negb (is_training_call c)) (setup_trace env prints1 prints2) = true.
Proof.
  intros H1 H2. unfold setup_trace.
  apply prints_not_training in H1, H2.
  repeat (progress (rewrite ?forallb_app; cbn [forallb app])).
  rewrite H1, H2. reflexivity.
Qed.

(** The notebook: a cell before the training loop raises, or the training
    loop runs after the complete setup. *)
Lemma notebook_cases (T : transform_class) (rows : list (list string)) (g : gens rng) :
  (exists e w t,
      notebook_with T rows (initial_world g) = (Raise e, w, preparation_trace ++ t)
      /\ forallb (fun c => negb (is_training_call c)) t = true)
  \/ (exists env prints1 prints2,
         notebook_with T rows (initial_world g)
         = after (setup_trace env prints1 prints2)
             (cell_finetune_loop env
                (world_of (cell_finetune_setup prepared_model (transformed T rows)
                             prepared_world)))
         /\ value_of (setup T rows (initial_world g)) = Ok env
         /\ value_of (cell_finetune_setup prepared_model (transformed T rows) prepared_world)
            = Ok env
         /\ forallb is_print prints1 = true
         /\ forallb is_print prints2 = true).
Proof.
  unfold notebook_with.
  destruct (setup_cases T rows g)
    as [(e & w & t & E & Ht) | (env & p1 & p2 & E & Hv & H1 & H2)].
  - left. exists e, w, t. rewrite (bind_raise _ _ _ _ _ _ E). auto.
  - right. exists env, p1, p2. rewrite (bind_ok_after _ _ _ _ _ _ E), E. auto.
Qed.

(** C1: the notebook runs its pipeline in three stages: it loads the
    pre-trained BERT model, with its vocabulary, from the model zoo; then
    it transforms the sentence pairs with the transform built on the
    tokenizer; only then does it train, over the transformed dataset.
    Every call of the training loop comes after the loading of the model
    and, after that, the transformation of the data. *)
Theorem pipeline_stages_in_order (T : transform_class) (rows : list (list string))
  (g : gens rng) (pre post : list call) (c : call) :
  trace_of (notebook_with T rows (initial_world g)) = pre ++ c :: post ->
  is_training_call c = true ->
  exists a b d env,
    pre = a ++ E_get_model bert_12_768_12
            :: b ++ E_BERTTokenizer true
            :: E_BERTDatasetTransform max_len all_labels int32
            :: E_transform :: d
    /\ pretrained bert_12_768_12 = true
    /\ forallb (fun c => negb (is_training_call c)) a = true
    /\ forallb (fun c => negb (is_training_call c)) b = true
    /\ value_of (setup T rows (initial_world g)) = Ok env
    /\ env_data env = transformed T rows
    /\ exists w pre',
         trace_of (cell_finetune_loop env w) = pre' ++ c :: post.
Proof.
  intros E Hc.
  destruct (notebook_cases T rows g)
    as [(e & w & t & R & Ht) | (env & p1 & p2 & R & Hs & Hv & H1 & H2)];
    rewrite R in E; cbn [after trace_of snd] in E.
  - exfalso.
    assert (Hall : forallb (fun c => negb (is_training_call c)) (preparation_trace ++ t)
                   = true).
    { rewrite forallb_app, Ht. reflexivity. }
    rewrite <- (app_nil_r (preparation_trace ++ t)) in E. symmetry in E.
    destruct (split_in_suffix is_training_call _ _ _ _ _ Hall Hc E) as (pre' & _ & E').
    destruct pre'; discriminate E'.
  - symmetry in E.
    destruct (split_in_suffix is_training_call _ _ _ _ _
                (setup_trace_not_training env p1 p2 H1 H2) Hc E) as (pre' & -> & E').
    destruct (cell_finetune_setup_ok _ _ _ _ Hv) as (lengths & _ & Henv & _).
    exists [E_np_random_seed 100; E_random_seed 100; E_mx_random_seed 10000].
    exists ([E_print (p_block (bert prepared_model));
             E_BERTClassifier (bert prepared_model) 2 (1 # 10);
             E_initialize (flat_map layer_params (classifier prepared_model))
               (Normal (2 # 100));
             E_hybridize; E_SoftmaxCELoss; E_hybridize; E_Accuracy;
             E_MRPCDataset "dev"] ++ p1).
    exists (p2 ++ [E_FixedBucketSampler (env_sampler env); E_DataLoader (env_sampler env);
                   E_Trainer (env_trainer env)] ++ pre').
    exists env.
    split.
    { unfold setup_trace, preparation_trace. cbn [app].
      rewrite <- !app_assoc. cbn [app]. rewrite <- !app_assoc. reflexivity. }
    split; [reflexivity |]. split; [reflexivity |].
    split.
    { rewrite forallb_app, (prints_not_training _ H1). reflexivity. }
    split; [exact Hs |].
    split; [rewrite Henv; reflexivity |].
    eexists _, pre'. exact E'.
Qed.

Lemma notebook_unfold (T : transform_class) (rows : list (list string)) (g : gens rng) :
  notebook_with T rows (initial_world g)
  = bind (fun _ => after preparation_trace (data_cells T rows prepared_world))
         cell_finetune_loop prepared_world.
Proof.
  unfold notebook_with, bind. rewrite setup_unfold. reflexivity.
Qed.

Lemma notebook_trace_starts (T : transform_class) (rows : list (list string))
  (g : gens rng) :
  exists rest,
    trace_of (notebook_with T rows (initial_world g)) = preparation_trace ++ rest.
Proof.
  destruct (notebook_cases T rows g)
    as [(e & w & t & -> & _) | (env & p1 & p2 & -> & _)].
  - exists t. reflexivity.
  - unfold after, setup_trace. cbn [trace_of snd]. rewrite <- app_assoc.
    eexists. reflexivity.
Qed.

(** C9: the notebook seeds the three generators, numpy's with 100,
    python's with 100 and mxnet's with 10000, before it loads the model,
    transforms the data or iterates the sampler; and two runs on the same
    dataset, whatever the states of the generators they start from, are
    the same run: the same calls with the same arguments and results, so
    the same transformed examples and the same batches in the same
    order, and the same final state. *)
Theorem seeded_runs_are_identical (T : transform_class) (rows : list (list string))
  (g1 g2 : gens rng) :
  (exists rest,
      trace_of (notebook_with T rows (initial_world g1))
      = E_np_random_seed 100 :: E_random_seed 100 :: E_mx_random_seed 10000 :: rest)
  /\ (forall pre c post,
         trace_of (notebook_with T rows (initial_world g1)) = pre ++ c :: post ->
         is_preparation_call c = true ->
         exists pre',
           pre = E_np_random_seed 100 :: E_random_seed 100 :: E_mx_random_seed 10000 :: pre')
  /\ notebook_with T rows (initial_world g1) = notebook_with T rows (initial_world g2).
Proof.
  destruct (notebook_trace_starts T rows g1) as (rest & Hrest).
  split; [| split].
  - rewrite Hrest. eexists. reflexivity.
  - intros pre c post E Hc. rewrite Hrest in E.
    destruct pre as [| x1 [| x2 [| x3 pre']]]; cbn in E.
    + injection E as <- _. discriminate Hc.
    + injection E as _ <- _. discriminate Hc.
    + injection E as _ _ <- _. discriminate Hc.
    + injection E as <- <- <- _. exists pre'. reflexivity.
  - rewrite !notebook_unfold. reflexivity.
Qed.

Lemma prints_not_initialize (t : list call) :
  forallb is_print t = true -> filter is_initialize t = [].
Proof.
  induction t as [| c t IH]; [reflexivity |].
  cbn. intros H. apply andb_true_iff in H. destruct H as [Hc Ht].
  rewrite (IH Ht). destruct c; try discriminate Hc. reflexivity.
Qed.

(** C7: the task is binary.  The classifier attached to the BERT model is
    a dense layer of 2 units; the transform maps the labels "0" and "1",
    and no other, to the int32 arrays [0] and [1]; [initialize] is called
    once, on the two parameters of the classifier, with Normal(0.02), and
    these hold what the initializer drew; the parameters of the encoder
    are those the model zoo gave for the pre-trained model, as it gave
    them. *)
Theorem binary_classifier_on_pretrained_encoder (rows : list (list string)) (g : gens rng)
  (env : train_env) :
  value_of (setup BERTDatasetTransform rows (initial_world g)) = Ok env ->
  output_units (classifier (env_model env)) = Some 2%Z
  /\ ds_fn (env_data env) = BERTDatasetTransform bert_tokenizer max_len ["0"; "1"] int32
  /\ (forall line item,
         ds_fn (env_data env) line = Ok item ->
         exists text_a text_b label,
           line = [text_a; text_b; label]
           /\ ((label = "0" /\ nth_error item 3 = Some (np_array int32 [0%Z]))
               \/ (label = "1" /\ nth_error item 3 = Some (np_array int32 [1%Z]))))
  /\ filter is_initialize (trace_of (setup BERTDatasetTransform rows (initial_world g)))
     = [E_initialize (flat_map layer_params (classifier (env_model env))) (Normal (2 # 100))]
  /\ flat_map layer_params (classifier (env_model env))
     = [length (zoo_parameters bert_12_768_12); S (length (zoo_parameters bert_12_768_12))]
  /\ nth_error (w_store (world_of (setup BERTDatasetTransform rows (initial_world g))))
       (length (zoo_parameters bert_12_768_12))
     = Some (with_data dense_weight
               (fst (init_array (Normal (2 # 100)) dense_weight seeded_gens)))
  /\ nth_error (w_store (world_of (setup BERTDatasetTransform rows (initial_world g))))
       (S (length (zoo_parameters bert_12_768_12)))
     = Some (with_data dense_bias
               (fst (init_array (Normal (2 # 100)) dense_bias
                       (snd (init_array (Normal (2 # 100)) dense_weight seeded_gens)))))
  /\ pretrained bert_12_768_12 = true
  /\ In (E_get_model bert_12_768_12)
        (trace_of (setup BERTDatasetTransform rows (initial_world g)))
  /\ bert (env_model env) = seq 0 (length (zoo_parameters bert_12_768_12))
  /\ forall a, a < length (zoo_parameters bert_12_768_12) ->
               nth_error (w_store (world_of (setup BERTDatasetTransform rows (initial_world g)))) a
               = nth_error (zoo_parameters bert_12_768_12) a.
Proof.
  intros Hs.
  destruct (setup_cases BERTDatasetTransform rows g)
    as [(e & w & t & E & _) | (env' & p1 & p2 & E & Hv & H1 & H2)];
    rewrite E in Hs |- *; cbn [value_of world_of trace_of fst snd] in Hs |- *;
    [discriminate Hs |].
  injection Hs as ->.
  destruct (cell_finetune_setup_ok _ _ _ _ Hv) as (lengths & _ & Henv & Hstore & _ & _).
  rewrite Hstore. rewrite Henv.
  cbn [env_model env_data prepared_model classifier bert flat_map layer_params app
       transformed ds_fn w_store prepared_world].
  split; [reflexivity |]. split; [reflexivity |]. split.
  { intros line item H. apply BERTDatasetTransform_inv in H.
    destruct H as (text_a & text_b & label & e & i & -> & _ & Hi & ->).
    exists text_a, text_b, label. split; [reflexivity |].
    apply label_map_all_labels in Hi. destruct Hi as [[-> ->] | [-> ->]]; auto. }
  split.
  { unfold setup_trace, preparation_trace.
    apply prints_not_initialize in H1, H2.
    repeat (progress (rewrite ?filter_app; cbn [filter is_initialize app])).
    rewrite H1, H2. reflexivity. }
  split; [reflexivity |].
  split.
  { rewrite <- (Nat.add_0_r (length (zoo_parameters bert_12_768_12))).
    rewrite nth_error_after. reflexivity. }
  split.
  { replace (S (length (zoo_parameters bert_12_768_12)))
      with (length (zoo_parameters bert_12_768_12) + 1) by lia.
    rewrite nth_error_after. reflexivity. }
  split; [reflexivity |].
  split.
  { unfold setup_trace, preparation_trace. cbn. auto. }
  split; [reflexivity |].
  intros a Ha. apply nth_error_app1. exact Ha.
Qed.

(** ** The four components of an item, from the transform to the step *)

Lemma mapR_ok_inv {A B : Type} (f : A -> result B) (l : list A) (ys : list B) :
  mapR f l = Ok ys ->
  length ys = length l /\ Forall (fun y => exists x, In x l /\ f x = Ok y) ys.
Proof.
  revert ys. induction l as [| x l IH]; intros ys H.
  - cbn in H. injection H as <-. auto.
  - cbn in H. apply rbind_ok_inv in H. destruct H as (y & Hy & H).
    apply rbind_ok_inv in H. destruct H as (ys' & Hys & H). injection H as <-.
    destruct (IH ys' Hys) as [Hlen Hall]. split; [cbn; lia |].
    constructor.
    + exists x. split; [left; reflexivity | exact Hy].
    + eapply Forall_impl; [| exact Hall]. intros y' (x' & Hin & Hx').
      exists x'. split; [right; exact Hin | exact Hx'].
Qed.

(** The batch of items that all have four components: the four columns,
    each stacked. *)
Lemma zip_star_four (items : list (list ndarray)) :
  items <> [] ->
  Forall (fun item => length item = 4) items ->
  zip_star items = [column 0 items; column 1 items; column 2 items; column 3 items].
Proof.
  induction items as [| t rest IH]; [congruence |].
  intros _ Hall. inversion Hall as [| ? ? Ht Hrest]; subst.
  destruct t as [| a [| b [| c [| d [| x t']]]]]; try discriminate Ht.
  destruct rest as [| t2 rest'].
  - reflexivity.
  - change (zip_star ([a; b; c; d] :: t2 :: rest'))
      with (map (fun p => fst p :: snd p) (combine [a; b; c; d] (zip_star (t2 :: rest')))).
    rewrite IH; [reflexivity | discriminate | exact Hrest].
Qed.

Lemma load_batch_inv (ds : TransformedDataset) (idxs : list nat) (batch : list ndarray) :
  load_batch ds idxs = Ok batch ->
  exists items,
    items <> []
    /\ Forall (fun item => exists line, In line (ds_base ds) /\ ds_fn ds line = Ok item) items
    /\ batch = map stack (zip_star items).
Proof.
  unfold load_batch. intros H. apply rbind_ok_inv in H. destruct H as (items & Hm & Hb).
  exists items. unfold default_batchify_fn in Hb.
  destruct items as [| it items']; [discriminate Hb |].
  split; [discriminate |]. split; [| congruence].
  apply mapR_ok_inv in Hm. destruct Hm as [_ Hall].
  eapply Forall_impl; [| exact Hall].
  intros item (i & _ & Hi). unfold dataset_getitem in Hi.
  apply rbind_ok_inv in Hi. destruct Hi as (line & Hl & Hf).
  exists line. split; [| exact Hf].
  unfold getitem in Hl. destruct (nth_error (ds_base ds) i) eqn:E; [| discriminate Hl].
  injection Hl as ->. eapply nth_error_In. exact E.
Qed.

(** C3: an item of the transformed dataset is a tuple of exactly four
    arrays: the token ids, the valid length, the segment ids and the
    label, in this order.  The batches of the data loader keep the order,
    and the loop unpacks them in it: the model is called on the stacked
    token ids, the stacked segment ids and the stacked valid lengths, and
    the loss is computed against the stacked labels. *)
Theorem items_are_four_tensors_in_loop_order (tk : BERTTokenizer) :
  (forall line item,
      BERTDatasetTransform tk max_len all_labels int32 line = Ok item ->
      length item = 4
      /\ exists text_a text_b label e i,
           line = [text_a; text_b; label]
           /\ encode_sentences tk max_len true true [text_a; text_b] = Ok e
           /\ label_map all_labels label = Some i
           /\ item = [np_array int32 (enc_input_ids e);
                      np_scalar int32 (Z.of_nat (enc_valid_length e));
                      np_array int32 (enc_segment_ids e);
                      np_array int32 [Z.of_nat i]])
  /\ (forall env w pre batch post,
         ds_fn (env_data env) = BERTDatasetTransform tk max_len all_labels int32 ->
         trace_of (cell_finetune_loop env w) = pre ++ E_next_batch batch :: post ->
         exists items post',
           items <> []
           /\ Forall (fun item =>
                        exists line,
                          In line (ds_base (env_data env))
                          /\ BERTDatasetTransform tk max_len all_labels int32 line = Ok item)
                     items
           /\ batch = [stack (column 0 items); stack (column 1 items);
                       stack (column 2 items); stack (column 3 items)]
           /\ post = E_record_enter
                     :: E_model (stack (column 0 items)) (stack (column 2 items))
                                (astype float32 (stack (column 1 items)))
                     :: E_loss (stack (column 3 items))
                     :: post').
Proof.
  assert (Hitem : forall line item,
             BERTDatasetTransform tk max_len all_labels int32 line = Ok item ->
             length item = 4
             /\ exists text_a text_b label e i,
                  line = [text_a; text_b; label]
                  /\ encode_sentences tk max_len true true [text_a; text_b] = Ok e
                  /\ label_map all_labels label = Some i
                  /\ item = [np_array int32 (enc_input_ids e);
                             np_scalar int32 (Z.of_nat (enc_valid_length e));
                             np_array int32 (enc_segment_ids e);
                             np_array int32 [Z.of_nat i]]).
  { intros line item H. apply BERTDatasetTransform_inv in H.
    destruct H as (text_a & text_b & label & e & i & Hl & He & Hi & ->).
    split; [reflexivity |]. exists text_a, text_b, label, e, i. auto. }
  split; [exact Hitem |].
  intros env w pre batch post Hfn E.
  destruct (loop_drawn_from_sampler env w pre _ post E) as [_ Hdraw].
  destruct (Hdraw batch eq_refl) as (p0 & bs & mid & idxs & _ & _ & _ & Hload).
  apply load_batch_inv in Hload. destruct Hload as (items & Hne & Hall & Hbatch).
  rewrite Hfn in Hall.
  assert (Hfour : Forall (fun item => length item = 4) items).
  { eapply Forall_impl; [| exact Hall]. intros item (line & _ & Hl).
    apply Hitem in Hl. tauto. }
  rewrite (zip_star_four items Hne Hfour) in Hbatch. cbn [map] in Hbatch.
  destruct (loop_step_in_order env w pre _ post E) as [Hstep _].
  destruct (Hstep _ _ _ _ (f_equal E_next_batch Hbatch)) as (post' & ->).
  eexists items, _. split; [exact Hne |]. split; [exact Hall |].
  split; [exact Hbatch |]. reflexivity.
Qed.

End NotebookFacts.
(** ** More on the runs of the cells and of the loop *)

Section NotebookMore.

Context {fw : Framework}.

(** A property that only some calls have to meet holds of a piece of trace
    without such calls. *)
Lemma everywhere_without (R : list call -> call -> list call -> Prop) (P : call -> bool)
  (h t : list call) :
  (forall p c q, P c = false -> R p c q) ->
  forallb (fun c => negb (P c)) t = true ->
  everywhere R h t.
Proof.
  intros HR. revert h. induction t as [| c t IH]; intros h H.
  - apply everywhere_nil.
  - cbn [forallb] in H. apply andb_true_iff in H. destruct H as [Hc Ht].
    apply everywhere_cons.
    + apply HR. destruct (P c); [discriminate Hc | reflexivity].
    + apply IH. exact Ht.
Qed.

(** Whether a pass returns is whether its inner loop does. *)
Lemma train_epoch_value (env : train_env) (epoch_id : nat) (w : world) :
  value_of (train_epoch env epoch_id w)
  = match value_of (for_each (train_batch env (Z.of_nat epoch_id))
                      (fst (bucket_sampler_iter (env_sampler env) (w_gens w)))
                      (0%Z, float_of_int 0)
                      (with_gens (with_metric w accuracy_init)
                         (snd (bucket_sampler_iter (env_sampler env) (w_gens w))))) with
    | Ok _ => Ok tt
    | Raise e => Raise e
    end.
Proof.
  unfold train_epoch, bind, metric_reset, iter_sampler, ret.
  cbn [w_gens with_metric].
  destruct (bucket_sampler_iter (env_sampler env) (w_gens w)) as [bs g]. cbn [fst snd].
  destruct (for_each (train_batch env (Z.of_nat epoch_id)) bs (0%Z, float_of_int 0)
              (with_gens (with_metric w accuracy_init) g)) as [[[st | e] w2] t]; reflexivity.
Qed.

(** One pass: every call satisfies [R], given that [R] holds of the reset
    of the metric and of the start of the sampler and that an invariant
    [I] of the inner loop carries it through every iteration. *)
Lemma epoch_everywhere (env : train_env)
  (R : list call -> call -> list call -> Prop)
  (I : list (list nat) -> list call -> Z * float -> world -> Prop)
  (e : nat) (h : list call) (w : world) :
  stable R ->
  (forall q, R h E_metric_reset q) ->
  (forall bs q, R (h ++ [E_metric_reset]) (E_iter (env_sampler env) bs) q) ->
  I (fst (bucket_sampler_iter (env_sampler env) (w_gens w)))
    (h ++ [E_metric_reset;
           E_iter (env_sampler env)
                  (fst (bucket_sampler_iter (env_sampler env) (w_gens w)))])
    (0%Z, float_of_int 0)
    (with_gens (with_metric w accuracy_init)
       (snd (bucket_sampler_iter (env_sampler env) (w_gens w)))) ->
  (forall idxs rest h st w,
     I (idxs :: rest) h st w ->
     everywhere R h (trace_of (train_batch env (Z.of_nat e) st idxs w))
     /\ forall st', value_of (train_batch env (Z.of_nat e) st idxs w) = Ok st' ->
                    I rest (h ++ trace_of (train_batch env (Z.of_nat e) st idxs w)) st'
                      (world_of (train_batch env (Z.of_nat e) st idxs w))) ->
  everywhere R h (trace_of (train_epoch env e w))
  /\ (value_of (train_epoch env e w) = Ok tt ->
      exists st, I [] (h ++ trace_of (train_epoch env e w)) st
                   (world_of (train_epoch env e w))).
Proof.
  intros Hst Hreset Hiter Hstart Hbody.
  destruct (train_epoch_run env e w) as (Ht & Hw & Hv). cbv zeta in Ht, Hw, Hv.
  destruct (for_each_everywhere R I (train_batch env (Z.of_nat e)) Hst Hbody _ _ _ _ Hstart)
    as [Hev Hfin].
  rewrite Ht, Hw. split.
  - apply everywhere_cons; [apply Hreset |].
    apply everywhere_cons; [apply Hiter |].
    rewrite <- app_assoc. exact Hev.
  - intros E. apply Hv in E. destruct E as (st & E). exists st.
    specialize (Hfin st E). rewrite <- app_assoc in Hfin. exact Hfin.
Qed.

(** The passes of the training loop, one after the other: [J e] holds
    before the pass of the epoch [e], and [I e] is the invariant of its
    inner loop. *)
Lemma epochs_everywhere (env : train_env)
  (R : list call -> call -> list call -> Prop)
  (J : nat -> list call -> world -> Prop)
  (I : nat -> list (list nat) -> list call -> Z * float -> world -> Prop) :
  stable R ->
  (forall e h w q, e < num_epochs -> J e h w -> R h E_metric_reset q) ->
  (forall e h w bs q, e < num_epochs -> J e h w ->
                      R (h ++ [E_metric_reset]) (E_iter (env_sampler env) bs) q) ->
  (forall e h w, e < num_epochs -> J e h w ->
     I e (fst (bucket_sampler_iter (env_sampler env) (w_gens w)))
       (h ++ [E_metric_reset;
              E_iter (env_sampler env)
                     (fst (bucket_sampler_iter (env_sampler env) (w_gens w)))])
       (0%Z, float_of_int 0)
       (with_gens (with_metric w accuracy_init)
          (snd (bucket_sampler_iter (env_sampler env) (w_gens w))))) ->
  (forall e idxs rest h st w,
     e < num_epochs ->
     I e (idxs :: rest) h st w ->
     everywhere R h (trace_of (train_batch env (Z.of_nat e) st idxs w))
     /\ forall st', value_of (train_batch env (Z.of_nat e) st idxs w) = Ok st' ->
                    I e rest (h ++ trace_of (train_batch env (Z.of_nat e) st idxs w)) st'
                      (world_of (train_batch env (Z.of_nat e) st idxs w))) ->
  (forall e h st w, e < num_epochs -> I e [] h st w -> J (S e) h w) ->
  forall h w,
    J 0 h w ->
    everywhere R h (trace_of (cell_finetune_loop env w))
    /\ (value_of (cell_finetune_loop env w) = Ok tt ->
        J num_epochs (h ++ trace_of (cell_finetune_loop env w))
          (world_of (cell_finetune_loop env w))).
Proof.
  intros Hst Hreset Hiter Hstart Hbody Hend.
  assert (Hloop : forall n a h w,
             a + n = num_epochs ->
             J a h w ->
             let run := for_each (fun _ epoch_id => train_epoch env epoch_id) (seq a n) tt w in
             everywhere R h (trace_of run)
             /\ (value_of run = Ok tt -> J num_epochs (h ++ trace_of run) (world_of run))).
  { induction n as [| n IH]; intros a h w Ha HJ; cbv zeta.
    - cbn. split; [apply everywhere_nil |].
      intros _. rewrite app_nil_r. replace num_epochs with a by lia. exact HJ.
    - cbn [seq for_each].
      assert (Hlt : a < num_epochs) by lia.
      destruct (epoch_everywhere env R (I a) a h w Hst) as [Hev Hfin].
      + intros q. apply (Hreset a h w q Hlt HJ).
      + intros bs q. apply (Hiter a h w bs q Hlt HJ).
      + apply Hstart; assumption.
      + intros idxs rest h' st w'. apply Hbody. exact Hlt.
      + split.
        * apply everywhere_bind; [exact Hst | exact Hev |].
          intros [] E. destruct (Hfin E) as (st & HI).
          apply (IH (S a)); [lia |]. apply (Hend a _ st); assumption.
        * intros E. apply bind_ok_inv in E. destruct E as ([] & E1 & E2 & -> & ->).
          destruct (Hfin E1) as (st & HI).
          rewrite app_assoc.
          apply (IH (S a)); [lia | | exact E2]. apply (Hend a _ st); assumption. }
  intros h w HJ. apply (Hloop num_epochs 0 h w); [reflexivity | exact HJ].
Qed.

(** *** What the loop calls, and what is built before it *)

Lemma loop_calls_are_training_calls (env : train_env) (w : world) :
  forallb is_training_call (trace_of (cell_finetune_loop env w)) = true.
Proof.
  assert (H : everywhere (fun _ c _ => is_training_call c = true) []
                (trace_of (cell_finetune_loop env w))).
  { apply finetune_everywhere_simple.
    - intros p c q x Hc. exact Hc.
    - reflexivity.
    - reflexivity.
    - intros epoch_id idxs h [k s] w'.
      destruct (train_batch_cases env epoch_id k s idxs w')
        as [(e & _ & ->) | [(batch & e & _ & _ & ->) | (tok & vl & seg & lab & Hload)]].
      + apply everywhere_nil.
      + apply everywhere_cons; [reflexivity | apply everywhere_nil].
      + rewrite (train_batch_run env epoch_id k s idxs w' tok vl seg lab Hload).
        cbv zeta. cbn [trace_of snd]. unfold step_calls.
        destruct ((k + 1) mod log_interval =? 0)%Z; cbn [app];
          repeat (apply everywhere_cons; [reflexivity |]); apply everywhere_nil. }
  revert H. generalize (trace_of (cell_finetune_loop env w)). intros t H.
  apply forallb_forall. intros c Hc.
  apply in_split in Hc. destruct Hc as (pre & post & ->).
  exact (H pre c post eq_refl).
Qed.

Lemma filter_none {A : Type} (P : A -> bool) (l : list A) :
  forallb (fun x => negb (P x)) l = true -> filter P l = [].
Proof.
  induction l as [| x l IH]; [reflexivity |].
  cbn. intros H. apply andb_true_iff in H. destruct H as [Hx Hl].
  destruct (P x); [discriminate Hx | auto].
Qed.

Lemma prints_not_construction (t : list call) :
  forallb is_print t = true -> filter is_construction t = [].
Proof.
  intros H. apply filter_none. apply forallb_forall. intros c Hc.
  rewrite forallb_forall in H. specialize (H c Hc).
  unfold is_construction. rewrite H. reflexivity.
Qed.

Lemma training_calls_not_construction (t : list call) :
  forallb is_training_call t = true -> filter is_construction t = [].
Proof.
  intros H. apply filter_none. apply forallb_forall. intros c Hc.
  rewrite forallb_forall in H. specialize (H c Hc).
  unfold is_construction. rewrite H, orb_true_r. reflexivity.
Qed.

(** X1: the calls by which the notebook seeds, loads or builds something
    are made before the training loop, each once and in this order
    ([hybridize] once for the model and once for the loss); the loop
    itself only draws batches, makes trainer steps, reads losses, updates
    the metric and prints log lines. *)
Theorem setup_calls_come_once_before_the_loop (T : transform_class) (rows : list (list string))
  (g : gens rng) (env : train_env) :
  value_of (setup T rows (initial_world g)) = Ok env ->
  filter is_construction (trace_of (notebook_with T rows (initial_world g)))
  = [ E_np_random_seed 100; E_random_seed 100; E_mx_random_seed 10000;
      E_get_model bert_12_768_12;
      E_BERTClassifier (bert (env_model env)) 2 (1 # 10);
      E_initialize (flat_map layer_params (classifier (env_model env))) (Normal (2 # 100));
      E_hybridize; E_SoftmaxCELoss; E_hybridize; E_Accuracy;
      E_MRPCDataset "dev";
      E_BERTTokenizer true; E_BERTDatasetTransform max_len all_labels int32; E_transform;
      E_FixedBucketSampler (env_sampler env); E_DataLoader (env_sampler env);
      E_Trainer (env_trainer env) ]
  /\ forall w, forallb is_training_call (trace_of (cell_finetune_loop env w)) = true.
Proof.
  intros Henv. split; [| intros w; apply loop_calls_are_training_calls].
  destruct (setup_cases T rows g)
    as [(e & w & t & E & _) | (env' & p1 & p2 & E & Hv & Hp1 & Hp2)].
  - rewrite E in Henv. discriminate Henv.
  - rewrite E in Henv. cbn in Henv. injection Henv as ->.
    unfold notebook_with. rewrite (bind_ok_after _ _ _ _ _ _ E).
    unfold after. cbn [trace_of snd].
    rewrite filter_app.
    rewrite (training_calls_not_construction _ (loop_calls_are_training_calls _ _)).
    rewrite app_nil_r. unfold setup_trace, preparation_trace.
    repeat (progress (rewrite ?filter_app; cbn [filter app])).
    rewrite (prints_not_construction _ Hp1), (prints_not_construction _ Hp2).
    destruct (cell_finetune_setup_ok _ _ _ _ Hv) as (lengths & _ & -> & _).
    reflexivity.
Qed.

(** *** The metric after the training *)

(** X2: after a training that ends without exception the metric has seen the
    batches of the last epoch and no other: [metric.reset()] opens every
    epoch, and nothing resets or updates the metric after the last batch. *)
Theorem final_metric_is_of_last_epoch (env : train_env) (w : world) :
  value_of (cell_finetune_loop env w) = Ok tt ->
  w_metric (world_of (cell_finetune_loop env w))
  = replay_metric (metric_updates (current_epoch (trace_of (cell_finetune_loop env w)))).
Proof.
  intros Hv.
  destruct (epochs_everywhere env (fun _ _ _ => True)
              (fun e h w' =>
                 e = 0 \/ w_metric w' = replay_metric (metric_updates (current_epoch h)))
              (fun _ _ h st w' => step_loss_invariant h st w'))
    with (h := @nil call) (w := w) as [_ Hfin].
  - intros p c q x _. exact I.
  - intros. exact I.
  - intros. exact I.
  - intros e h w' _ _. unfold step_loss_invariant. cbn [fst snd w_metric with_gens with_metric].
    change (h ++ [E_metric_reset; E_iter (env_sampler env)
                    (fst (bucket_sampler_iter (env_sampler env) (w_gens w')))])
      with (h ++ [E_metric_reset]
              ++ [E_iter (env_sampler env)
                    (fst (bucket_sampler_iter (env_sampler env) (w_gens w')))]).
    rewrite app_assoc, current_epoch_app by reflexivity.
    rewrite current_epoch_snoc. cbn.
    repeat split. exists [], []. repeat split.
  - intros e idxs rest h st w' _ HI.
    destruct (train_batch_logged_right env (Z.of_nat e) st idxs w' h HI) as [_ Hnext].
    split; [| exact Hnext].
    intros pre c post _. exact I.
  - intros e h st w' _ (_ & Hm & _). right. exact Hm.
  - left. reflexivity.
  - destruct (Hfin Hv) as [H0 | Hm]; [discriminate H0 | exact Hm].
Qed.

(** *** The log lines *)

(** X3: an epoch of [n] batches prints [n / log_interval] log lines: wherever
    a batch is drawn or the metric is reset, and at the end of a training
    without exception, the current epoch has printed one log line for
    every four losses it has read.  So the losses of the batches after
    the last multiple of four are in no printed mean. *)
Theorem one_log_line_per_four_batches (env : train_env) (w : world) :
  (forall pre c post,
      trace_of (cell_finetune_loop env w) = pre ++ c :: post ->
      is_next_batch c = true \/ is_metric_reset c = true ->
      Z.of_nat (length (filter is_log (current_epoch pre)))
      = (Z.of_nat (length (losses (current_epoch pre))) / log_interval)%Z)
  /\ (value_of (cell_finetune_loop env w) = Ok tt ->
      Z.of_nat (length (filter is_log (current_epoch (trace_of (cell_finetune_loop env w)))))
      = (Z.of_nat (length (losses (current_epoch (trace_of (cell_finetune_loop env w)))))
         / log_interval)%Z).
Proof.
  pose (count := fun h : list call =>
          Z.of_nat (length (filter is_log (current_epoch h)))
          = (Z.of_nat (length (losses (current_epoch h))) / log_interval)%Z).
  destruct (epochs_everywhere env
              (fun p c _ => is_next_batch c = true \/ is_metric_reset c = true -> count p)
              (fun _ h _ => count h)
              (fun _ _ h st _ =>
                 fst st = Z.of_nat (length (losses (current_epoch h))) /\ count h))
    with (h := @nil call) (w := w) as [Hev Hfin].
  - intros p c q x H. exact H.
  - intros e h w' q _ HJ _. exact HJ.
  - intros e h w' bs q _ _ [H | H]; discriminate H.
  - intros e h w' _ _. unfold count. cbn [fst].
    change (h ++ [E_metric_reset; E_iter (env_sampler env)
                    (fst (bucket_sampler_iter (env_sampler env) (w_gens w')))])
      with (h ++ [E_metric_reset]
              ++ [E_iter (env_sampler env)
                    (fst (bucket_sampler_iter (env_sampler env) (w_gens w')))]).
    rewrite app_assoc, current_epoch_app by reflexivity.
    rewrite current_epoch_snoc. cbn. split; reflexivity.
  - intros e idxs rest h [k s] w' _ [Hk Hc]. cbn [fst] in Hk.
    destruct (train_batch_cases env (Z.of_nat e) k s idxs w')
      as [(x & _ & ->) | [(batch & x & _ & _ & ->) | (tok & vl & seg & lab & Hload)]].
    + split; [apply everywhere_nil | discriminate].
    + split; [| discriminate].
      apply everywhere_cons; [intros _; exact Hc | apply everywhere_nil].
    + rewrite (train_batch_run env (Z.of_nat e) k s idxs w' tok vl seg lab Hload).
      cbv zeta. cbn [trace_of value_of world_of fst snd].
      set (out := fst (net_forward (w_store w') (w_gens w') tok seg (astype float32 vl))).
      set (v := nd_asscalar (nd_mean (softmax_ce_loss out lab))).
      set (line := if ((k + 1) mod log_interval =? 0)%Z
                   then [E_print (p_log (Z.of_nat e) (k + 1)
                                    (bucket_sampler_len (env_sampler env))
                                    (float_div (float_add s v) (float_of_int log_interval))
                                    (tr_learning_rate (env_trainer env))
                                    (accuracy_get (accuracy_update (w_metric w') lab out)))]
                   else []).
      split.
      * apply everywhere_cons; [intros _; exact Hc |].
        apply (everywhere_without _ (fun c => is_next_batch c || is_metric_reset c)).
        { intros p c q Hn [H | H]; rewrite H in Hn;
            [discriminate Hn | rewrite orb_true_r in Hn; discriminate Hn]. }
        unfold line, step_calls.
        destruct ((k + 1) mod log_interval =? 0)%Z; reflexivity.
      * intros st' E. injection E as <-. cbn [fst]. unfold count.
        assert (Hce : current_epoch
                        (h ++ E_next_batch [tok; vl; seg; lab]
                           :: step_calls env tok vl seg lab
                           ++ [E_asscalar v; E_metric_update lab out] ++ line)
                      = current_epoch h
                        ++ E_next_batch [tok; vl; seg; lab]
                           :: step_calls env tok vl seg lab
                           ++ [E_asscalar v; E_metric_update lab out] ++ line).
        { apply current_epoch_app. unfold line, step_calls.
          destruct ((k + 1) mod log_interval =? 0)%Z; reflexivity. }
        rewrite Hce, losses_app, filter_app, !length_app.
        unfold count in Hc. unfold line, step_calls.
        destruct (Z.eqb_spec ((k + 1) mod log_interval) 0) as [Hlog | Hnolog];
          cbn [losses flat_map filter is_log app length];
          unfold log_interval in *; split; try lia;
          Z.to_euclidean_division_equations; lia.
  - intros e h st w' _ [_ Hc]. exact Hc.
  - reflexivity.
  - split.
    + intros pre c post E Hc. exact (Hev pre c post E Hc).
    + intros Hv. exact (Hfin Hv).
Qed.

(** X4: what a log line shows besides the loss and the accuracy: the epoch,
    counted from 0, in which it is printed; the number of batches of the
    data loader; and the learning rate the trainer was built with, which
    nothing in the loop changes. *)
Theorem log_lines_show_epoch_and_rate (model : BERTClassifier_t)
  (data_train : TransformedDataset) (w0 : world) (env : train_env) (w : world)
  (pre post : list call) (e k n : Z) (loss acc : float) (rate : Q) :
  value_of (cell_finetune_setup model data_train w0) = Ok env ->
  trace_of (cell_finetune_loop env w) = pre ++ E_print (p_log e k n loss rate acc) :: post ->
  rate = lr
  /\ n = bucket_sampler_len (env_sampler env)
  /\ (e = Z.of_nat (length (filter is_metric_reset pre)) - 1)%Z
  /\ (0 <= e < 3)%Z.
Proof.
  intros Henv Ht.
  destruct (cell_finetune_setup_ok _ _ _ _ Henv) as (lengths & _ & Eenv & _).
  assert (Hlr : tr_learning_rate (env_trainer env) = lr) by (rewrite Eenv; reflexivity).
  pose (R := fun (p : list call) (c : call) (_ : list call) =>
          forall e k n loss rate acc,
            c = E_print (p_log e k n loss rate acc) ->
            rate = tr_learning_rate (env_trainer env)
            /\ n = bucket_sampler_len (env_sampler env)
            /\ (e = Z.of_nat (length (filter is_metric_reset p)) - 1)%Z
            /\ (0 <= e < 3)%Z).
  destruct (epochs_everywhere env R
              (fun e h _ => length (filter is_metric_reset h) = e)
              (fun e _ h _ _ => length (filter is_metric_reset h) = S e))
    with (h := @nil call) (w := w) as [Hev _].
  - intros p c q x H. exact H.
  - intros e' h w' q _ _ e1 k1 n1 l1 r1 a1 E. discriminate E.
  - intros e' h w' bs q _ _ e1 k1 n1 l1 r1 a1 E. discriminate E.
  - intros e' h w' _ HJ. rewrite filter_app, length_app, HJ. cbn. lia.
  - intros e' idxs rest h [k0 s] w' Hlt HI.
    destruct (train_batch_cases env (Z.of_nat e') k0 s idxs w')
      as [(x & _ & ->) | [(batch & x & _ & _ & ->) | (tok & vl & seg & lab & Hload)]].
    + split; [apply everywhere_nil | discriminate].
    + split; [| discriminate].
      apply everywhere_cons; [| apply everywhere_nil].
      intros e1 k1 n1 l1 r1 a1 E. discriminate E.
    + rewrite (train_batch_run env (Z.of_nat e') k0 s idxs w' tok vl seg lab Hload).
      cbv zeta. cbn [trace_of value_of world_of fst snd].
      set (out := fst (net_forward (w_store w') (w_gens w') tok seg (astype float32 vl))).
      set (v := nd_asscalar (nd_mean (softmax_ce_loss out lab))).
      set (body := E_next_batch [tok; vl; seg; lab] :: step_calls env tok vl seg lab
                   ++ [E_asscalar v; E_metric_update lab out]).
      change (E_next_batch [tok; vl; seg; lab]
              :: step_calls env tok vl seg lab
              ++ [E_asscalar v; E_metric_update lab out]
              ++ (if ((k0 + 1) mod log_interval =? 0)%Z
                  then [E_print (p_log (Z.of_nat e') (k0 + 1)
                                   (bucket_sampler_len (env_sampler env))
                                   (float_div (float_add s v) (float_of_int log_interval))
                                   (tr_learning_rate (env_trainer env))
                                   (accuracy_get (accuracy_update (w_metric w') lab out)))]
                  else []))
        with (body ++ (if ((k0 + 1) mod log_interval =? 0)%Z
                       then [E_print (p_log (Z.of_nat e') (k0 + 1)
                                        (bucket_sampler_len (env_sampler env))
                                        (float_div (float_add s v) (float_of_int log_interval))
                                        (tr_learning_rate (env_trainer env))
                                        (accuracy_get (accuracy_update (w_metric w') lab out)))]
                       else [])).
      assert (Hb : filter is_metric_reset body = []) by reflexivity.
      assert (Hbody : everywhere R h body).
      { apply (everywhere_without _ is_log); [| reflexivity].
        intros p c q Hn e1 k1 n1 l1 r1 a1 E. subst c. discriminate Hn. }
      destruct ((k0 + 1) mod log_interval =? 0)%Z.
      * split.
        { apply everywhere_app; [intros p c q x H; exact H | exact Hbody |].
          apply everywhere_cons; [| apply everywhere_nil].
          intros e1 k1 n1 l1 r1 a1 E. injection E as <- <- <- <- <- <-.
          rewrite filter_app, length_app, Hb, HI. cbn [length].
          unfold num_epochs in Hlt. repeat split; lia. }
        intros st' _. rewrite !filter_app, !length_app, Hb, HI. cbn. lia.
      * rewrite app_nil_r. split; [exact Hbody |].
        intros st' _. rewrite filter_app, length_app, Hb, HI. cbn. lia.
  - intros e' h st w' _ HI. exact HI.
  - reflexivity.
  - destruct (Hev pre _ post Ht e k n loss rate acc eq_refl) as (Hr & Hn & He & Hb).
    rewrite Hlr in Hr. auto.
Qed.

(** *** Exceptions in the loop *)

(** A loop that raises: the iteration that raised, after the iterations
    before it, which kept the invariant. *)
Lemma for_each_raise {A S : Type} (I : list A -> list call -> S -> world -> Prop)
  (body : S -> A -> M S) :
  (forall x rest h s w s',
      I (x :: rest) h s w ->
      value_of (body s x w) = Ok s' ->
      I rest (h ++ trace_of (body s x w)) s' (world_of (body s x w))) ->
  forall l h s w e,
    I l h s w ->
    value_of (for_each body l s w) = Raise e ->
    exists x rest h' s' w',
      I (x :: rest) h' s' w'
      /\ value_of (body s' x w') = Raise e
      /\ h ++ trace_of (for_each body l s w) = h' ++ trace_of (body s' x w')
      /\ world_of (for_each body l s w) = world_of (body s' x w').
Proof.
  intros Hbody. induction l as [| x rest IH]; intros h s w e HI Hv.
  - discriminate Hv.
  - cbn [for_each] in *.
    destruct (body s x w) as [[[s1 | e1] w1] t1] eqn:E.
    + rewrite (bind_ok _ _ _ _ _ _ E) in *. cbn [value_of world_of trace_of fst snd] in *.
      specialize (Hbody x rest h s w s1 HI). rewrite E in Hbody.
      specialize (Hbody eq_refl). cbn [value_of world_of trace_of fst snd] in Hbody.
      destruct (IH _ _ _ _ Hbody Hv) as (x' & rest' & h' & s' & w' & H1 & H2 & H3 & H4).
      exists x', rest', h', s', w'. rewrite app_assoc. auto.
    + rewrite (bind_raise _ _ _ _ _ _ E) in *. cbn [value_of fst] in Hv.
      exists x, rest, h, s, w. rewrite E. auto.
Qed.

Lemma unpack4_raises {A : Type} (batch : list A) (e : exn) :
  unpack4 batch = Raise e -> e = ValueError /\ length batch <> 4.
Proof.
  destruct batch as [| a [| b [| c [| d [| x rest]]]]]; cbn; intros H;
    try discriminate H; injection H as <-; split; auto; discriminate.
Qed.


(** *** The cells that read the data *)

(** X6: the dataset cell reads the first line only: with three fields or more
    it prints the first three and returns the dataset as it is; on an
    empty dataset, or a first line of less than three fields, it raises
    [IndexError] after it has printed the fields there are. *)
Theorem dataset_cell_reads_the_first_line (rows : list (list string)) (w : world) :
  (forall a b l rest more,
      rows = (a :: b :: l :: rest) :: more ->
      cell_dataset rows w
      = (Ok rows, w,
         [E_MRPCDataset "dev"; E_print (p_str a); E_print (p_str b); E_print (p_str l)]))
  /\ (length (hd [] rows) < 3 ->
      cell_dataset rows w
      = (Raise IndexError, w,
         E_MRPCDataset "dev" :: map (fun s => E_print (p_str s)) (hd [] rows))).
Proof.
  split.
  - intros a b l rest more ->. reflexivity.
  - intros H. destruct rows as [| [| a [| b [| l rest]]] more]; try reflexivity.
    cbn in H. lia.
Qed.

(** X7: the transform cell applies the transform to the first line only, to
    print its item: the other lines are not transformed there.  It raises
    what the transform raises on the first line, and [IndexError] on an
    empty dataset or when the item has less than four components, after it
    has printed those there are. *)
Theorem transform_cell_reads_the_first_item (T : transform_class) (vocabulary : BERTVocab)
  (rows : list (list string)) (w : world) :
  let tk := {| vocab := vocabulary; lower := true; tokenize := wordpiece vocabulary true |} in
  let started :=
    [E_BERTTokenizer true; E_BERTDatasetTransform max_len all_labels int32; E_transform] in
  let shown (item : list ndarray) :=
    map (fun p => E_print (p_array (fst p) (snd p))) (combine printed_names item) in
  (rows = [] -> cell_transform T vocabulary rows w = (Raise IndexError, w, started))
  /\ (forall line more e,
         rows = line :: more ->
         T tk max_len all_labels int32 line = Raise e ->
         cell_transform T vocabulary rows w = (Raise e, w, started))
  /\ (forall line more item,
         rows = line :: more ->
         T tk max_len all_labels int32 line = Ok item ->
         length item < 4 ->
         cell_transform T vocabulary rows w = (Raise IndexError, w, started ++ shown item))
  /\ (forall line more item,
         rows = line :: more ->
         T tk max_len all_labels int32 line = Ok item ->
         4 <= length item ->
         cell_transform T vocabulary rows w
         = (Ok {| ds_base := rows; ds_fn := T tk max_len all_labels int32 |}, w,
            started ++ shown item)).
Proof.
  cbv zeta. split; [| split; [| split]].
  - intros ->. reflexivity.
  - intros line more e -> H.
    unfold cell_transform, bind, emit, lift, print, ret, dataset_getitem, getitem.
    cbn. rewrite H. reflexivity.
  - intros line more item -> H Hlen.
    unfold cell_transform, bind, emit, lift, print, ret, dataset_getitem, getitem.
    cbn. rewrite H.
    destruct item as [| x0 [| x1 [| x2 [| x3 extra]]]]; try reflexivity.
    cbn in Hlen. lia.
  - intros line more item -> H Hlen.
    unfold cell_transform, bind, emit, lift, print, ret, dataset_getitem, getitem.
    cbn. rewrite H.
    destruct item as [| x0 [| x1 [| x2 [| x3 extra]]]]; cbn in Hlen; try lia.
    reflexivity.
Qed.

(** *** The scan of the dataset for the sampler *)

Lemma dataset_iter_stops (fn : list string -> result (list ndarray))
  (good : list (list string)) (bad : list string) (more : list (list string)) (e : exn) :
  Forall (fun line => is_ok (fn line) = true) good ->
  fn bad = Raise e ->
  dataset_iter fn (good ++ bad :: more)
  = match e with
    | IndexError => dataset_iter fn good
    | _ => Raise e
    end.
Proof.
  intros Hgood Hbad. induction Hgood as [| line good Hline _ IH].
  - cbn. rewrite Hbad. destruct e; reflexivity.
  - cbn. destruct (fn line) as [item | e0]; [| discriminate Hline].
    rewrite IH. destruct e; try reflexivity.
Qed.

Lemma dataset_iter_items (fn : list string -> result (list ndarray))
  (rows : list (list string)) (items : list (list ndarray)) :
  Forall (fun line => fn line <> Raise IndexError) rows ->
  dataset_iter fn rows = Ok items ->
  Forall2 (fun line item => fn line = Ok item) rows items.
Proof.
  intros Hrows. revert items. induction Hrows as [| line rows Hline _ IH]; intros items H.
  - injection H as <-. constructor.
  - cbn in H. destruct (fn line) as [item | e] eqn:E.
    + destruct (dataset_iter fn rows) as [items' | e']; [| discriminate H].
      injection H as <-. constructor; auto.
    + destruct e; try discriminate H. contradiction Hline. reflexivity.
Qed.

Lemma dataset_iter_good (fn : list string -> result (list ndarray))
  (good : list (list string)) :
  Forall (fun line => is_ok (fn line) = true) good ->
  exists items, dataset_iter fn good = Ok items /\ length items = length good.
Proof.
  induction 1 as [| line good Hline _ (items & IH & Hlen)].
  - exists []. auto.
  - cbn. destruct (fn line) as [item | e]; [| discriminate Hline].
    rewrite IH. exists (item :: items). cbn. auto.
Qed.

Lemma lengths_of_items (items : list (list ndarray)) (lengths : list Z) :
  mapR (fun item => x <~ getitem item 1 ;; int_ x) items = Ok lengths ->
  Forall2 (fun item v => exists a, nth_error item 1 = Some a /\ nd_values a = [v])
          items lengths.
Proof.
  revert lengths. induction items as [| item items IH]; intros lengths H.
  - injection H as <-. constructor.
  - cbn [mapR] in H. apply rbind_ok_inv in H. destruct H as (v & Hv & H).
    apply rbind_ok_inv in H. destruct H as (vs & Hvs & H). injection H as <-.
    constructor; [| apply IH; exact Hvs].
    apply rbind_ok_inv in Hv. destruct Hv as (a & Ha & Hi).
    exists a. unfold getitem in Ha. destruct (nth_error item 1); [| discriminate Ha].
    injection Ha as ->. split; [reflexivity |].
    unfold int_ in Hi. destruct (nd_values a) as [| v0 [| v1 r]]; try discriminate Hi.
    injection Hi as ->. reflexivity.
Qed.


(** X9: an [IndexError] of the transform does not go through the scan: the
    dataset has no iterator of its own, so the scan takes it for the end
    of the data.  The cell then builds the sampler over the lines before
    the one that raised, though the data loader is over the whole
    dataset. *)
Theorem an_index_error_ends_the_scan (model : BERTClassifier_t)
  (fn : list string -> result (list ndarray))
  (good : list (list string)) (bad : list string) (more : list (list string))
  (w : world) (env : train_env) :
  Forall (fun line => is_ok (fn line) = true) good ->
  fn bad = Raise IndexError ->
  value_of (cell_finetune_setup model {| ds_base := good ++ bad :: more; ds_fn := fn |} w)
  = Ok env ->
  length (sampler_lengths (env_sampler env)) = length good
  /\ ds_base (env_data env) = good ++ bad :: more
  /\ exists env0,
       value_of (cell_finetune_setup model {| ds_base := good; ds_fn := fn |} w) = Ok env0
       /\ env_sampler env = env_sampler env0.
Proof.
  intros Hgood Hbad Henv.
  destruct (cell_finetune_setup_ok _ _ _ _ Henv) as (lengths & Hl & Eenv & _).
  cbn [ds_fn ds_base] in Hl.
  rewrite (dataset_iter_stops _ good bad more IndexError Hgood Hbad) in Hl.
  destruct (dataset_iter_good fn good Hgood) as (items & Hitems & Hlen).
  rewrite Hitems in Hl. cbn [rbind] in Hl.
  pose proof (lengths_of_items _ _ Hl) as Hf. apply Forall2_length in Hf.
  rewrite Eenv. cbn [env_sampler sampler_lengths env_data ds_base].
  split; [lia |]. split; [reflexivity |].
  eexists. split.
  - unfold cell_finetune_setup. cbn [ds_fn ds_base]. rewrite Hitems. cbn [rbind]. rewrite Hl.
    reflexivity.
  - reflexivity.
Qed.

(** X10: the sampler and the dataset agree on the indices: when the transform
    raises [IndexError] on no line, the sampler holds one length for each
    line of the dataset, and the length at an index is the single value of
    the second component of the item at this index. *)
Theorem sampler_lengths_follow_the_lines (model : BERTClassifier_t)
  (data_train : TransformedDataset) (w : world) (env : train_env) :
  value_of (cell_finetune_setup model data_train w) = Ok env ->
  Forall (fun line => ds_fn data_train line <> Raise IndexError) (ds_base data_train) ->
  length (sampler_lengths (env_sampler env)) = length (ds_base data_train)
  /\ forall i line,
       nth_error (ds_base data_train) i = Some line ->
       exists item a v,
         dataset_getitem data_train i = Ok item
         /\ nth_error item 1 = Some a
         /\ nd_values a = [v]
         /\ nth_error (sampler_lengths (env_sampler env)) i = Some v.
Proof.
  intros Henv Hrows.
  destruct (cell_finetune_setup_ok _ _ _ _ Henv) as (lengths & Hl & Eenv & _).
  apply rbind_ok_inv in Hl. destruct Hl as (items & Hitems & Hl).
  pose proof (dataset_iter_items _ _ _ Hrows Hitems) as H1.
  pose proof (lengths_of_items _ _ Hl) as H2.
  rewrite Eenv. cbn [env_sampler sampler_lengths].
  split.
  - rewrite <- (Forall2_length H2). symmetry. exact (Forall2_length H1).
  - clear Hitems Hl Eenv Henv Hrows. unfold dataset_getitem, getitem.
    revert lengths H2. generalize dependent (ds_base data_train). intros rows H1.
    induction H1 as [| l0 item0 rows' items' Hfn _ IH]; intros lengths H2 i line Hi.
    + destruct i; discriminate Hi.
    + inversion H2 as [| ? v0 ? lengths' (a & Ha & Hv) H2']; subst.
      destruct i as [| i]; cbn [nth_error] in *.
      * injection Hi as <-. exists item0, a, v0. cbn [rbind]. rewrite Hfn. auto.
      * exact (IH lengths' H2' i line Hi).
Qed.

(** *** The batches of a pass *)

Lemma drawn_batches_app (t1 t2 : list call) :
  drawn_batches (t1 ++ t2) = drawn_batches t1 ++ drawn_batches t2.
Proof.
  apply flat_map_app.
Qed.

Lemma inner_loop_loads (env : train_env) (epoch_id : Z) (l : list (list nat)) :
  forall (st st' : Z * float) (w : world),
    value_of (for_each (train_batch env epoch_id) l st w) = Ok st' ->
    mapR (load_batch (env_data env)) l
    = Ok (drawn_batches (trace_of (for_each (train_batch env epoch_id) l st w)))
    /\ Forall (fun b => length b = 4)
              (drawn_batches (trace_of (for_each (train_batch env epoch_id) l st w))).
Proof.
  induction l as [| idxs rest IH]; intros st st' w H.
  - cbn. auto.
  - cbn [for_each] in *. apply bind_ok_inv in H.
    destruct H as (s1 & H1 & H2 & _ & ->).
    destruct (IH _ _ _ H2) as [IHl IHf].
    rewrite drawn_batches_app. cbn [mapR]. rewrite IHl.
    destruct st as [k s].
    destruct (train_batch_cases env epoch_id k s idxs w)
      as [(e & _ & E) | [(batch & e & _ & _ & E) | (tok & vl & seg & lab & Hload)]].
    + rewrite E in H1. discriminate H1.
    + rewrite E in H1. discriminate H1.
    + assert (Hd : drawn_batches (trace_of (train_batch env epoch_id (k, s) idxs w))
                   = [[tok; vl; seg; lab]]).
      { rewrite (train_batch_run env epoch_id k s idxs w tok vl seg lab Hload).
        cbv zeta. cbn [trace_of snd].
        destruct ((k + 1) mod log_interval =? 0)%Z; reflexivity. }
      rewrite Hd, Hload. split; [reflexivity |].
      constructor; [reflexivity | exact IHf].
Qed.

Lemma train_epoch_loads_in_order (env : train_env) (epoch_id : nat) (w : world) :
  value_of (train_epoch env epoch_id w) = Ok tt ->
  loads_in_order env (trace_of (train_epoch env epoch_id w)).
Proof.
  intros H. destruct (train_epoch_run env epoch_id w) as (Ht & _ & Hv).
  apply Hv in H. destruct H as (st & H).
  destruct (inner_loop_loads _ _ _ _ _ _ H) as [Hl Hf].
  rewrite Ht. eexists _, _. split; [reflexivity |]. split; assumption.
Qed.

(** X11: a training that ends without exception is three passes, and each
    pass loads every batch of indices that the sampler gave at its start
    exactly once, in the order the sampler gave them; every batch holds
    four arrays. *)
Theorem every_pass_loads_each_batch_once (env : train_env) (w : world) :
  value_of (cell_finetune_loop env w) = Ok tt ->
  exists p0 p1 p2,
    trace_of (cell_finetune_loop env w) = p0 ++ p1 ++ p2
    /\ loads_in_order env p0 /\ loads_in_order env p1 /\ loads_in_order env p2.
Proof.
  unfold cell_finetune_loop. cbn [num_epochs seq for_each]. intros H.
  apply bind_ok_inv in H. destruct H as ([] & H0 & H & _ & ->).
  apply bind_ok_inv in H. destruct H as ([] & H1 & H & _ & ->).
  apply bind_ok_inv in H. destruct H as ([] & H2 & H & _ & ->).
  cbn [ret trace_of snd]. rewrite app_nil_r.
  eexists _, _, _. split; [reflexivity |].
  repeat split; apply train_epoch_loads_in_order; assumption.
Qed.

(** Lines on which the transform returns, as a test that computes. *)
Lemma all_ok_no_index_error (fn : list string -> result (list ndarray))
  (rows : list (list string)) :
  forallb (fun line => is_ok (fn line)) rows = true ->
  Forall (fun line => is_ok (fn line) = true) rows
  /\ Forall (fun line => fn line <> Raise IndexError) rows.
Proof.
  intros H. rewrite forallb_forall in H. split; apply Forall_forall; intros line Hin.
  - exact (H line Hin).
  - specialize (H line Hin). intros E. rewrite E in H. discriminate H.
Qed.

(** *** A run without exception *)

Lemma for_each_returns {A S : Type} (body : S -> A -> M S) (l : list A) :
  (forall x, In x l -> forall s w, exists s', value_of (body s x w) = Ok s') ->
  forall s w, exists s', value_of (for_each body l s w) = Ok s'.
Proof.
  induction l as [| x rest IH]; intros Hbody s w.
  - exists s. reflexivity.
  - cbn [for_each].
    destruct (Hbody x (or_introl eq_refl) s w) as (s1 & E1).
    destruct (body s x w) as [[r w1] t1] eqn:E. cbn in E1. subst r.
    rewrite (value_of_bind_ok _ _ _ _ _ _ E).
    apply IH. intros y Hy. apply Hbody. right. exact Hy.
Qed.

(** A batch of indices that are there, over lines that all give four
    arrays, loads as four arrays. *)
Lemma load_batch_four (ds : TransformedDataset) (idxs : list nat) :
  idxs <> [] ->
  Forall (fun i => i < length (ds_base ds)) idxs ->
  Forall (fun line => exists a b c d, ds_fn ds line = Ok [a; b; c; d]) (ds_base ds) ->
  exists a b c d, load_batch ds idxs = Ok [a; b; c; d].
Proof.
  intros Hne Hin Hlines.
  assert (Hitems : exists items,
             mapR (dataset_getitem ds) idxs = Ok items
             /\ length items = length idxs
             /\ Forall (fun item => length item = 4) items).
  { clear Hne. induction Hin as [| i idxs Hi _ (items & IH & Hlen & Hall)].
    - exists []. repeat split. constructor.
    - apply nth_error_Some in Hi.
      destruct (nth_error (ds_base ds) i) as [line |] eqn:E; [| congruence].
      rewrite Forall_forall in Hlines.
      destruct (Hlines line (nth_error_In _ _ E)) as (a & b & c & d & Hfn).
      exists ([a; b; c; d] :: items). cbn [mapR].
      unfold dataset_getitem at 1. unfold getitem. rewrite E. cbn [rbind].
      rewrite Hfn, IH. cbn. repeat split; [lia |]. constructor; [reflexivity | exact Hall]. }
  destruct Hitems as (items & Hm & Hlen & Hall).
  assert (Hi : items <> []).
  { intros ->. destruct idxs; [congruence | discriminate Hlen]. }
  unfold load_batch. rewrite Hm. cbn [rbind]. unfold default_batchify_fn.
  destruct items as [| it items']; [congruence |].
  rewrite (zip_star_four _ Hi Hall). cbn [map].
  eexists _, _, _, _. reflexivity.
Qed.

(** The training loop returns when the sampler gives batches of indices
    that are there and every line gives four arrays. *)
Lemma loop_returns (env : train_env) (w : world) :
  (forall g, Forall (fun idxs => idxs <> []
                                 /\ Forall (fun i => i < length (ds_base (env_data env))) idxs)
                    (fst (bucket_sampler_iter (env_sampler env) g))) ->
  Forall (fun line => exists a b c d, ds_fn (env_data env) line = Ok [a; b; c; d])
         (ds_base (env_data env)) ->
  value_of (cell_finetune_loop env w) = Ok tt.
Proof.
  intros Hs Hd. unfold cell_finetune_loop.
  destruct (for_each_returns (fun (_ : unit) epoch_id => train_epoch env epoch_id)
              (seq 0 num_epochs)) with (s := tt) (w := w) as ([] & E); [| exact E].
  intros e _ [] w'. exists tt. rewrite train_epoch_value.
  destruct (for_each_returns (train_batch env (Z.of_nat e))
              (fst (bucket_sampler_iter (env_sampler env) (w_gens w'))))
    with (s := (0%Z, float_of_int 0))
         (w := with_gens (with_metric w' accuracy_init)
                 (snd (bucket_sampler_iter (env_sampler env) (w_gens w'))))
    as (st & E); [| rewrite E; reflexivity].
  intros idxs Hin [k s] w2.
  specialize (Hs (w_gens w')). rewrite Forall_forall in Hs.
  destruct (Hs idxs Hin) as [Hne Hrange].
  destruct (load_batch_four (env_data env) idxs Hne Hrange Hd) as (a & b & c & d & Hload).
  rewrite (train_batch_run env (Z.of_nat e) k s idxs w2 a b c d Hload).
  cbv zeta. eexists. reflexivity.
Qed.

(** The scan of the dataset returns one length for each line when every
    line gives an item whose second component holds one value. *)
Lemma scan_returns (fn : list string -> result (list ndarray)) (rows : list (list string)) :
  Forall (fun line => exists x0 x1 x2 x3 v,
            fn line = Ok [x0; x1; x2; x3] /\ nd_values x1 = [v]) rows ->
  exists lengths,
    (items <~ dataset_iter fn rows ;;
     mapR (fun item => x <~ getitem item 1 ;; int_ x) items) = Ok lengths
    /\ length lengths = length rows.
Proof.
  induction 1 as [| line rows (x0 & x1 & x2 & x3 & v & Hfn & Hv) _ (lengths & IH & Hlen)].
  - exists []. auto.
  - assert (Hint : int_ x1 = Ok v) by (unfold int_; rewrite Hv; reflexivity).
    cbn [dataset_iter]. rewrite Hfn.
    destruct (dataset_iter fn rows) as [items | e]; [| discriminate IH].
    cbn [rbind] in IH. cbn [rbind mapR getitem nth_error]. rewrite Hint, IH.
    exists (v :: lengths). cbn. auto.
Qed.

Lemma cell_dataset_returns (rows : list (list string)) (w : world)
  (a b l : string) (rest : list string) (more : list (list string)) :
  rows = (a :: b :: l :: rest) :: more ->
  cell_dataset rows w
  = (Ok rows, w,
     [E_MRPCDataset "dev"; E_print (p_str a); E_print (p_str b); E_print (p_str l)]).
Proof.
  intros ->. reflexivity.
Qed.

Lemma cell_transform_returns (T : transform_class) (vocabulary : BERTVocab)
  (rows : list (list string)) (w : world) (line : list string) (more : list (list string))
  (x0 x1 x2 x3 : ndarray) (extra : list ndarray) :
  let tk := {| vocab := vocabulary; lower := true; tokenize := wordpiece vocabulary true |} in
  rows = line :: more ->
  T tk max_len all_labels int32 line = Ok (x0 :: x1 :: x2 :: x3 :: extra) ->
  cell_transform T vocabulary rows w
  = (Ok {| ds_base := rows; ds_fn := T tk max_len all_labels int32 |}, w,
     [E_BERTTokenizer true; E_BERTDatasetTransform max_len all_labels int32; E_transform;
      E_print (p_array "token ids = " x0); E_print (p_array "valid length = " x1);
      E_print (p_array "segment ids = " x2); E_print (p_array "label = " x3)]).
Proof.
  cbv zeta. intros -> H.
  unfold cell_transform, bind, emit, lift, print, ret, dataset_getitem, getitem.
  cbn. rewrite H. reflexivity.
Qed.


Lemma all_items (shapes : list (list nat)) (fn : list string -> result (list ndarray))
  (rows : list (list string)) :
  forallb (fun line => is_item shapes (fn line)) rows = true ->
  Forall (fun line => exists x0 x1 x2 x3 v,
            fn line = Ok [x0; x1; x2; x3]
            /\ nd_values x1 = [v]
            /\ map nd_shape [x0; x1; x2; x3] = shapes) rows.
Proof.
  intros H. rewrite forallb_forall in H. apply Forall_forall. intros line Hin.
  specialize (H line Hin). unfold is_item in H.
  destruct (fn line) as [[| x0 [| x1 [| x2 [| x3 [| x4 r]]]]] | e]; try discriminate H.
  destruct (nd_values x1) as [| v [| v' r]] eqn:E; try discriminate H.
  destruct (list_eq_dec (list_eq_dec Nat.eq_dec) (map nd_shape [x0; x1; x2; x3]) shapes)
    as [Hs | Hs]; [| discriminate H].
  exists x0, x1, x2, x3, v. auto.
Qed.

End NotebookMore.
(** ** Reading a run at a place *)

Section Places.
Context {fw : Framework}.

Lemma is_ok_value_or {A : Type} (d : A) (r : result A) :
  is_ok r = true -> r = Ok (value_or d r).
Proof.
  destruct r; [reflexivity | discriminate].
Qed.

Lemma split_at {A : Type} (t : list A) (k : nat) (c : A) :
  nth_error t k = Some c -> t = firstn k t ++ c :: skipn (S k) t.
Proof.
  revert k. induction t as [| x t IH]; intros [| k] H; try discriminate H.
  - injection H as ->. reflexivity.
  - cbn [firstn skipn app]. f_equal. apply IH. exact H.
Qed.

Lemma metric_reset_at (t : list call) (k : nat) :
  match nth_error t k with Some c => is_metric_reset c | None => false end = true ->
  t = firstn k t ++ E_metric_reset :: skipn (S k) t.
Proof.
  intros H. apply split_at. destruct (nth_error t k) as [c |]; [| discriminate H].
  destruct c; try discriminate H. reflexivity.
Qed.

Lemma batch_at_split (t : list call) (k : nat) :
  Nat.eqb (length (batch_at t k)) 4 = true ->
  t = firstn k t
      ++ E_next_batch [component (batch_at t k) 0; component (batch_at t k) 1;
                       component (batch_at t k) 2; component (batch_at t k) 3]
      :: skipn (S k) t.
Proof.
  intros H. apply split_at. unfold batch_at in *.
  destruct (nth_error t k) as [c |]; [| discriminate H].
  destruct c; try discriminate H.
  destruct batch as [| a [| b [| c [| d [| e batch]]]]]; try discriminate H.
  reflexivity.
Qed.

End Places.

(** ** The notebook on a small instance of the framework *)

Example toy_run_returns : value_of Toy.run = Ok tt.
Proof.
  vm_compute. reflexivity.
Qed.

Lemma toy_setup_returns :
  value_of (@cell_finetune_setup Toy.framework (@prepared_model Toy.framework) Toy.data_train
              (@prepared_world Toy.framework))
  = Ok Toy.env.
Proof.
  vm_compute. reflexivity.
Qed.

Lemma toy_notebook_setup_returns :
  value_of (@setup Toy.framework BERTDatasetTransform Toy.mrpc_dev
              (@initial_world Toy.framework Toy.g0))
  = Ok Toy.env.
Proof.
  vm_compute. reflexivity.
Qed.

Lemma toy_item0 :
  BERTDatasetTransform Toy.tokenizer max_len all_labels int32 Toy.line0 = Ok Toy.item0.
Proof.
  apply is_ok_value_or. vm_compute. reflexivity.
Qed.

(** The third call of the loop draws the first batch. *)
Lemma toy_first_batch :
  trace_of Toy.loop_run
  = firstn 2 (trace_of Toy.loop_run)
    ++ E_next_batch [component Toy.batch0 0; component Toy.batch0 1;
                     component Toy.batch0 2; component Toy.batch0 3]
    :: skipn 3 (trace_of Toy.loop_run).
Proof.
  apply (@batch_at_split Toy.framework (trace_of Toy.loop_run) 2).
  vm_compute. reflexivity.
Qed.

(** The 47th call of the loop prints the first log line. *)
Lemma toy_first_log :
  trace_of Toy.loop_run
  = firstn 46 (trace_of Toy.loop_run) ++ Toy.log0 :: skipn 47 (trace_of Toy.loop_run).
Proof.
  apply split_at. vm_compute. reflexivity.
Qed.

Lemma toy_loop_returns : value_of Toy.loop_run = Ok tt.
Proof.
  vm_compute. reflexivity.
Qed.

(** The 26th call of the notebook on the small instance is the first reset
    of the metric. *)
Lemma toy_reset_at :
  match nth_error (trace_of (@notebook_with Toy.framework BERTDatasetTransform Toy.mrpc_dev
                               (@initial_world Toy.framework Toy.g0))) 25 with
  | Some c => is_metric_reset c
  | None => false
  end = true.
Proof.
  vm_compute. reflexivity.
Qed.

Lemma toy_map_null_frame (f : gluon_Parameter Z -> gluon_Parameter Z)
  (s : list (gluon_Parameter Z)) :
  (forall p, p_grad_req (f p) = p_grad_req p) ->
  (forall p, p_grad_req p = req_null -> f p = p) ->
  @null_frame Toy.framework s (map f s).
Proof.
  intros Hreq Hnull. split.
  - rewrite map_map. apply map_ext. exact Hreq.
  - intros a p Ha Hp. apply map_nth_error with (f := f) in Ha.
    rewrite (Hnull p Hp) in Ha. exact Ha.
Qed.

(** The small instance keeps the contract. *)
Lemma toy_contract : @training_contract Toy.framework.
Proof.
  constructor.
  - intros ls s. apply toy_map_null_frame.
    + intros p. destruct (is_null (p_grad_req p)); reflexivity.
    + intros p Hp. rewrite Hp. reflexivity.
  - intros ps s. split; auto.
  - intros ps n s. apply toy_map_null_frame.
    + intros p. destruct (is_null (p_grad_req p)); [reflexivity |].
      destruct (p_grad p); reflexivity.
    + intros p Hp. rewrite Hp. reflexivity.
  - intros ps n o s. apply toy_map_null_frame.
    + intros p. destruct (is_null (p_grad_req p)); [reflexivity |].
      destruct (p_data p), (p_grad p); reflexivity.
    + intros p Hp. rewrite Hp. reflexivity.
Qed.

(** On the small instance the first reset of the metric is the 26th call of
    the notebook, and the loading of the model and the transform precede it. *)
Lemma pipeline_stages_in_order_witness :
  exists a b d,
    firstn 25 (trace_of (@notebook_with Toy.framework BERTDatasetTransform Toy.mrpc_dev
                           (@initial_world Toy.framework Toy.g0)))
    = a ++ E_get_model bert_12_768_12
        :: b ++ E_BERTTokenizer true
        :: E_BERTDatasetTransform max_len all_labels int32
        :: E_transform :: d.
Proof.
  destruct (@pipeline_stages_in_order Toy.framework BERTDatasetTransform Toy.mrpc_dev Toy.g0
              _ _ _
              (@metric_reset_at Toy.framework
                 (trace_of (@notebook_with Toy.framework BERTDatasetTransform Toy.mrpc_dev
                              (@initial_world Toy.framework Toy.g0)))
                 25 toy_reset_at)
              eq_refl)
    as (a & b & d & env & H & _).
  exists a, b, d. exact H.
Defined.

(** On the small instance the first batch is followed by the calls of a
    trainer step. *)
Lemma trainer_step_per_batch_witness :
  exists post',
    skipn 3 (trace_of Toy.loop_run)
    = [ E_record_enter;
        E_model (component Toy.batch0 0) (component Toy.batch0 2)
                (astype float32 (component Toy.batch0 1));
        E_loss (component Toy.batch0 3);
        E_record_exit;
        E_backward;
        E_allreduce_grads;
        E_clip_grad_global_norm [0; 2; 3] 1;
        E_update 1 ] ++ post'.
Proof.
  destruct (@trainer_step_per_batch Toy.framework _ _ _ _ _ _ _ _
              toy_setup_returns toy_first_batch) as (_ & Hdraw & _).
  exact (Hdraw _ _ _ _ eq_refl).
Defined.

(** On the small instance the first item has four arrays and the first
    batch is made of the four columns of its items. *)
Lemma items_are_four_tensors_in_loop_order_witness :
  length Toy.item0 = 4
  /\ exists items,
       items <> []
       /\ [component Toy.batch0 0; component Toy.batch0 1;
           component Toy.batch0 2; component Toy.batch0 3]
          = [stack (column 0 items); stack (column 1 items);
             stack (column 2 items); stack (column 3 items)].
Proof.
  destruct (@items_are_four_tensors_in_loop_order Toy.framework Toy.tokenizer)
    as [Hitem Hloop].
  split.
  - exact (proj1 (Hitem _ _ toy_item0)).
  - destruct (Hloop Toy.env _ _ _ _ eq_refl toy_first_batch)
      as (items & post' & Hne & _ & Hb & _).
    exists items. split; [exact Hne | exact Hb].
Defined.

(** The segment ids of the first item of the small instance. *)
Lemma segment_ids_tell_first_from_second_witness :
  exists tokens_a tokens_b,
    firstn (length (first_sequence Toy.vocabulary tokens_a)
            + length (second_sequence Toy.vocabulary tokens_b))
           (nd_values (component Toy.item0 2))
    = repeat 0%Z (length (first_sequence Toy.vocabulary tokens_a))
      ++ repeat 1%Z (length (second_sequence Toy.vocabulary tokens_b)).
Proof.
  destruct (segment_ids_tell_first_from_second Toy.tokenizer Toy.line0 Toy.item0 toy_item0)
    as (text_a & text_b & label & tokens_a & tokens_b & token_ids & valid_length
        & segment_ids & label_array & _ & Hitem & _ & _ & _ & _ & _ & _ & _ & Hseg).
  exists tokens_a, tokens_b. rewrite Hitem. exact Hseg.
Defined.



(** On the small instance the classifier has two units and [initialize]
    is called once, on its two parameters. *)
Lemma binary_classifier_on_pretrained_encoder_witness :
  output_units (classifier (env_model Toy.env)) = Some 2%Z
  /\ filter is_initialize
       (trace_of (@setup Toy.framework BERTDatasetTransform Toy.mrpc_dev
                    (@initial_world Toy.framework Toy.g0)))
     = [E_initialize [2; 3] (Normal (2 # 100))].
Proof.
  destruct (@binary_classifier_on_pretrained_encoder Toy.framework _ _ _
              toy_notebook_setup_returns) as (Hunits & _ & _ & Hinit & _).
  split; [exact Hunits | exact Hinit].
Defined.

(** The first item of the small instance is padded to 128. *)
Lemma transformed_example_is_padded_witness :
  length (nd_values (component Toy.item0 0)) = 128
  /\ length (nd_values (component Toy.item0 2)) = 128.
Proof.
  destruct (transformed_example_is_padded Toy.tokenizer Toy.line0 Toy.item0 toy_item0)
    as (token_ids & valid_length & segment_ids & label_array & v & Hitem & Hl1 & _ & Hl2 & _).
  rewrite Hitem. split; [exact Hl1 | exact Hl2].
Defined.

(** Two runs of the small instance from different states of the generators. *)
Lemma seeded_runs_are_identical_witness :
  @notebook_with Toy.framework BERTDatasetTransform Toy.mrpc_dev
    (@initial_world Toy.framework Toy.g0)
  = @notebook_with Toy.framework BERTDatasetTransform Toy.mrpc_dev
      (@initial_world Toy.framework Toy.g1).
Proof.
  exact (proj2 (proj2 (@seeded_runs_are_identical Toy.framework BERTDatasetTransform
                         Toy.mrpc_dev Toy.g0 Toy.g1))).
Defined.

(** On the small instance the loop makes three passes, and the loss of its
    first log line is the mean of four losses. *)
Lemma three_passes_and_logged_means_witness :
  (exists e0 e1 e2,
      trace_of Toy.loop_run = e0 ++ e1 ++ e2
      /\ @full_pass Toy.framework Toy.env e0
      /\ @full_pass Toy.framework Toy.env e1
      /\ @full_pass Toy.framework Toy.env e2)
  /\ exists older l1 l2 l3 l4,
       @losses Toy.framework (current_epoch (firstn 46 (trace_of Toy.loop_run)))
       = older ++ [l1; l2; l3; l4]
       /\ 39057%Z = ((0 + l1 + l2 + l3 + l4) / 4)%Z.
Proof.
  destruct (@three_passes_and_logged_means Toy.framework Toy.env
              (world_of (@cell_finetune_setup Toy.framework (@prepared_model Toy.framework)
                           Toy.data_train (@prepared_world Toy.framework))))
    as (_ & _ & Hpasses & Hlogs).
  split; [exact (Hpasses toy_loop_returns) |].
  destruct (Hlogs _ _ _ toy_first_log) as (_ & Hlog).
  destruct (Hlog _ _ _ _ _ _ eq_refl) as (older & l1 & l2 & l3 & l4 & Hl & Hmean & _).
  exists older, l1, l2, l3, l4. split; [exact Hl | exact Hmean].
Defined.

(** The transform gives, for the sample of the notebook, the arrays that
    the notebook prints. *)
Example sample_as_printed :
  BERTDatasetTransform Sample.tokenizer max_len all_labels int32
    [Sample.sentence_a; Sample.sentence_b; "1"]
  = Ok [np_array int32 Sample.printed_token_ids;
        np_scalar int32 Sample.printed_valid_length;
        np_array int32 Sample.printed_segment_ids;
        np_array int32 Sample.printed_label].
Proof.
  vm_compute. reflexivity.
Qed.

(** ** More runs of the small instance *)

Lemma toy_failing_run_raises : value_of Toy.failing_run = Raise IndexError.
Proof.
  vm_compute. reflexivity.
Qed.

Lemma toy_mislabelled_raises :
  BERTDatasetTransform (@bert_tokenizer Toy.framework) max_len all_labels int32 Toy.mislabelled
  = Raise KeyError.
Proof.
  vm_compute. reflexivity.
Qed.

Lemma toy_well_labelled_returns :
  forallb (fun line => is_ok (BERTDatasetTransform (@bert_tokenizer Toy.framework) max_len
                                all_labels int32 line))
          Toy.well_labelled = true.
Proof.
  vm_compute. reflexivity.
Qed.

Lemma toy_lines_return :
  forallb (fun line => is_ok (ds_fn Toy.data_train line)) (ds_base Toy.data_train) = true.
Proof.
  vm_compute. reflexivity.
Qed.

Lemma toy_short_setup_returns :
  value_of (@cell_finetune_setup Toy.framework (@prepared_model Toy.framework)
              {| ds_base := [["a"; "b"; "1"]] ++ ["c"; "d"] :: [["e"; "f"; "0"]];
                 ds_fn := Toy.third_field |}
              (@prepared_world Toy.framework))
  = Ok Toy.env_short.
Proof.
  vm_compute. reflexivity.
Qed.

(** On the small instance: what the notebook builds, in order. *)
Lemma setup_calls_come_once_before_the_loop_witness :
  filter is_construction
    (trace_of (@notebook_with Toy.framework BERTDatasetTransform Toy.mrpc_dev
                 (@initial_world Toy.framework Toy.g0)))
  = [ E_np_random_seed 100; E_random_seed 100; E_mx_random_seed 10000;
      E_get_model bert_12_768_12;
      E_BERTClassifier (bert (env_model Toy.env)) 2 (1 # 10);
      E_initialize (flat_map layer_params (classifier (env_model Toy.env))) (Normal (2 # 100));
      E_hybridize; E_SoftmaxCELoss; E_hybridize; E_Accuracy;
      E_MRPCDataset "dev";
      E_BERTTokenizer true; E_BERTDatasetTransform max_len all_labels int32; E_transform;
      E_FixedBucketSampler (env_sampler Toy.env); E_DataLoader (env_sampler Toy.env);
      E_Trainer (env_trainer Toy.env) ].
Proof.
  exact (proj1 (@setup_calls_come_once_before_the_loop Toy.framework BERTDatasetTransform Toy.mrpc_dev
                  Toy.g0 Toy.env toy_notebook_setup_returns)).
Defined.

(** On the small instance: the metric after the training. *)
Lemma final_metric_is_of_last_epoch_witness :
  w_metric (world_of Toy.loop_run)
  = @replay_metric Toy.framework (metric_updates (current_epoch (trace_of Toy.loop_run))).
Proof.
  exact (@final_metric_is_of_last_epoch Toy.framework Toy.env _ toy_loop_returns).
Defined.

(** On the small instance: the first log line is of epoch 0, shows the
    learning rate 5e-6 and counts 5 batches. *)
Lemma log_lines_show_epoch_and_rate_witness :
  lr = lr
  /\ 5%Z = @bucket_sampler_len Toy.framework (env_sampler Toy.env)
  /\ (0 = Z.of_nat (length (filter is_metric_reset (firstn 46 (trace_of Toy.loop_run)))) - 1)%Z
  /\ (0 <= 0 < 3)%Z.
Proof.
  exact (@log_lines_show_epoch_and_rate Toy.framework _ _ _ Toy.env _ _ _ 0%Z 4%Z 5%Z
           39057%Z 75%Z lr toy_setup_returns toy_first_log).
Defined.



(** On the small instance, with a transform that reads the third field: the
    sampler is over the first line only. *)
Lemma an_index_error_ends_the_scan_witness :
  length (sampler_lengths (env_sampler Toy.env_short)) = length [["a"; "b"; "1"]]
  /\ ds_base (env_data Toy.env_short) = [["a"; "b"; "1"]] ++ ["c"; "d"] :: [["e"; "f"; "0"]].
Proof.
  destruct (@an_index_error_ends_the_scan Toy.framework (@prepared_model Toy.framework)
              Toy.third_field [["a"; "b"; "1"]] ["c"; "d"] [["e"; "f"; "0"]]
              (@prepared_world Toy.framework) Toy.env_short)
    as (H1 & H2 & _).
  - repeat constructor.
  - reflexivity.
  - exact toy_short_setup_returns.
  - split; [exact H1 | exact H2].
Defined.

(** On the small instance: nine lines, nine lengths. *)
Lemma sampler_lengths_follow_the_lines_witness :
  length (sampler_lengths (env_sampler Toy.env)) = length (ds_base Toy.data_train).
Proof.
  exact (proj1 (@sampler_lengths_follow_the_lines Toy.framework _ _ _ Toy.env
                  toy_setup_returns
                  (proj2 (all_ok_no_index_error _ _ toy_lines_return)))).
Defined.

(** On the small instance: the three passes of the training. *)
Lemma every_pass_loads_each_batch_once_witness :
  exists p0 p1 p2,
    trace_of Toy.loop_run = p0 ++ p1 ++ p2
    /\ @loads_in_order Toy.framework Toy.env p0
    /\ @loads_in_order Toy.framework Toy.env p1
    /\ @loads_in_order Toy.framework Toy.env p2.
Proof.
  exact (@every_pass_loads_each_batch_once Toy.framework Toy.env _ toy_loop_returns).
Defined.

(** The sampler of the small instance gives non-empty batches of indices
    below the number of its lengths. *)
Lemma toy_chunks (l : list nat) :
  Forall (fun c => c <> [] /\ incl c l) (Toy.chunk2 l).
Proof.
  assert (H : forall n l, length l <= n ->
                          Forall (fun c => c <> [] /\ incl c l) (Toy.chunk2 l)).
  { clear l. induction n as [| n IH]; intros l Hl.
    - destruct l; [constructor | cbn in Hl; lia].
    - destruct l as [| a [| b rest]]; cbn [Toy.chunk2].
      + constructor.
      + constructor; [| constructor]. split; [discriminate | apply incl_refl].
      + constructor.
        * split; [discriminate |]. intros x [<- | [<- | []]]; cbn; auto.
        * cbn in Hl. eapply Forall_impl; [| apply (IH rest); lia].
          intros c [Hc Hi]. split; [exact Hc |].
          intros x Hx. right. right. apply Hi. exact Hx. }
  apply (H (length l)). lia.
Qed.

Lemma toy_sampler_in_range (s : FixedBucketSampler) (g : gens Z) :
  Forall (fun idxs => idxs <> [] /\ Forall (fun i => i < length (sampler_lengths s)) idxs)
         (fst (@bucket_sampler_iter Toy.framework s g)).
Proof.
  cbn [bucket_sampler_iter Toy.framework Toy.sampler_iter fst].
  eapply Forall_impl; [| apply toy_chunks].
  intros c [Hc Hi]. split; [exact Hc |].
  apply Forall_forall. intros i Hin. apply Hi in Hin.
  unfold Toy.rotate in Hin. apply in_app_or in Hin.
  assert (Hs : In i (seq 0 (length (sampler_lengths s)))).
  { rewrite <- (firstn_skipn (Z.to_nat (np_gen g) mod S (length (sampler_lengths s)))
                  (seq 0 (length (sampler_lengths s)))).
    apply in_or_app. destruct Hin as [H | H]; [right | left]; exact H. }
  apply in_seq in Hs. lia.
Qed.

Lemma toy_lines_are_items :
  forallb (fun line => is_item [[128]; []; [128]; [1]]
                         (BERTDatasetTransform (@bert_tokenizer Toy.framework) max_len
                            all_labels int32 line))
          Toy.mrpc_dev = true.
Proof.
  vm_compute. reflexivity.
Qed.

